(** * Device management of the AirScan (eSCL) backend: airscan-device.c

    A shallow embedding of the device table, the address prober, the HTTP
    request tracking, the ScannerCapabilities callback, the option getters
    and the device list, followed by the properties of the specification
    that are settled on it. *)

From Stdlib Require Import ZArith String Ascii List Bool Lia.
From Stdlib Require Import DecimalString.
From stdpp Require Import gmap strings list fin_maps sorting.

Local Open Scope Z_scope.

(** ** Constants *)

(** Max time to wait until device table is ready, in seconds. *)
Definition DEVICE_TABLE_READY_TIMEOUT : Z := 5.

(** Default resolution, DPI. *)
Definition DEVICE_DEFAULT_RESOLUTION : Z := 300.

(** glib: microseconds per second. *)
Definition G_TIME_SPAN_SECOND : Z := 1000000.

(** libsoup: the status code of a message cancelled by the client. *)
Definition SOUP_STATUS_CANCELLED : Z := 1.

(** libsoup: [SOUP_STATUS_IS_SUCCESSFUL (status)]. *)
Definition SOUP_STATUS_IS_SUCCESSFUL (status : Z) : bool :=
  (200 <=? status) && (status <? 300).

(** ** Device flags

    [dev->flags] is an [unsigned int]: a 32-bit word, kept as a [Z] in
    [0, 2^32); the complement is taken within the 32 bits. *)

Module Flags.

Definition DEVICE_LISTED : Z := Z.shiftl 1 0.
Definition DEVICE_READY : Z := Z.shiftl 1 2.
Definition DEVICE_HALTED : Z := Z.shiftl 1 3.
Definition DEVICE_INIT_WAIT : Z := Z.shiftl 1 4.
Definition DEVICE_ALL_FLAGS : Z := 0xffffffff.

(** [~x] on an [unsigned int]. *)
Definition unot (x : Z) : Z := Z.lxor x 0xffffffff.

(** [flags |= f] *)
Definition set_flag (flags f : Z) : Z := Z.lor flags f.

(** [flags &= ~f] *)
Definition clear_flag (flags f : Z) : Z := Z.land flags (unot f).

(** [(flags & f) != 0] *)
Definition has_flag (flags f : Z) : bool := negb (Z.land flags f =? 0).

End Flags.

Import Flags.

(** ** Types shared with the rest of the backend

    airscan.h and the headers of SANE and avahi are not among the
    sources: the types below carry the fields that airscan-device.c reads
    and writes, under their own names (the fields of [SANE_Range] and of
    [devcaps_source] are prefixed, since [min], [max] and [flags] are
    taken). *)

(** [device*] and [SoupMessage*]: addresses, drawn fresh at each
    allocation. *)
Abbreviation ptr := nat (only parsing).
Abbreviation msg_id := nat (only parsing).

(** A [SoupURI], kept in its text form. *)
Abbreviation SoupURI := string (only parsing).

(** Modelled from the spec: [SANE_Range] of sane.h is missing; a range
    of a geometry coordinate or of the resolution, of which the code
    reads [max]. *)
Record SANE_Range := {
  range_min : Z;
  range_max : Z;
  range_quant : Z
}.

(** Modelled from the spec: [devcaps_source] of airscan.h is missing; a
    source profile with its supported colour modes, its resolutions (a
    list or a range) and its four geometry ranges. *)
Record devcaps_source := {
  src_flags : Z;
  resolutions : list Z;
  res_range : SANE_Range;
  sane_colormodes : list string;
  tl_x_range : SANE_Range;
  tl_y_range : SANE_Range;
  br_x_range : SANE_Range;
  br_y_range : SANE_Range
}.

(** Modelled from the spec: [devcaps] of airscan.h is missing; the
    vendor, the model and the source profiles.  [src] is the array
    [devcaps_source *src[NUM_OPT_SOURCE]], indexed by [OPT_SOURCE]; a NULL
    entry is [None]. *)
Record devcaps := {
  vendor : string;
  model : string;
  src : list (option devcaps_source);
  sane_sources : list string
}.

(** Modelled from the spec: the address family of a candidate, of
    avahi's address.h. *)
Inductive AvahiProtocol := AVAHI_PROTO_INET | AVAHI_PROTO_INET6 | AVAHI_PROTO_UNSPEC.

(** Modelled from the spec: [AvahiAddress] is missing; the family and
    the bytes of the address, which only [avahi_address_snprint] reads. *)
Record AvahiAddress := {
  proto : AvahiProtocol;
  data : list Z
}.

(** Modelled from the spec: [zeroconf_addrinfo] of airscan.h is missing;
    a candidate address with its port, its interface, whether it is
    link-local, and its resource path ([rs], NULL is [None]).  This is one
    node of the list; the [next] pointer is the tail of the Rocq list that
    holds the node. *)
Record zeroconf_addrinfo := {
  addr : AvahiAddress;
  port : Z;
  linklocal : bool;
  interface : Z;
  rs : option string
}.

(** Modelled from the spec: the enumeration of the options in airscan.h
    is missing; these are the option numbers that appear in this file,
    and any other number is [OPT_other]. *)
Inductive OPT :=
| OPT_NUM_OPTIONS
| OPT_GROUP_STANDARD
| OPT_SCAN_RESOLUTION
| OPT_SCAN_COLORMODE
| OPT_SCAN_SOURCE
| OPT_GROUP_GEOMETRY
| OPT_SCAN_TL_X
| OPT_SCAN_TL_Y
| OPT_SCAN_BR_X
| OPT_SCAN_BR_Y
| OPT_other (n : Z).

(** The two values of [SANE_Status] that the file returns. *)
Inductive SANE_Status := SANE_STATUS_GOOD | SANE_STATUS_INVAL.

(** What [device_get_option] stores through its [void *value]. *)
Inductive option_value :=
| ValWord (w : Z)
| ValString (s : string).

(** The functions and constants that airscan-device.c takes from
    airscan.h, devcaps, libxml2, libsoup and avahi. *)
Class Externals := {
  NUM_OPTIONS : Z;
  NUM_OPT_SOURCE : Z;
  OPT_SOURCE_UNKNOWN : Z;
  OPT_COLORMODE_UNKNOWN : Z;
  opt_colormode_to_sane : Z -> string;
  opt_source_to_sane : Z -> string;
  devcaps_init : devcaps;
  xmlDoc : Type;
  xmlParseMemory : string -> option xmlDoc;
  (** [err = devcaps_parse (&caps, doc)]: the capabilities as the parser
      leaves them, and the error text, [None] for NULL. *)
  devcaps_parse : devcaps -> xmlDoc -> devcaps * option string;
  devcaps_source_choose_colormode : devcaps_source -> Z -> Z;
  devcaps_source_choose_resolution : devcaps_source -> Z -> Z;
  avahi_address_snprint : AvahiAddress -> string;
  soup_uri_new : string -> option SoupURI;
  (** The base may be NULL. *)
  soup_uri_new_with_base : option SoupURI -> string -> option SoupURI;
  soup_uri_get_path : SoupURI -> string;
  soup_uri_set_path : SoupURI -> string -> SoupURI
}.

(** ** Device descriptor *)

(** The completion handlers a request can carry; the file has one. *)
Inductive http_callback := cb_scanner_capabilities.

(** [addresses] is the captured list, [[]] for NULL; [addr_current]
    points into it and is kept as the list from the pointed node on.
    [opt_desc] is not modelled. *)
Record device := {
  refcnt : Z;
  name : string;
  flags : Z;
  caps : devcaps;
  addresses : list zeroconf_addrinfo;
  addr_current : list zeroconf_addrinfo;
  base_url : option SoupURI;
  http_pending : list msg_id;
  opt_src : Z;
  opt_colormode : Z;
  opt_resolution : Z;
  opt_tl_x : Z;
  opt_tl_y : Z;
  opt_br_x : Z;
  opt_br_y : Z
}.

Definition set_refcnt (v : Z) (d : device) : device :=
  {| refcnt := v; name := name d; flags := flags d; caps := caps d;
     addresses := addresses d; addr_current := addr_current d;
     base_url := base_url d; http_pending := http_pending d;
     opt_src := opt_src d; opt_colormode := opt_colormode d;
     opt_resolution := opt_resolution d; opt_tl_x := opt_tl_x d;
     opt_tl_y := opt_tl_y d; opt_br_x := opt_br_x d; opt_br_y := opt_br_y d |}.

Definition set_flags (v : Z) (d : device) : device :=
  {| refcnt := refcnt d; name := name d; flags := v; caps := caps d;
     addresses := addresses d; addr_current := addr_current d;
     base_url := base_url d; http_pending := http_pending d;
     opt_src := opt_src d; opt_colormode := opt_colormode d;
     opt_resolution := opt_resolution d; opt_tl_x := opt_tl_x d;
     opt_tl_y := opt_tl_y d; opt_br_x := opt_br_x d; opt_br_y := opt_br_y d |}.

Definition set_caps (v : devcaps) (d : device) : device :=
  {| refcnt := refcnt d; name := name d; flags := flags d; caps := v;
     addresses := addresses d; addr_current := addr_current d;
     base_url := base_url d; http_pending := http_pending d;
     opt_src := opt_src d; opt_colormode := opt_colormode d;
     opt_resolution := opt_resolution d; opt_tl_x := opt_tl_x d;
     opt_tl_y := opt_tl_y d; opt_br_x := opt_br_x d; opt_br_y := opt_br_y d |}.

Definition set_addresses (v : list zeroconf_addrinfo) (d : device) : device :=
  {| refcnt := refcnt d; name := name d; flags := flags d; caps := caps d;
     addresses := v; addr_current := addr_current d;
     base_url := base_url d; http_pending := http_pending d;
     opt_src := opt_src d; opt_colormode := opt_colormode d;
     opt_resolution := opt_resolution d; opt_tl_x := opt_tl_x d;
     opt_tl_y := opt_tl_y d; opt_br_x := opt_br_x d; opt_br_y := opt_br_y d |}.

Definition set_addr_current (v : list zeroconf_addrinfo) (d : device) : device :=
  {| refcnt := refcnt d; name := name d; flags := flags d; caps := caps d;
     addresses := addresses d; addr_current := v;
     base_url := base_url d; http_pending := http_pending d;
     opt_src := opt_src d; opt_colormode := opt_colormode d;
     opt_resolution := opt_resolution d; opt_tl_x := opt_tl_x d;
     opt_tl_y := opt_tl_y d; opt_br_x := opt_br_x d; opt_br_y := opt_br_y d |}.

Definition set_base_url (v : option SoupURI) (d : device) : device :=
  {| refcnt := refcnt d; name := name d; flags := flags d; caps := caps d;
     addresses := addresses d; addr_current := addr_current d;
     base_url := v; http_pending := http_pending d;
     opt_src := opt_src d; opt_colormode := opt_colormode d;
     opt_resolution := opt_resolution d; opt_tl_x := opt_tl_x d;
     opt_tl_y := opt_tl_y d; opt_br_x := opt_br_x d; opt_br_y := opt_br_y d |}.

Definition set_http_pending (v : list msg_id) (d : device) : device :=
  {| refcnt := refcnt d; name := name d; flags := flags d; caps := caps d;
     addresses := addresses d; addr_current := addr_current d;
     base_url := base_url d; http_pending := v;
     opt_src := opt_src d; opt_colormode := opt_colormode d;
     opt_resolution := opt_resolution d; opt_tl_x := opt_tl_x d;
     opt_tl_y := opt_tl_y d; opt_br_x := opt_br_x d; opt_br_y := opt_br_y d |}.

(** ** Faults

    A failed [g_assert] aborts the process; following a NULL or a freed
    pointer is undefined.  Both end the run of the model. *)
Inductive fault :=
| AssertFailed (what : string)
| NullDeref
| UseAfterFree.

Inductive result (A : Type) :=
| Ok (a : A)
| Fault (f : fault).
Arguments Ok {A} a.
Arguments Fault {A} f.

#[global] Instance result_ret : MRet result := fun A a => Ok a.
#[global] Instance result_bind : MBind result := fun A B k r =>
  match r with
  | Ok a => k a
  | Fault f => Fault f
  end.

Definition g_assert (b : bool) (what : string) : result unit :=
  if b then Ok tt else Fault (AssertFailed what).

(** ** Process state *)

(** [device_http_userdata] *)
Record device_http_userdata := {
  ud_dev : ptr;
  ud_callback : http_callback
}.

(** A message queued on [device_http_session].  [msg_final] is the
    status forced on it by [soup_session_cancel_message], if any. *)
Record SoupMessage := {
  msg_uri : SoupURI;
  msg_userdata : device_http_userdata;
  msg_final : option Z
}.

(** What the process does that can be seen from outside: the lines of
    [DBG_DEVICE] and the calls into the HTTP session. *)
Inductive action :=
| DbgCreated (dev_name : string)
| DbgDestroyed (dev_name : string)
| DbgRemoved (dev_name : string)
| DbgAlreadyExist (dev_name : string)
| DbgUrl (dev_name : string) (url : string)
| DbgCapsStatus (dev_name : string) (status : Z)
| HttpQueued (m : msg_id) (uri : SoupURI)
| HttpCancelled (m : msg_id).

(** [device_table] is the GTree from names to devices, [heap] the device
    records that are allocated, [device_http_session] the messages queued
    and not yet completed.  [trace] has the newest action first. *)
Record state := {
  device_table : gmap string ptr;
  heap : gmap ptr device;
  next_dev : ptr;
  device_http_session : gmap msg_id SoupMessage;
  next_msg : msg_id;
  trace : list action
}.

Definition initial_state : state :=
  {| device_table := ∅; heap := ∅; next_dev := 1%nat;
     device_http_session := ∅; next_msg := 1%nat; trace := [] |}.

Definition set_device_table (t : gmap string ptr) (s : state) : state :=
  {| device_table := t; heap := heap s; next_dev := next_dev s;
     device_http_session := device_http_session s; next_msg := next_msg s;
     trace := trace s |}.

Definition set_heap (h : gmap ptr device) (s : state) : state :=
  {| device_table := device_table s; heap := h; next_dev := next_dev s;
     device_http_session := device_http_session s; next_msg := next_msg s;
     trace := trace s |}.

Definition set_session (q : gmap msg_id SoupMessage) (s : state) : state :=
  {| device_table := device_table s; heap := heap s; next_dev := next_dev s;
     device_http_session := q; next_msg := next_msg s;
     trace := trace s |}.

Definition emit (a : action) (s : state) : state :=
  {| device_table := device_table s; heap := heap s; next_dev := next_dev s;
     device_http_session := device_http_session s; next_msg := next_msg s;
     trace := a :: trace s |}.

(** [*dev] *)
Definition get_dev (p : ptr) (s : state) : result device :=
  match heap s !! p with
  | Some d => Ok d
  | None => Fault UseAfterFree
  end.

Definition put_dev (p : ptr) (d : device) (s : state) : state :=
  set_heap (<[p := d]> (heap s)) s.

(** ** The code of airscan-device.c *)

Section Code.

Context `{Externals}.

(** *** Device table and reference counting *)

(** [device_add]: a zeroed record ([g_new0]) with its fields set, entered
    into the table under its name.  [g_tree_insert] on a name that is
    present would replace the value; the callers look the name up first. *)
Definition device_add (dev_name : string) (s : state) : ptr * state :=
  let p := next_dev s in
  let dev :=
    {| refcnt := 1; name := dev_name; flags := DEVICE_LISTED;
       caps := devcaps_init;
       addresses := []; addr_current := []; base_url := None;
       http_pending := [];
       opt_src := OPT_SOURCE_UNKNOWN;
       opt_colormode := OPT_COLORMODE_UNKNOWN;
       opt_resolution := 0;
       opt_tl_x := 0; opt_tl_y := 0; opt_br_x := 0; opt_br_y := 0 |} in
  let s :=
    {| device_table := device_table s; heap := <[p := dev]> (heap s);
       next_dev := S p;
       device_http_session := device_http_session s;
       next_msg := next_msg s; trace := trace s |} in
  let s := emit (DbgCreated dev_name) s in
  (p, set_device_table (<[dev_name := p]> (device_table s)) s).

(** [device_ref] *)
Definition device_ref (p : ptr) (s : state) : result (ptr * state) :=
  d ← get_dev p s;
  Ok (p, put_dev p (set_refcnt (refcnt d + 1) d) s).

(** [device_unref]: when the counter drops to zero the two assertions
    are checked and the record is freed. *)
Definition device_unref (p : ptr) (s : state) : result state :=
  d ← get_dev p s;
  let d := set_refcnt (refcnt d - 1) d in
  let s := put_dev p d s in
  if refcnt d =? 0 then
    let s := emit (DbgDestroyed (name d)) s in
    g_assert (negb (has_flag (flags d) DEVICE_LISTED)) "(dev->flags & DEVICE_LISTED) == 0";;
    g_assert (has_flag (flags d) DEVICE_HALTED) "(dev->flags & DEVICE_HALTED) != 0";;
    Ok (set_heap (delete p (heap s)) s)
  else Ok s.

(** [soup_session_cancel_message (device_http_session, msg, status)]: the
    message, if still queued, will complete with [status]. *)
Definition soup_session_cancel_message (m : msg_id) (status : Z) (s : state) : state :=
  let cancel msg :=
    {| msg_uri := msg_uri msg; msg_userdata := msg_userdata msg;
       msg_final := Some status |} in
  emit (HttpCancelled m)
    (set_session (alter cancel m (device_http_session s)) s).

(** [device_del] *)
Definition device_del (p : ptr) (s : state) : result state :=
  d ← get_dev p s;
  let s := emit (DbgRemoved (name d)) s in
  g_assert (has_flag (flags d) DEVICE_LISTED) "(dev->flags & DEVICE_LISTED) != 0";;
  let d := set_flags (clear_flag (flags d) DEVICE_LISTED) d in
  let s := set_device_table (delete (name d) (device_table s)) s in
  let s :=
    foldl (fun s m => soup_session_cancel_message m SOUP_STATUS_CANCELLED s)
      s (http_pending d) in
  let d := set_flags (set_flag (flags d) DEVICE_HALTED) d in
  let d := set_flags (clear_flag (flags d) DEVICE_READY) d in
  device_unref p (put_dev p d s).

(** [device_find] *)
Definition device_find (dev_name : string) (s : state) : option ptr :=
  device_table s !! dev_name.

(** *** HTTP requests *)

(** [device_http_get]: the message is queued on the session and entered
    at the end of [http_pending]. *)
Definition device_http_get (p : ptr) (path : string) (callback : http_callback)
    (s : state) : result state :=
  d ← get_dev p s;
  url ← match soup_uri_new_with_base (base_url d) path with
        | Some u => Ok u
        | None => Fault (AssertFailed "url")
        end;
  let m := next_msg s in
  let data := {| ud_dev := p; ud_callback := callback |} in
  let msg := {| msg_uri := url; msg_userdata := data; msg_final := None |} in
  let s :=
    {| device_table := device_table s; heap := heap s; next_dev := next_dev s;
       device_http_session := <[m := msg]> (device_http_session s);
       next_msg := S m; trace := HttpQueued m url :: trace s |} in
  Ok (put_dev p (set_http_pending (http_pending d ++ [m]) d) s).

(** *** Address probing *)

(** [g_str_has_suffix (path, "/")] *)
Fixpoint has_suffix_slash (path : string) : bool :=
  match path with
  | EmptyString => false
  | String c EmptyString => Ascii.eqb c "/"
  | String _ rest => has_suffix_slash rest
  end.

(** ["%d"] *)
Definition print_d (n : Z) : string := NilZero.string_of_int (Z.to_int n).

(** The text laid down in [str_addr]. *)
Definition str_addr (addrinfo : zeroconf_addrinfo) : string :=
  match proto (addr addrinfo) with
  | AVAHI_PROTO_INET => avahi_address_snprint (addr addrinfo)
  | _ =>
      let l := ("[" ++ avahi_address_snprint (addr addrinfo))%string in
      let l :=
        if linklocal addrinfo
        then (l ++ "%25" ++ print_d (interface addrinfo))%string
        else l in
      (l ++ "]")%string
  end.

(** The text of the device API URL. *)
Definition api_url (addrinfo : zeroconf_addrinfo) : string :=
  match rs addrinfo with
  | Some r =>
      ("http://" ++ str_addr addrinfo ++ ":" ++ print_d (port addrinfo)
         ++ "/" ++ r ++ "/")%string
  | None =>
      ("http://" ++ str_addr addrinfo ++ ":" ++ print_d (port addrinfo) ++ "/")%string
  end.

(** [device_probe_address]; [addrinfo] is the list from the node to probe
    on, [[]] for NULL. *)
Definition device_probe_address (p : ptr) (addrinfo : list zeroconf_addrinfo)
    (s : state) : result state :=
  d ← get_dev p s;
  let d := set_addr_current addrinfo d in
  match addrinfo with
  | [] => Fault NullDeref
  | a :: _ =>
      let url := api_url a in
      let d := set_base_url (soup_uri_new url) d in
      g_assert (bool_decide (base_url d ≠ None)) "dev->base_url != NULL";;
      let s := emit (DbgUrl (name d) url) (put_dev p d s) in
      device_http_get p "ScannerCapabilities" cb_scanner_capabilities s
  end.

(** [device_add_static] *)
Definition device_add_static (dev_name : string) (uri : SoupURI) (s : state)
    : result state :=
  match device_find dev_name s with
  | Some _ => Ok (emit (DbgAlreadyExist dev_name) s)
  | None =>
      let '(p, s) := device_add dev_name s in
      d ← get_dev p s;
      let d := set_flags (set_flag (flags d) DEVICE_INIT_WAIT) d in
      let path := soup_uri_get_path uri in
      let d :=
        if has_suffix_slash path
        then set_base_url (Some uri) d
        else set_base_url (Some (soup_uri_set_path uri (path ++ "/")%string)) d in
      device_http_get p "ScannerCapabilities" cb_scanner_capabilities (put_dev p d s)
  end.

(** [device_found] *)
Definition device_found (dev_name : string) (init_scan : bool)
    (addrs : list zeroconf_addrinfo) (s : state) : result state :=
  match device_find dev_name s with
  | Some _ => Ok (emit (DbgAlreadyExist dev_name) s)
  | None =>
      let '(p, s) := device_add dev_name s in
      d ← get_dev p s;
      let d :=
        if init_scan then set_flags (set_flag (flags d) DEVICE_INIT_WAIT) d else d in
      let d := set_addresses addrs d in
      device_probe_address p (addresses d) (put_dev p d s)
  end.

(** [device_removed] *)
Definition device_removed (dev_name : string) (s : state) : result state :=
  match device_find dev_name s with
  | Some p => device_del p s
  | None => Ok s
  end.

(** *** Options *)

(** [device_set_source], on the record; [device_rebuild_opt_desc] only
    fills [opt_desc] and is left out.  [dev->caps.src[opt_src]] is
    followed, so a NULL entry is a fault. *)
Definition device_set_source (opt : Z) (d : device) : result device :=
  match src (caps d) !! Z.to_nat opt with
  | Some (Some source) =>
      Ok {| refcnt := refcnt d; name := name d; flags := flags d; caps := caps d;
            addresses := addresses d; addr_current := addr_current d;
            base_url := base_url d; http_pending := http_pending d;
            opt_src := opt;
            opt_colormode :=
              devcaps_source_choose_colormode source OPT_COLORMODE_UNKNOWN;
            opt_resolution :=
              devcaps_source_choose_resolution source DEVICE_DEFAULT_RESOLUTION;
            opt_tl_x := 0;
            opt_tl_y := 0;
            opt_br_x := range_max (br_x_range source);
            opt_br_y := range_max (br_y_range source) |}
  | _ => Fault NullDeref
  end.

(** [device_get_option]: the status, and what is stored through [value]
    ([None] when nothing is stored). *)
Definition device_get_option (d : device) (opt : OPT)
    : SANE_Status * option option_value :=
  match opt with
  | OPT_NUM_OPTIONS => (SANE_STATUS_GOOD, Some (ValWord NUM_OPTIONS))
  | OPT_SCAN_RESOLUTION => (SANE_STATUS_GOOD, Some (ValWord (opt_resolution d)))
  | OPT_SCAN_COLORMODE =>
      (SANE_STATUS_GOOD, Some (ValString (opt_colormode_to_sane (opt_colormode d))))
  | OPT_SCAN_SOURCE =>
      (SANE_STATUS_GOOD, Some (ValString (opt_source_to_sane (opt_src d))))
  | OPT_SCAN_TL_X => (SANE_STATUS_GOOD, Some (ValWord (opt_tl_x d)))
  | OPT_SCAN_TL_Y => (SANE_STATUS_GOOD, Some (ValWord (opt_tl_y d)))
  | OPT_SCAN_BR_X => (SANE_STATUS_GOOD, Some (ValWord (opt_tl_x d)))
  | OPT_SCAN_BR_Y => (SANE_STATUS_GOOD, Some (ValWord (opt_tl_y d)))
  | _ => (SANE_STATUS_INVAL, None)
  end.

(** *** Traversing the table *)

(** The order of [g_tree_foreach]: ascending by [strcmp] on the names. *)
Definition name_le (a b : string * ptr) : Prop := String.leb a.1 b.1 = true.

#[global] Instance name_le_dec a b : Decision (name_le a b).
Proof. unfold name_le. apply _. Defined.

Definition g_tree_foreach (t : gmap string ptr) : list (string * ptr) :=
  merge_sort name_le (map_to_list t).

(** [device_table_collect]: the devices of the table whose flags meet
    [mask], in table order; the count is the length of the list. *)
Definition device_table_collect (mask : Z) (s : state) : list ptr :=
  omap (fun kv : string * ptr =>
          match heap s !! kv.2 with
          | Some d => if has_flag mask (flags d) then Some kv.2 else None
          | None => None
          end)
       (g_tree_foreach (device_table s)).

(** [device_table_size] *)
Definition device_table_size (s : state) : nat := size (device_table s).

(** The [for] loop of [device_table_purge]. *)
Fixpoint device_del_each (devices : list ptr) (s : state) : result state :=
  match devices with
  | [] => Ok s
  | p :: rest => s ← device_del p s; device_del_each rest s
  end.

(** [device_table_purge] *)
Definition device_table_purge (s : state) : result state :=
  device_del_each (device_table_collect DEVICE_ALL_FLAGS s) s.

(** [device_table_ready] *)
Definition device_table_ready (s : state) : bool :=
  (length (device_table_collect DEVICE_INIT_WAIT s) =? 0)%nat.

(** *** ScannerCapabilities *)

(** The part of [device_scanner_capabilities_callback] above [DONE]:
    the capabilities as they are left, and [err]. *)
Definition capabilities_check (status : Z) (body : string) (c : devcaps)
    : devcaps * option string :=
  if negb (SOUP_STATUS_IS_SUCCESSFUL status)
  then (c, Some "failed to load ScannerCapabilities"%string)
  else
    match xmlParseMemory body with
    | None => (c, Some "failed to parse ScannerCapabilities response XML"%string)
    | Some doc => devcaps_parse c doc
    end.

(** [dev->caps.src[opt] == NULL] *)
Definition src_is_null (c : devcaps) (opt : Z) : bool :=
  match src c !! Z.to_nat opt with
  | Some (Some _) => false
  | _ => true
  end.

(** The [while] loop that chooses the initial source, with [n] rounds
    left; it is run with [NUM_OPT_SOURCE] rounds, which it cannot
    exceed. *)
Fixpoint initial_source_loop (n : nat) (opt : Z) (c : devcaps) : Z :=
  match n with
  | O => opt
  | S n' =>
      if (opt <? NUM_OPT_SOURCE) && src_is_null c opt
      then initial_source_loop n' (opt + 1) c
      else opt
  end.

Definition initial_source (c : devcaps) : Z :=
  initial_source_loop (Z.to_nat NUM_OPT_SOURCE) 0 c.

(** [device_scanner_capabilities_callback]; [g_cond_broadcast] wakes the
    waiters of [device_list_get] and changes nothing here. *)
Definition device_scanner_capabilities_callback (p : ptr) (status : Z)
    (body : string) (s : state) : result state :=
  d ← get_dev p s;
  let s := emit (DbgCapsStatus (name d) status) s in
  let '(c, err) := capabilities_check status body (caps d) in
  let d := set_caps c d in
  let s := put_dev p d s in
  match err with
  | Some _ =>
      match addr_current d with
      | _ :: ((_ :: _) as next) => device_probe_address p next s
      | _ => device_del p s
      end
  | None =>
      let opt := initial_source (caps d) in
      g_assert (negb (opt =? NUM_OPT_SOURCE)) "opt_src != NUM_OPT_SOURCE";;
      d ← device_set_source opt d;
      let d := set_flags (set_flag (flags d) DEVICE_READY) d in
      let d := set_flags (clear_flag (flags d) DEVICE_INIT_WAIT) d in
      Ok (put_dev p d s)
  end.

(** [g_ptr_array_remove]: the first occurrence is taken out. *)
Fixpoint g_ptr_array_remove (m : msg_id) (l : list msg_id) : list msg_id :=
  match l with
  | [] => []
  | x :: rest => if bool_decide (x = m) then rest else x :: g_ptr_array_remove m rest
  end.

(** The caller gives up one handle. *)
Definition release (h : ptr) (handles : list ptr) : list ptr :=
  g_ptr_array_remove h handles.

Definition call (callback : http_callback) (p : ptr) (status : Z) (body : string)
    (s : state) : result state :=
  match callback with
  | cb_scanner_capabilities => device_scanner_capabilities_callback p status body s
  end.

(** [device_http_callback] for the message [m] that completed with
    [status] and [body]. *)
Definition device_http_callback (m : msg_id) (status : Z) (body : string)
    (userdata : device_http_userdata) (s : state) : result state :=
  if negb (status =? SOUP_STATUS_CANCELLED) then
    d ← get_dev (ud_dev userdata) s;
    let d := set_http_pending (g_ptr_array_remove m (http_pending d)) d in
    call (ud_callback userdata) (ud_dev userdata) status body
      (put_dev (ud_dev userdata) d s)
  else Ok s.

(** *** Opening and closing *)

(** [device_open] *)
Definition device_open (dev_name : string) (s : state) : result (option ptr * state) :=
  match device_find dev_name s with
  | Some p =>
      d ← get_dev p s;
      if has_flag (flags d) DEVICE_READY
      then '(p, s) ← device_ref p s; Ok (Some p, s)
      else Ok (None, s)
  | None => Ok (None, s)
  end.

(** [device_close] *)
Definition device_close (p : ptr) (s : state) : result state :=
  device_unref p s.

(** *** Stopping *)

(** [soup_session_abort]: every queued message is cancelled. *)
Definition soup_session_abort (s : state) : state :=
  let cancel msg :=
    {| msg_uri := msg_uri msg; msg_userdata := msg_userdata msg;
       msg_final := Some SOUP_STATUS_CANCELLED |} in
  set_session (cancel <$> device_http_session s) s.

(** [device_management_stop] *)
Definition device_management_stop (s : state) : result state :=
  device_table_purge (soup_session_abort s).

(** *** The device list *)

(** [SANE_Device] *)
Record SANE_Device := {
  sane_name : string;
  sane_vendor : string;
  sane_model : string;
  sane_type : string
}.

(** The list that [device_list_get] builds once it has stopped waiting. *)
Definition build_list (s : state) : list SANE_Device :=
  omap (fun p : ptr =>
          match heap s !! p with
          | Some d =>
              Some {| sane_name := name d;
                      sane_vendor := vendor (caps d);
                      sane_model := model (caps d);
                      sane_type := "eSCL network scanner" |}
          | None => None
          end)
       (device_table_collect DEVICE_READY s).

(** What [device_list_get] finds each time it evaluates the condition of
    its loop: the state left by the airscan thread, the answer of
    [zeroconf_init_scan ()] and the reading of [g_get_monotonic_time ()].
    The first view is taken on entry, the next ones each time
    [eloop_cond_wait] returns. *)
Record view := {
  view_state : state;
  view_init_scan : bool;
  view_time : Z
}.

(** The condition of the [while] loop. *)
Definition must_wait (timeout : Z) (v : view) : bool :=
  (negb (device_table_ready (view_state v)) || view_init_scan v)
  && (view_time v <? timeout).

(** The [while] loop over the views still to come: the view at which the
    loop is left, and the number of calls of [eloop_cond_wait], each made
    with [timeout].  [None]: the loop is still waiting when the views
    end. *)
Fixpoint wait_loop (timeout : Z) (views : list view) (waits : nat)
    : option (view * nat) :=
  match views with
  | [] => None
  | v :: rest =>
      if must_wait timeout v
      then wait_loop timeout rest (S waits)
      else Some (v, waits)
  end.

(** [device_list_get], entered at the time [now]. *)
Definition device_list_get (now : Z) (views : list view)
    : option (list SANE_Device) :=
  let timeout := now + DEVICE_TABLE_READY_TIMEOUT * G_TIME_SPAN_SECOND in
  match wait_loop timeout views O with
  | Some (v, _) => Some (build_list (view_state v))
  | None => None
  end.

End Code.

(** ** The process and its callers

    Between [device_management_start] and the end of the process the
    state changes by the calls below.  [held] are the handles that
    [device_open] has returned and that were not yet given to
    [device_close]. *)
Record world := {
  st : state;
  held : list ptr
}.

Definition initial_world : world := {| st := initial_state; held := [] |}.

Inductive event :=
| EvAddStatic (dev_name : string) (uri : SoupURI)
| EvFound (dev_name : string) (init_scan : bool) (addrs : list zeroconf_addrinfo)
| EvRemoved (dev_name : string)
| EvHttpDone (m : msg_id) (status : Z) (body : string)
| EvStop
| EvOpen (dev_name : string)
| EvClose (h : ptr).

Section Process.

Context `{Externals}.

(** The session completes the queued message [m]: with the status forced
    by a cancellation if there was one, else with what came from the
    network.  [SOUP_STATUS_CANCELLED] is set by cancellation only: a
    message that was not cancelled does not complete with it. *)
Definition http_done (m : msg_id) (status : Z) (body : string) (s : state)
    : result state :=
  match device_http_session s !! m with
  | Some msg =>
      let s' := set_session (delete m (device_http_session s)) s in
      match msg_final msg with
      | Some forced => device_http_callback m forced body (msg_userdata msg) s'
      | None =>
          if status =? SOUP_STATUS_CANCELLED then Ok s
          else device_http_callback m status body (msg_userdata msg) s'
      end
  | None => Ok s
  end.

(** One call.  A completion for a message that is not queued, and a
    [device_close] on a handle that is not held, do not occur: they leave
    the world as it is. *)
Definition step (e : event) (w : world) : result world :=
  match e with
  | EvAddStatic n uri =>
      s ← device_add_static n uri (st w); Ok {| st := s; held := held w |}
  | EvFound n init_scan addrs =>
      s ← device_found n init_scan addrs (st w); Ok {| st := s; held := held w |}
  | EvRemoved n =>
      s ← device_removed n (st w); Ok {| st := s; held := held w |}
  | EvHttpDone m status body =>
      s ← http_done m status body (st w); Ok {| st := s; held := held w |}
  | EvStop =>
      s ← device_management_stop (st w); Ok {| st := s; held := held w |}
  | EvOpen n =>
      '(r, s) ← device_open n (st w);
      Ok {| st := s; held := match r with Some h => h :: held w | None => held w end |}
  | EvClose h =>
      if bool_decide (h ∈ held w)
      then s ← device_close h (st w);
           Ok {| st := s; held := release h (held w) |}
      else Ok w
  end.

(** The run of a list of calls, stopping at the first fault. *)
Fixpoint run (es : list event) (w : world) : result world :=
  match es with
  | [] => Ok w
  | e :: rest => w ← step e w; run rest w
  end.

Inductive reachable : world -> Prop :=
| reachable_initial : reachable initial_world
| reachable_step w e w' : reachable w -> step e w = Ok w' -> reachable w'.

End Process.

(** ** The flags, one bit at a time *)

Module FlagBits.

Inductive bit := Listed | Ready | Halted | InitWait.

#[global] Instance bit_eq_dec : EqDecision bit.
Proof. solve_decision. Defined.

Definition bit_index (b : bit) : Z :=
  match b with Listed => 0 | Ready => 2 | Halted => 3 | InitWait => 4 end.

Definition mask (b : bit) : Z :=
  match b with
  | Listed => DEVICE_LISTED
  | Ready => DEVICE_READY
  | Halted => DEVICE_HALTED
  | InitWait => DEVICE_INIT_WAIT
  end.

(** The four flags of a device, read as the code reads them. *)
Definition listed (d : device) : bool := has_flag (flags d) DEVICE_LISTED.
Definition ready (d : device) : bool := has_flag (flags d) DEVICE_READY.
Definition halted (d : device) : bool := has_flag (flags d) DEVICE_HALTED.
Definition init_wait (d : device) : bool := has_flag (flags d) DEVICE_INIT_WAIT.

End FlagBits.

Import FlagBits.

(** ** Words for the properties *)



(** *** The invariant of the process *)

(** The number of handles on [p] that callers hold. *)
Definition handles_on (p : ptr) (hl : list ptr) : Z :=
  Z.of_nat (length (filter (fun h => h = p) hl)).

(** The flags of one device fit together. *)
Definition flags_ok (d : device) : Prop :=
  ready d && init_wait d = false
  /\ halted d = negb (listed d)
  /\ (ready d = true -> listed d = true).

(** What holds of each record: it is in the table under its name while
    listed, its counter is the table's reference plus the handles held,
    and its pending requests are distinct and known to the session. *)
Record device_inv (s : state) (hl : list ptr) (p : ptr) (d : device) : Prop := {
  di_flags : flags_ok d;
  di_table : listed d = true -> device_table s !! name d = Some p;
  di_refcnt : refcnt d = (if listed d then 1 else 0) + handles_on p hl;
  di_refcnt_pos : 0 < refcnt d;
  di_pending : NoDup (http_pending d);
  di_pending_fresh : forall m, m ∈ http_pending d -> (m < next_msg s)%nat
}.

(** What holds of the state, with the handles [hl] held: the table
    points to listed records under their names, a queued message that was
    not cancelled belongs to a listed device and is among its pending
    requests, a forced status is [SOUP_STATUS_CANCELLED], and every handle
    is on an allocated record. *)
Record inv (s : state) (hl : list ptr) : Prop := {
  inv_device : forall p d, heap s !! p = Some d -> device_inv s hl p d;
  inv_heap_fresh : forall p d, heap s !! p = Some d -> (p < next_dev s)%nat;
  inv_table :
    forall n p, device_table s !! n = Some p ->
    exists d, heap s !! p = Some d /\ name d = n /\ listed d = true;
  inv_session_fresh :
    forall m msg, device_http_session s !! m = Some msg -> (m < next_msg s)%nat;
  inv_session :
    forall m msg, device_http_session s !! m = Some msg ->
    msg_final msg = None ->
    exists d, heap s !! ud_dev (msg_userdata msg) = Some d
              /\ listed d = true /\ m ∈ http_pending d;
  inv_final :
    forall m msg status, device_http_session s !! m = Some msg ->
    msg_final msg = Some status -> status = SOUP_STATUS_CANCELLED;
  inv_held : forall h, h ∈ hl -> is_Some (heap s !! h)
}.

(** *** Removal and freeing *)

(** The loop of [device_del] over [http_pending]. *)
Definition cancel_all (l : list msg_id) (s : state) : state :=
  foldl (fun s m => soup_session_cancel_message m SOUP_STATUS_CANCELLED s) s l.

(** A message after [soup_session_cancel_message]. *)
Definition cancelled (msg : SoupMessage) : SoupMessage :=
  {| msg_uri := msg_uri msg; msg_userdata := msg_userdata msg;
     msg_final := Some SOUP_STATUS_CANCELLED |}.




(** *** Probing *)

(** The requests queued so far, oldest first. *)
Fixpoint requests_of (t : list action) : list SoupURI :=
  match t with
  | [] => []
  | a :: t' =>
      requests_of t' ++ match a with HttpQueued _ uri => [uri] | _ => [] end
  end.

(** What a candidate answers: the status and the body. *)
Definition response : Type := Z * string.

Section ProbingWords.
Context `{Externals}.

(** The request that probing [a] queues, when libsoup takes the URLs. *)
Definition request_uri (a : zeroconf_addrinfo) : option SoupURI :=
  match soup_uri_new (api_url a) with
  | Some u => soup_uri_new_with_base (Some u) "ScannerCapabilities"
  | None => None
  end.

(** The answers arrive one after the other, each for the request at the
    head of [http_pending] of the device at [p]; when the device has no
    request in flight, or is gone, nothing is delivered. *)
Fixpoint deliver (p : ptr) (rs : list response) (s : state) : result state :=
  match rs with
  | [] => Ok s
  | (status, body) :: rest =>
      match heap s !! p with
      | Some d =>
          match http_pending d with
          | m :: _ => s ← http_done m status body s; deliver p rest s
          | [] => Ok s
          end
      | None => Ok s
      end
  end.

(** The verdicts of [capabilities_check] on the answers, taken in order,
    each on the capabilities that the one before has left; [None] is
    success. *)
Fixpoint verdicts (c : devcaps) (rs : list response) : list (option string) :=
  match rs with
  | [] => []
  | (status, body) :: rest =>
      let '(c', err) := capabilities_check status body c in
      err :: verdicts c' rest
  end.

(** The capabilities left by the answer that first succeeds. *)
Fixpoint first_success (c : devcaps) (rs : list response) : option (nat * devcaps) :=
  match rs with
  | [] => None
  | (status, body) :: rest =>
      match capabilities_check status body c with
      | (c', None) => Some (O, c')
      | (c', Some _) =>
          match first_success c' rest with
          | Some (i, c'') => Some (S i, c'')
          | None => None
          end
      end
  end.

(** The device at [p] is probing the head of [cur], with the request [m]
    in flight and no other reference than the table's. *)
Record probing (s : state) (p : ptr) (cur : list zeroconf_addrinfo)
    (d : device) (m : msg_id) : Prop := {
  pr_dev : heap s !! p = Some d;
  pr_cur : addr_current d = cur;
  pr_listed : listed d = true;
  pr_ready : ready d = false;
  pr_refcnt : refcnt d = 1;
  pr_base : exists a u, head cur = Some a /\ soup_uri_new (api_url a) = Some u
                        /\ base_url d = Some u;
  pr_pending : http_pending d = [m];
  pr_msg : exists q,
      device_http_session s !! m
      = Some {| msg_uri := q;
                msg_userdata := {| ud_dev := p; ud_callback := cb_scanner_capabilities |};
                msg_final := None |}
}.

(** The queued requests can be built for [a]. *)
Definition uris_ok (a : zeroconf_addrinfo) : Prop :=
  exists u q, soup_uri_new (api_url a) = Some u
              /\ soup_uri_new_with_base (Some u) "ScannerCapabilities" = Some q.

(** The capabilities have a source below [NUM_OPT_SOURCE]. *)
Definition has_source (c : devcaps) : Prop :=
  exists j source,
    0 <= j < NUM_OPT_SOURCE /\ src c !! Z.to_nat j = Some (Some source).

End ProbingWords.

(** ** Starting and cleaning up *)

Section Management.
Context `{Externals}.




(** [device_management_cleanup], with the table allocated: the assertion
    that nothing is left in it. *)
Definition device_management_cleanup (s : state) : result state :=
  g_assert (device_table_size s =? 0)%nat "g_tree_nnodes(device_table) == 0";;
  Ok s.

End Management.

(** ** Words for the properties of the rest *)

(** The entry of [device_list_get] for the device of a table node. *)
Definition list_entry (s : state) (kv : string * ptr) : option SANE_Device :=
  match heap s !! kv.2 with
  | Some d =>
      if has_flag DEVICE_READY (flags d)
      then Some {| sane_name := name d; sane_vendor := vendor (caps d);
                   sane_model := model (caps d);
                   sane_type := "eSCL network scanner" |}
      else None
  | None => None
  end.


(** The requests of one device: it has at most one pending; a ready
    device has none; a listed device that is not ready has one, queued
    and not cancelled, with the device in its user data. *)
Definition busy_dev (s : state) (p : ptr) (d : device) : Prop :=
  (length (http_pending d) <= 1)%nat
  /\ (ready d = true -> http_pending d = [])
  /\ (listed d = true -> ready d = false ->
      exists m msg,
        http_pending d = [m] /\ device_http_session s !! m = Some msg
        /\ msg_final msg = None /\ ud_dev (msg_userdata msg) = p).

(** [busy_dev] for every record, but the one at [ex] if any. *)
Definition busy (s : state) (ex : option ptr) : Prop :=
  forall p d, heap s !! p = Some d -> ex <> Some p -> busy_dev s p d.

Section OptionWords.
Context `{Externals}.

(** The options of [d] are those that [device_set_source] leaves, for a
    source that the capabilities of [d] hold. *)
Definition configured (d : device) : Prop :=
  exists source,
    0 <= opt_src d < NUM_OPT_SOURCE
    /\ src (caps d) !! Z.to_nat (opt_src d) = Some (Some source)
    /\ opt_colormode d
       = devcaps_source_choose_colormode source OPT_COLORMODE_UNKNOWN
    /\ opt_resolution d
       = devcaps_source_choose_resolution source DEVICE_DEFAULT_RESOLUTION
    /\ opt_tl_x d = 0 /\ opt_tl_y d = 0
    /\ opt_br_x d = range_max (br_x_range source)
    /\ opt_br_y d = range_max (br_y_range source).

(** A record that is listed and not ready is held by no caller, with
    the handles [hl] held; any other record has its options. *)
Definition settled (s : state) (hl : list ptr) : Prop :=
  forall p d, heap s !! p = Some d ->
    (listed d = true -> ready d = false -> p ∉ hl)
    /\ (ready d = true \/ listed d = false -> configured d).

End OptionWords.

(** ** A concrete instance of the collaborators

    A small stand-in for the parser and the libraries, on which the
    definitions above can be run: a response body is the name of a
    capability record, the text of an address is its numbers joined by
    dots or colons, and a URI is resolved by appending. *)
Module Sample.

Definition platen : devcaps_source :=
  {| src_flags := 0; resolutions := [75; 150; 300; 600];
     res_range := {| range_min := 75; range_max := 600; range_quant := 0 |};
     sane_colormodes := ["Color"; "Gray"]%string;
     tl_x_range := {| range_min := 0; range_max := 2000; range_quant := 0 |};
     tl_y_range := {| range_min := 0; range_max := 3000; range_quant := 0 |};
     br_x_range := {| range_min := 100; range_max := 2100; range_quant := 0 |};
     br_y_range := {| range_min := 100; range_max := 3100; range_quant := 0 |} |}.

Definition adf : devcaps_source :=
  {| src_flags := 0; resolutions := [200; 400];
     res_range := {| range_min := 200; range_max := 400; range_quant := 0 |};
     sane_colormodes := ["Gray"]%string;
     tl_x_range := {| range_min := 5; range_max := 1000; range_quant := 0 |};
     tl_y_range := {| range_min := 7; range_max := 1500; range_quant := 0 |};
     br_x_range := {| range_min := 50; range_max := 1050; range_quant := 0 |};
     br_y_range := {| range_min := 50; range_max := 1550; range_quant := 0 |} |}.

Definition caps_of (doc : string) : option devcaps :=
  if String.eqb doc "platen+adf"
  then Some {| vendor := "ACME"; model := "MF-1";
               src := [Some platen; Some adf; None];
               sane_sources := ["Flatbed"; "ADF"]%string |}
  else if String.eqb doc "adf"
  then Some {| vendor := "ACME"; model := "SF-2";
               src := [None; Some adf; None];
               sane_sources := ["ADF"]%string |}
  else None.

Definition join (sep : string) (l : list Z) : string :=
  String.concat sep (map print_d l).

#[global] Instance externals : Externals := {|
  NUM_OPTIONS := 10;
  NUM_OPT_SOURCE := 3;
  OPT_SOURCE_UNKNOWN := -1;
  OPT_COLORMODE_UNKNOWN := -1;
  opt_colormode_to_sane := fun m => if m =? 0 then "Color"%string else "Gray"%string;
  opt_source_to_sane := fun o => if o =? 0 then "Flatbed"%string else "ADF"%string;
  devcaps_init := {| vendor := ""; model := ""; src := [None; None; None];
                     sane_sources := [] |};
  xmlDoc := string;
  xmlParseMemory := fun body => if String.eqb body "" then None else Some body;
  devcaps_parse := fun c doc =>
    match caps_of doc with
    | Some c' => (c', None)
    | None => (c, Some "unknown capabilities"%string)
    end;
  devcaps_source_choose_colormode := fun source wanted =>
    match sane_colormodes source with
    | first :: _ => if String.eqb first "Color" then 0 else 1
    | [] => wanted
    end;
  devcaps_source_choose_resolution := fun source wanted =>
    if bool_decide (wanted ∈ resolutions source) then wanted
    else hd wanted (resolutions source);
  avahi_address_snprint := fun a =>
    match proto a with
    | AVAHI_PROTO_INET => join "." (data a)
    | _ => join ":" (data a)
    end;
  soup_uri_new := fun text => Some text;
  soup_uri_new_with_base := fun base path =>
    match base with
    | Some b => Some (b ++ path)%string
    | None => None
    end;
  soup_uri_get_path := fun uri => uri;
  soup_uri_set_path := fun _ path => path
|}.

Definition inet (a b c d : Z) (p : Z) : zeroconf_addrinfo :=
  {| addr := {| proto := AVAHI_PROTO_INET; data := [a; b; c; d] |};
     port := p; linklocal := false; interface := 2; rs := None |}.

Definition inet6 (words : list Z) (p : Z) (ll : bool) (ifindex : Z)
    : zeroconf_addrinfo :=
  {| addr := {| proto := AVAHI_PROTO_INET6; data := words |};
     port := p; linklocal := ll; interface := ifindex; rs := Some "eSCL"%string |}.

End Sample.

(** ** Runs on the sample instance *)

Module SampleRuns.

Import Sample.

Definition A : zeroconf_addrinfo := inet 192 0 2 5 80.
Definition B : zeroconf_addrinfo := inet6 [65152; 0; 0; 1] 8080 true 3.
Definition C : zeroconf_addrinfo := inet6 [8193; 3512; 0; 1] 443 false 3.

Definition world_after (es : list event) : world :=
  match run es initial_world with
  | Ok w => w
  | Fault _ => initial_world
  end.

(** "Printer1" was found at [A] and its request is in flight. *)
Definition probing : world := world_after [EvFound "Printer1" true [A]].

(** "Printer1" answered with a flatbed and a feeder. *)
Definition negotiated : world :=
  world_after [EvFound "Printer1" true [A]; EvHttpDone 1 200 "platen+adf"].


(** "Printer1" was opened, and then removed while the handle is held. *)
Definition removed_while_open : world :=
  world_after [EvFound "Printer1" true [A]; EvHttpDone 1 200 "platen+adf";
               EvOpen "Printer1"; EvRemoved "Printer1"].

Definition device_at (w : world) (p : ptr) : device :=
  default
    {| refcnt := 0; name := ""; flags := 0; caps := devcaps_init;
       addresses := []; addr_current := []; base_url := None;
       http_pending := []; opt_src := 0; opt_colormode := 0;
       opt_resolution := 0; opt_tl_x := 0; opt_tl_y := 0;
       opt_br_x := 0; opt_br_y := 0 |}
    (heap (st w) !! p).

(** The answers of the three candidates: not found, not capabilities,
    capabilities. *)
Definition answers : list response :=
  [(404, ""%string); (200, "zzz"%string); (200, "platen+adf"%string)].

End SampleRuns.

(** ** A parser that accepts a document without sources *)

Module Bare.

Definition externals : Externals := {|
  NUM_OPTIONS := 10;
  NUM_OPT_SOURCE := 3;
  OPT_SOURCE_UNKNOWN := -1;
  OPT_COLORMODE_UNKNOWN := -1;
  opt_colormode_to_sane := fun _ => "Color"%string;
  opt_source_to_sane := fun _ => "Flatbed"%string;
  devcaps_init := {| vendor := ""; model := ""; src := [None; None; None];
                     sane_sources := [] |};
  xmlDoc := string;
  xmlParseMemory := fun body => Some body;
  devcaps_parse := fun c _ => (c, None);
  devcaps_source_choose_colormode := fun _ wanted => wanted;
  devcaps_source_choose_resolution := fun _ wanted => wanted;
  avahi_address_snprint := fun _ => "192.0.2.1"%string;
  soup_uri_new := fun text => Some text;
  soup_uri_new_with_base := fun base path =>
    match base with
    | Some b => Some (b ++ path)%string
    | None => None
    end;
  soup_uri_get_path := fun uri => uri;
  soup_uri_set_path := fun _ path => path
|}.

End Bare.

(** ** More runs on the sample instance *)

Module MoreRuns.

Import Sample SampleRuns.

(** "Printer1" is ready and opened once. *)
Definition opened : world :=
  world_after [EvFound "Printer1" true [A]; EvHttpDone 1 200 "platen+adf";
               EvOpen "Printer1"].

(** "Zeta" and "Alpha" were found in this order and both are ready. *)
Definition two_ready : world :=
  world_after [EvFound "Zeta" true [A]; EvFound "Alpha" false [A];
               EvHttpDone 1 200 "platen+adf"; EvHttpDone 2 200 "adf"].


End MoreRuns.

(** * Properties *)

(** ** Flags, bit by bit *)

Module FlagFacts.

Lemma mask_pow2 b : mask b = 2 ^ bit_index b.
Proof. by destruct b. Qed.

Lemma bit_index_range b : 0 <= bit_index b < 32.
Proof. destruct b; simpl; lia. Qed.

Lemma bit_index_inj b c : bit_index b = bit_index c -> b = c.
Proof. by destruct b, c. Qed.

Lemma has_flag_testbit fl b :
  has_flag fl (mask b) = Z.testbit fl (bit_index b).
Proof.
  unfold has_flag. rewrite mask_pow2.
  pose proof (bit_index_range b) as Hr.
  destruct (Z.testbit fl (bit_index b)) eqn:Hb.
  - apply negb_true_iff, Z.eqb_neq. intros H0.
    assert (Ht : Z.testbit (Z.land fl (2 ^ bit_index b)) (bit_index b) = true).
    { rewrite Z.land_spec, Hb, Z.pow2_bits_true; [done | lia]. }
    rewrite H0, Z.bits_0 in Ht. discriminate.
  - apply negb_false_iff, Z.eqb_eq. apply Z.bits_inj'. intros n Hn.
    rewrite Z.land_spec, Z.bits_0.
    destruct (decide (n = bit_index b)) as [->|Hne].
    + by rewrite Hb.
    + rewrite Z.pow2_bits_false; [apply andb_false_r | lia].
Qed.

Lemma testbit_unot x n :
  0 <= n < 32 -> Z.testbit (unot x) n = negb (Z.testbit x n).
Proof.
  intros Hn. unfold unot. rewrite Z.lxor_spec.
  change 0xffffffff with (Z.ones 32).
  rewrite Z.ones_spec_low by lia. by destruct (Z.testbit x n).
Qed.

Lemma has_set fl b c :
  has_flag (set_flag fl (mask b)) (mask c)
  = if decide (b = c) then true else has_flag fl (mask c).
Proof.
  rewrite !has_flag_testbit. unfold set_flag.
  rewrite Z.lor_spec, (mask_pow2 b).
  pose proof (bit_index_range b) as Hr.
  destruct (decide (b = c)) as [->|Hne].
  - rewrite Z.pow2_bits_true by lia. apply orb_true_r.
  - rewrite Z.pow2_bits_false; [apply orb_false_r|].
    intros Heq. by apply Hne, bit_index_inj.
Qed.

Lemma has_clear fl b c :
  has_flag (clear_flag fl (mask b)) (mask c)
  = if decide (b = c) then false else has_flag fl (mask c).
Proof.
  rewrite !has_flag_testbit. unfold clear_flag.
  pose proof (bit_index_range c) as Hr.
  rewrite Z.land_spec, testbit_unot, (mask_pow2 b) by lia.
  destruct (decide (b = c)) as [->|Hne].
  - rewrite Z.pow2_bits_true by lia. apply andb_false_r.
  - rewrite Z.pow2_bits_false; [apply andb_true_r|].
    intros Heq. by apply Hne, bit_index_inj.
Qed.

Lemma has_initial b :
  has_flag DEVICE_LISTED (mask b) = if decide (b = Listed) then true else false.
Proof. by destruct b. Qed.

Lemma has_flag_comm a b : has_flag a b = has_flag b a.
Proof. unfold has_flag. by rewrite Z.land_comm. Qed.

Lemma has_all_flags fl b :
  has_flag fl (mask b) = true -> has_flag DEVICE_ALL_FLAGS fl = true.
Proof.
  rewrite has_flag_testbit. intros Hb. unfold has_flag.
  apply negb_true_iff, Z.eqb_neq. intros H0.
  pose proof (bit_index_range b) as Hr.
  assert (Ht : Z.testbit (Z.land DEVICE_ALL_FLAGS fl) (bit_index b) = true).
  { rewrite Z.land_spec, Hb. change DEVICE_ALL_FLAGS with (Z.ones 32).
    by rewrite Z.ones_spec_low by lia. }
  rewrite H0, Z.bits_0 in Ht. discriminate.
Qed.

Lemma listed_mask d : listed d = has_flag (flags d) (mask Listed).
Proof. done. Qed.
Lemma ready_mask d : ready d = has_flag (flags d) (mask Ready).
Proof. done. Qed.
Lemma halted_mask d : halted d = has_flag (flags d) (mask Halted).
Proof. done. Qed.
Lemma init_wait_mask d : init_wait d = has_flag (flags d) (mask InitWait).
Proof. done. Qed.

End FlagFacts.

Import FlagFacts.

(** Rewrites a goal about the flags of an updated record down to the
    flags of the record it was made from. *)
Ltac flag_simpl :=
  unfold listed, ready, halted, init_wait in *; simpl in *;
  change DEVICE_LISTED with (mask Listed) in *;
  change DEVICE_READY with (mask Ready) in *;
  change DEVICE_HALTED with (mask Halted) in *;
  change DEVICE_INIT_WAIT with (mask InitWait) in *;
  repeat first [rewrite has_set in * | rewrite has_clear in *
               | rewrite has_initial in *];
  simpl in *.

(** ** The result monad *)

Lemma bind_Ok {A B} (m : result A) (k : A -> result B) b :
  (m ≫= k) = Ok b <-> exists a, m = Ok a /\ k a = Ok b.
Proof.
  destruct m as [a|f]; simpl; split.
  - intros Hk. by exists a.
  - by intros (a' & [= <-] & Hk).
  - discriminate.
  - by intros (a' & [=] & _).
Qed.


Lemma g_assert_Ok b what u : g_assert b what = Ok u <-> b = true.
Proof. destruct b, u; simpl; split; done. Qed.


(** ** The initial source and the defaults that follow from it *)

Section Options.
Context `{Externals}.

Lemma initial_source_loop_spec n opt c :
  let r := initial_source_loop n opt c in
  opt <= r <= opt + Z.of_nat n
  /\ (forall j, opt <= j < r -> j < NUM_OPT_SOURCE /\ src_is_null c j = true)
  /\ (r < opt + Z.of_nat n -> ~ (r < NUM_OPT_SOURCE /\ src_is_null c r = true)).
Proof.
  revert opt. induction n as [|n IH]; intros opt; simpl.
  - split; [lia|]. split; [intros j Hj; lia | lia].
  - destruct (opt <? NUM_OPT_SOURCE) eqn:Hlt; simpl.
    + destruct (src_is_null c opt) eqn:Hnull.
      * destruct (IH (opt + 1)) as (Hr & Hbelow & Hstop).
        split; [lia|]. split.
        -- intros j Hj. destruct (decide (j = opt)) as [->|Hne].
           ++ split; [by apply Z.ltb_lt | done].
           ++ apply Hbelow. lia.
        -- intros Hr'. apply Hstop. lia.
      * split; [lia|]. split; [intros j Hj; lia|].
        intros _ [_ Hn]. congruence.
    + split; [lia|]. split; [intros j Hj; lia|].
      intros _ [Hn _]. apply Z.ltb_lt in Hn. congruence.
Qed.

Lemma initial_source_found c j source :
  0 <= j < NUM_OPT_SOURCE ->
  src c !! Z.to_nat j = Some (Some source) ->
  let i := initial_source c in
  0 <= i <= j
  /\ (exists source', src c !! Z.to_nat i = Some (Some source'))
  /\ (forall k, 0 <= k < i -> src_is_null c k = true).
Proof.
  intros Hj Hsrc i.
  destruct (initial_source_loop_spec (Z.to_nat NUM_OPT_SOURCE) 0 c)
    as (Hr & Hbelow & Hstop).
  fold (initial_source c) in Hr, Hbelow, Hstop. fold i in Hr, Hbelow, Hstop.
  assert (Hij : i <= j).
  { destruct (decide (i <= j)) as [|Hgt]; [done|].
    destruct (Hbelow j) as [_ Hnull]; [lia|].
    unfold src_is_null in Hnull. by rewrite Hsrc in Hnull. }
  split; [lia|]. split.
  - destruct (src c !! Z.to_nat i) as [[source'|]|] eqn:Hi; [by eexists| |].
    + exfalso. apply Hstop; [lia|]. split; [lia|].
      unfold src_is_null. by rewrite Hi.
    + exfalso. apply Hstop; [lia|]. split; [lia|].
      unfold src_is_null. by rewrite Hi.
  - intros k Hk. by apply Hbelow.
Qed.

Lemma get_dev_Ok p s d : get_dev p s = Ok d <-> heap s !! p = Some d.
Proof. unfold get_dev. destruct (heap s !! p); split; congruence. Qed.

End Options.

(** ** The option getter *)

Section Getter.
Context `{Externals}.

Lemma device_get_option_br (d : device) :
  device_get_option d OPT_SCAN_BR_X = (SANE_STATUS_GOOD, Some (ValWord (opt_tl_x d)))
  /\ device_get_option d OPT_SCAN_BR_Y = (SANE_STATUS_GOOD, Some (ValWord (opt_tl_y d))).
Proof. done. Qed.

End Getter.

(** C5: on the ready device of the sample run the bottom-right corner is
    (2100, 3100), and [device_get_option] stores 0 for both
    [OPT_SCAN_BR_X] and [OPT_SCAN_BR_Y]: it reads [opt_tl_x] and
    [opt_tl_y]. *)
Theorem device_get_option_br_returns_tl :
  let d := SampleRuns.device_at SampleRuns.negotiated 1%nat in
  ready d = true
  /\ opt_br_x d = 2100 /\ opt_br_y d = 3100
  /\ device_get_option d OPT_SCAN_BR_X = (SANE_STATUS_GOOD, Some (ValWord 0))
  /\ device_get_option d OPT_SCAN_BR_Y = (SANE_STATUS_GOOD, Some (ValWord 0)).
Proof. vm_compute. repeat split. Qed.



(** ** The address literal and the URL *)



Section Literal.
Context `{Externals}.



End Literal.


(** ** The device list *)

Section DeviceList.
Context `{Externals}.

Lemma elem_of_g_tree_foreach (t : gmap string nat) n p :
  (n, p) ∈ g_tree_foreach t <-> t !! n = Some p.
Proof.
  unfold g_tree_foreach. rewrite merge_sort_Permutation.
  apply elem_of_map_to_list.
Qed.

Lemma elem_of_device_table_collect mask s p :
  p ∈ device_table_collect mask s
  <-> exists n d,
        device_table s !! n = Some p /\ heap s !! p = Some d
        /\ has_flag mask (flags d) = true.
Proof.
  unfold device_table_collect. rewrite list_elem_of_omap. split.
  - intros ([n q] & Hin & Hsome). simpl in Hsome.
    apply elem_of_g_tree_foreach in Hin.
    destruct (heap s !! q) as [d|] eqn:Hd; [|done].
    destruct (has_flag mask (flags d)) eqn:Hf; [|done].
    injection Hsome as ->. by exists n, d.
  - intros (n & d & Ht & Hd & Hf). exists (n, p). split.
    + by apply elem_of_g_tree_foreach.
    + simpl. by rewrite Hd, Hf.
Qed.







End DeviceList.

(** ** The invariant of the process *)

Lemma handles_on_nil p : handles_on p [] = 0.
Proof. done. Qed.

Lemma handles_on_cons p h hl :
  handles_on p (h :: hl) = (if decide (h = p) then 1 else 0) + handles_on p hl.
Proof.
  unfold handles_on. rewrite filter_cons.
  destruct (decide (h = p)); simpl; lia.
Qed.

Lemma handles_on_nonneg p hl : 0 <= handles_on p hl.
Proof. unfold handles_on. lia. Qed.

Lemma handles_on_zero p hl : handles_on p hl = 0 <-> p ∉ hl.
Proof.
  induction hl as [|h hl IH]; [by split; [intros _; apply not_elem_of_nil|]|].
  rewrite handles_on_cons, not_elem_of_cons.
  pose proof (handles_on_nonneg p hl).
  destruct (decide (h = p)) as [->|Hne]; split.
  - lia.
  - intros [Hp _]. done.
  - intros H0. split; [done|]. apply IH. lia.
  - intros [_ Hp]. apply IH in Hp. lia.
Qed.

Lemma handles_on_release p h hl :
  h ∈ hl ->
  handles_on p (release h hl)
  = handles_on p hl - (if decide (h = p) then 1 else 0).
Proof.
  unfold release. induction hl as [|x hl IH]; [by intros ?%elem_of_nil|].
  intros Hin. simpl. rewrite handles_on_cons.
  destruct (bool_decide (x = h)) eqn:Hx.
  - apply bool_decide_eq_true in Hx as ->.
    destruct (decide (h = p)); lia.
  - apply bool_decide_eq_false in Hx.
    apply elem_of_cons in Hin as [->|Hin]; [done|].
    rewrite handles_on_cons, IH by done. lia.
Qed.

Lemma elem_of_release x h hl : x ∈ release h hl -> x ∈ hl.
Proof.
  unfold release. induction hl as [|y hl IH]; simpl; [done|].
  destruct (bool_decide (y = h)).
  - by right.
  - intros [->|Hin]%elem_of_cons; [by left | right; auto].
Qed.

Lemma elem_of_g_ptr_array_remove x m l :
  x ∈ g_ptr_array_remove m l -> x ∈ l.
Proof. apply elem_of_release. Qed.

Lemma elem_of_g_ptr_array_remove_ne x m l :
  x <> m -> x ∈ l -> x ∈ g_ptr_array_remove m l.
Proof.
  intros Hne. induction l as [|y l IH]; simpl; [done|].
  destruct (bool_decide (y = m)) eqn:Hy.
  - apply bool_decide_eq_true in Hy as ->.
    by intros [->|Hin]%elem_of_cons.
  - intros [->|Hin]%elem_of_cons; [by left | right; auto].
Qed.

Lemma NoDup_g_ptr_array_remove m l :
  NoDup l -> NoDup (g_ptr_array_remove m l) /\ m ∉ g_ptr_array_remove m l.
Proof.
  induction 1 as [|y l Hy Hl IH]; simpl; [split; [constructor | apply not_elem_of_nil]|].
  destruct (bool_decide (y = m)) eqn:Hym.
  - apply bool_decide_eq_true in Hym as ->. done.
  - apply bool_decide_eq_false in Hym. destruct IH as [IH1 IH2]. split.
    + constructor; [|done]. intros Hin. by apply Hy, (elem_of_g_ptr_array_remove _ m).
    + by intros [->|Hin]%elem_of_cons.
Qed.

Section Invariant.
Context `{Externals}.

Lemma inv_initial : inv initial_state [].
Proof.
  split; simpl; try (intros *; rewrite lookup_empty; discriminate).
  intros h Hh. by apply elem_of_nil in Hh.
Qed.

Lemma inv_emit a s hl : inv s hl -> inv (emit a s) hl.
Proof.
  intros [Hdev Hfresh Htab Hsf Hs Hfin Hheld]. split; simpl; try done.
  intros p d Hd. destruct (Hdev p d Hd). by split.
Qed.

(** Writing back a record whose name, listing and counter are those it
    had, and whose pending requests still hold every live message of
    the device. *)
Lemma inv_put_dev s hl p d d' :
  inv s hl -> heap s !! p = Some d ->
  name d' = name d -> listed d' = listed d -> refcnt d' = refcnt d ->
  flags_ok d' ->
  NoDup (http_pending d') ->
  (forall m, m ∈ http_pending d' -> m ∈ http_pending d) ->
  (forall m msg, device_http_session s !! m = Some msg ->
     msg_final msg = None -> ud_dev (msg_userdata msg) = p ->
     m ∈ http_pending d') ->
  inv (put_dev p d' s) hl.
Proof.
  intros [Hdev Hfresh Htab Hsf Hs Hfin Hheld] Hd Hname Hlisted Hrc Hfl Hnd Hsub Hlive.
  destruct (Hdev p d Hd) as [_ Hdt Hdr Hdp _ Hdf].
  split; simpl.
  - intros q dq. rewrite lookup_insert. case_decide as Hq.
    + subst q. intros [= <-]. split; simpl; try done.
      * rewrite Hlisted, Hname. apply Hdt.
      * by rewrite Hlisted, Hrc.
      * by rewrite Hrc.
      * intros m Hm. by apply Hdf, Hsub.
    + intros Hdq. destruct (Hdev q dq Hdq). by split.
  - intros q dq. rewrite lookup_insert. case_decide as Hq.
    + subst q. intros _. by eapply Hfresh.
    + apply Hfresh.
  - intros n q Hn. destruct (Htab n q Hn) as (dq & Hdq & Hnq & Hlq).
    destruct (decide (p = q)) as [<-|Hne].
    + exists d'. rewrite lookup_insert_eq. rewrite Hd in Hdq. injection Hdq as <-.
      by rewrite Hname, Hlisted.
    + exists dq. by rewrite lookup_insert_ne.
  - done.
  - intros m msg Hm Hnone. destruct (Hs m msg Hm Hnone) as (dq & Hdq & Hlq & Hin).
    destruct (decide (p = ud_dev (msg_userdata msg))) as [Hp|Hne].
    + exists d'. rewrite <- Hp, lookup_insert_eq. split; [done|].
      rewrite <- Hp, Hd in Hdq. injection Hdq as <-.
      split; [by rewrite Hlisted|]. by eapply Hlive.
    + exists dq. by rewrite lookup_insert_ne.
  - done.
  - intros h Hh. rewrite lookup_insert. case_decide; [by eexists|]. by apply Hheld.
Qed.

(** The invariant does not look at the trace. *)
Lemma inv_ext s s' hl :
  inv s hl ->
  device_table s' = device_table s -> heap s' = heap s ->
  next_dev s' = next_dev s ->
  device_http_session s' = device_http_session s ->
  next_msg s' = next_msg s ->
  inv s' hl.
Proof.
  intros [Hdev Hfresh Htab Hsf Hs Hfin Hheld] Et Eh End Es Enm.
  split; rewrite ?Et, ?Eh, ?End, ?Es, ?Enm; try done.
  intros p d Hd. destruct (Hdev p d Hd). split; rewrite ?Et, ?Enm; done.
Qed.

Lemma flags_ok_initial d : flags d = DEVICE_LISTED -> flags_ok d.
Proof. intros Hf. unfold flags_ok. flag_simpl. rewrite Hf. by vm_compute. Qed.

Lemma inv_device_add n s hl :
  inv s hl -> device_table s !! n = None ->
  inv (device_add n s).2 hl.
Proof.
  intros [Hdev Hfresh Htab Hsf Hs Hfin Hheld] Hn.
  assert (Hnew : heap s !! next_dev s = None).
  { destruct (heap s !! next_dev s) as [d|] eqn:Hd; [|done].
    apply Hfresh in Hd. lia. }
  split; simpl.
  - intros q dq. rewrite lookup_insert. case_decide as Hq.
    + subst q. intros [= <-]. split; simpl.
      * by apply flags_ok_initial.
      * intros _. apply lookup_insert_eq.
      * assert (Hz : handles_on (next_dev s) hl = 0).
        { apply handles_on_zero. intros Hin. apply Hheld in Hin as [d Hd]. congruence. }
        rewrite Hz. done.
      * done.
      * constructor.
      * intros m Hm. by apply elem_of_nil in Hm.
    + intros Hdq. destruct (Hdev q dq Hdq) as [? Hdt ? ? ? ?]. split; simpl; try done.
      intros Hl. rewrite lookup_insert_ne; [by apply Hdt|].
      intros Heq. specialize (Hdt Hl). congruence.
  - intros q dq. rewrite lookup_insert. case_decide as Hq.
    + subst q. lia.
    + intros Hdq. apply Hfresh in Hdq. lia.
  - intros n' q. rewrite lookup_insert. case_decide as Hq.
    + subst n'. intros [= <-]. eexists. rewrite lookup_insert_eq. done.
    + intros Hn'. destruct (Htab n' q Hn') as (dq & Hdq & Hnq & Hlq).
      exists dq. rewrite lookup_insert_ne; [done|]. intros <-. congruence.
  - done.
  - intros m msg Hm Hnone. destruct (Hs m msg Hm Hnone) as (dq & Hdq & Hlq & Hin).
    exists dq. rewrite lookup_insert_ne; [done|]. intros Heq. congruence.
  - done.
  - intros h Hh. rewrite lookup_insert. case_decide; [by eexists|]. by apply Hheld.
Qed.

Lemma device_add_lookup n s :
  (device_add n s).1 = next_dev s
  /\ exists d, heap (device_add n s).2 !! next_dev s = Some d
       /\ name d = n /\ flags d = DEVICE_LISTED /\ refcnt d = 1
       /\ http_pending d = [] /\ caps d = devcaps_init
       /\ addr_current d = [] /\ base_url d = None.
Proof.
  split; [done|]. eexists. simpl. rewrite lookup_insert_eq. done.
Qed.

(** Queueing a request for a listed device. *)
Lemma inv_device_http_get p path cb s s' hl d :
  inv s hl -> heap s !! p = Some d -> listed d = true ->
  device_http_get p path cb s = Ok s' ->
  inv s' hl.
Proof.
  intros [Hdev Hfresh Htab Hsf Hs Hfin Hheld] Hd Hl.
  unfold device_http_get. apply get_dev_Ok in Hd as Hget. rewrite Hget. simpl.
  destruct (soup_uri_new_with_base (base_url d) path) as [url|]; [simpl|done].
  intros [= <-].
  destruct (Hdev p d Hd) as [Hfl Hdt Hdr Hdp Hnd Hdf].
  split; simpl.
  - intros q dq. rewrite lookup_insert. case_decide as Hq.
    + subst q. intros [= <-]. split; simpl; try done.
      * apply NoDup_app. split; [done|]. split; [|apply NoDup_singleton].
        intros m Hm ->%list_elem_of_singleton. apply Hdf in Hm. lia.
      * intros m [Hm| ->%list_elem_of_singleton]%elem_of_app; [apply Hdf in Hm|]; lia.
    + intros Hdq. destruct (Hdev q dq Hdq) as [? ? ? ? ? Hqf]. split; simpl; try done.
      intros m Hm. apply Hqf in Hm. lia.
  - intros q dq. rewrite lookup_insert. case_decide as Hq.
    + subst q. intros _. by eapply Hfresh.
    + apply Hfresh.
  - intros n q Hn. destruct (Htab n q Hn) as (dq & Hdq & Hnq & Hlq).
    destruct (decide (p = q)) as [<-|Hne].
    + eexists. rewrite lookup_insert_eq. split; [done|].
      rewrite Hd in Hdq. by injection Hdq as <-.
    + exists dq. by rewrite lookup_insert_ne.
  - intros m msg. rewrite lookup_insert. case_decide as Hm.
    + subst m. intros _. lia.
    + intros Hmsg. apply Hsf in Hmsg. lia.
  - intros m msg. rewrite lookup_insert. case_decide as Hm.
    + subst m. intros [= <-] _. simpl. eexists. rewrite lookup_insert_eq.
      split; [done|]. split; [done|]. simpl. apply elem_of_app. right. by left.
    + intros Hmsg Hnone. destruct (Hs m msg Hmsg Hnone) as (dq & Hdq & Hlq & Hin).
      destruct (decide (p = ud_dev (msg_userdata msg))) as [Hp|Hne].
      * eexists. rewrite <- Hp, lookup_insert_eq. split; [done|].
        rewrite <- Hp, Hd in Hdq. injection Hdq as <-.
        split; [done|]. simpl. apply elem_of_app. by left.
      * exists dq. by rewrite lookup_insert_ne.
  - intros m msg status. rewrite lookup_insert. case_decide as Hm.
    + subst m. by intros [= <-].
    + apply Hfin.
  - intros h Hh. rewrite lookup_insert. case_decide; [by eexists|]. by apply Hheld.
Qed.

End Invariant.

Section Removal.
Context `{Externals}.

(** Writing back a record, with the handles changing along: the name
    and the listing are kept, and the counter fits the new handles. *)
Lemma inv_put_dev_handles s hl hl' p d d' :
  inv s hl -> heap s !! p = Some d ->
  name d' = name d -> listed d' = listed d ->
  flags_ok d' ->
  refcnt d' = (if listed d' then 1 else 0) + handles_on p hl' ->
  0 < refcnt d' ->
  (forall q, q <> p -> handles_on q hl' = handles_on q hl) ->
  (forall h, h ∈ hl' -> h = p \/ h ∈ hl) ->
  NoDup (http_pending d') ->
  (forall m, m ∈ http_pending d' -> m ∈ http_pending d) ->
  (forall m msg, device_http_session s !! m = Some msg ->
     msg_final msg = None -> ud_dev (msg_userdata msg) = p ->
     m ∈ http_pending d') ->
  inv (put_dev p d' s) hl'.
Proof.
  intros [Hdev Hfresh Htab Hsf Hs Hfin Hheld] Hd Hname Hlisted Hfl Hrc Hpos
    Hothers Hhl' Hnd Hsub Hlive.
  destruct (Hdev p d Hd) as [_ Hdt _ _ _ Hdf].
  split; simpl.
  - intros q dq. rewrite lookup_insert. case_decide as Hq.
    + subst q. intros [= <-]. split; simpl; try done.
      * rewrite Hlisted, Hname. apply Hdt.
      * intros m Hm. by apply Hdf, Hsub.
    + intros Hdq. destruct (Hdev q dq Hdq). split; try done.
      rewrite Hothers by done. done.
  - intros q dq. rewrite lookup_insert. case_decide as Hq.
    + subst q. intros _. by eapply Hfresh.
    + apply Hfresh.
  - intros n q Hn. destruct (Htab n q Hn) as (dq & Hdq & Hnq & Hlq).
    destruct (decide (p = q)) as [<-|Hne].
    + exists d'. rewrite lookup_insert_eq. rewrite Hd in Hdq. injection Hdq as <-.
      by rewrite Hname, Hlisted.
    + exists dq. by rewrite lookup_insert_ne.
  - done.
  - intros m msg Hm Hnone. destruct (Hs m msg Hm Hnone) as (dq & Hdq & Hlq & Hin).
    destruct (decide (p = ud_dev (msg_userdata msg))) as [Hp|Hne].
    + exists d'. rewrite <- Hp, lookup_insert_eq. split; [done|].
      rewrite <- Hp, Hd in Hdq. injection Hdq as <-.
      split; [by rewrite Hlisted|]. by eapply Hlive.
    + exists dq. by rewrite lookup_insert_ne.
  - done.
  - intros h Hh. rewrite lookup_insert. case_decide; [by eexists|].
    destruct (Hhl' h Hh) as [->|Hin]; [done|]. by apply Hheld.
Qed.

(** Freeing a record that is not listed and that no handle is on. *)
Lemma inv_free s hl hl' p d :
  inv s hl -> heap s !! p = Some d -> listed d = false ->
  p ∉ hl' ->
  (forall q, q <> p -> handles_on q hl' = handles_on q hl) ->
  (forall h, h ∈ hl' -> h ∈ hl) ->
  inv (set_heap (delete p (heap s)) s) hl'.
Proof.
  intros [Hdev Hfresh Htab Hsf Hs Hfin Hheld] Hd Hl Hp Hothers Hhl'.
  split; simpl.
  - intros q dq. rewrite lookup_delete. case_decide as Hq; [done|].
    intros Hdq. destruct (Hdev q dq Hdq). split; try done.
    rewrite Hothers by done. done.
  - intros q dq. rewrite lookup_delete. case_decide; [done|]. apply Hfresh.
  - intros n q Hn. destruct (Htab n q Hn) as (dq & Hdq & Hnq & Hlq).
    exists dq. rewrite lookup_delete_ne; [done|]. intros <-. congruence.
  - done.
  - intros m msg Hm Hnone. destruct (Hs m msg Hm Hnone) as (dq & Hdq & Hlq & Hin).
    exists dq. rewrite lookup_delete_ne; [done|]. intros Heq. congruence.
  - done.
  - intros h Hh. rewrite lookup_delete_ne; [by apply Hheld, Hhl'|].
    intros <-. done.
Qed.

(** *** Cancelling the pending requests *)

Lemma cancel_all_frame l s :
  device_table (cancel_all l s) = device_table s
  /\ heap (cancel_all l s) = heap s
  /\ next_dev (cancel_all l s) = next_dev s
  /\ next_msg (cancel_all l s) = next_msg s.
Proof.
  revert s. induction l as [|m l IH]; intros s; [done|].
  unfold cancel_all in *. simpl.
  pose proof (IH (soup_session_cancel_message m SOUP_STATUS_CANCELLED s)) as IH'.
  destruct IH' as (E1 & E2 & E3 & E4).
  rewrite E1, E2, E3, E4. done.
Qed.

Lemma cancel_all_session l s m :
  device_http_session (cancel_all l s) !! m
  = if decide (m ∈ l) then cancelled <$> device_http_session s !! m
    else device_http_session s !! m.
Proof.
  revert s. induction l as [|x l IH]; intros s.
  - unfold cancel_all. simpl.
    destruct (decide (m ∈ [])) as [Hin|]; [by apply elem_of_nil in Hin | done].
  - unfold cancel_all in *. simpl. rewrite IH. simpl.
    fold cancelled. rewrite lookup_alter.
    destruct (decide (x = m)) as [->|Hne].
    + rewrite (decide_True (P := m ∈ m :: l)) by left.
      destruct (decide (m ∈ l)); [|done].
      by destruct (device_http_session s !! m).
    + destruct (decide (m ∈ l)) as [Hl|Hl].
      * rewrite decide_True by (by right). done.
      * rewrite decide_False; [done|]. by intros [?|?]%elem_of_cons.
Qed.

(** *** Removing a device *)

(** The result of [device_del] on a listed device: the name has left the
    table, the pending requests are cancelled, and the record is either
    freed, when no handle is on it, or kept halted. *)
Lemma inv_delisted s s' hl p d :
  inv s hl -> heap s !! p = Some d -> listed d = true ->
  device_table s' = delete (name d) (device_table s) ->
  (forall q, q <> p -> heap s' !! q = heap s !! q) ->
  (heap s' !! p = None /\ handles_on p hl = 0
   \/ exists d', heap s' !! p = Some d' /\ name d' = name d
        /\ listed d' = false /\ halted d' = true /\ ready d' = false
        /\ refcnt d' = handles_on p hl /\ 0 < refcnt d'
        /\ http_pending d' = http_pending d) ->
  next_dev s' = next_dev s -> next_msg s' = next_msg s ->
  (forall m, device_http_session s' !! m
             = if decide (m ∈ http_pending d)
               then cancelled <$> device_http_session s !! m
               else device_http_session s !! m) ->
  inv s' hl.
Proof.
  intros [Hdev Hfresh Htab Hsf Hs Hfin Hheld] Hd Hl Et Eq Ep End Enm Es.
  destruct (Hdev p d Hd) as [_ Hdt _ _ Hnd Hdf]. specialize (Hdt Hl).
  assert (Hsess : forall m msg, device_http_session s' !! m = Some msg ->
            exists msg0, device_http_session s !! m = Some msg0
              /\ msg_userdata msg = msg_userdata msg0
              /\ (msg_final msg = msg_final msg0 /\ m ∉ http_pending d
                  \/ msg_final msg = Some SOUP_STATUS_CANCELLED)).
  { intros m msg. rewrite Es. case_decide as Hin.
    - destruct (device_http_session s !! m) as [msg0|]; [|done].
      intros [= <-]. exists msg0. split; [done|]. split; [done|]. by right.
    - intros Hm. exists msg. split; [done|]. split; [done|]. by left. }
  split.
  - intros q dq Hq. destruct (decide (q = p)) as [->|Hne].
    + destruct Ep as [[Hnone _]|(d' & Hd' & Hn' & Hl' & Hh' & Hr' & Hrc & Hpos & Hp')];
        [congruence|].
      rewrite Hd' in Hq. injection Hq as <-. split.
      * unfold flags_ok. rewrite Hl', Hh', Hr'. done.
      * rewrite Hl'. done.
      * rewrite Hl'. lia.
      * done.
      * by rewrite Hp'.
      * rewrite Hp', Enm. done.
    + rewrite Eq in Hq by done. destruct (Hdev q dq Hq) as [? Hqt ? ? ? ?].
      split; rewrite ?Enm; try done.
      intros Hlq. rewrite Et, lookup_delete_ne; [by apply Hqt|].
      intros Heq. specialize (Hqt Hlq). congruence.
  - intros q dq Hq. rewrite End. destruct (decide (q = p)) as [->|Hne].
    + by eapply Hfresh.
    + rewrite Eq in Hq by done. by eapply Hfresh.
  - intros n q. rewrite Et, lookup_delete. case_decide as Hn; [done|].
    intros Hq. destruct (Htab n q Hq) as (dq & Hdq & Hnq & Hlq).
    exists dq. rewrite Eq; [done|]. intros ->. congruence.
  - intros m msg Hm. destruct (Hsess m msg Hm) as (msg0 & Hm0 & _).
    rewrite Enm. by eapply Hsf.
  - intros m msg Hm Hnone.
    destruct (Hsess m msg Hm) as (msg0 & Hm0 & Hud & [[Hf Hnp]|Hf]); [|congruence].
    rewrite Hf in Hnone. destruct (Hs m msg0 Hm0 Hnone) as (dq & Hdq & Hlq & Hin).
    exists dq. rewrite Hud. rewrite Eq; [done|].
    intros Heq. rewrite Heq, Hd in Hdq. injection Hdq as <-. done.
  - intros m msg status Hm Hst.
    destruct (Hsess m msg Hm) as (msg0 & Hm0 & Hud & [[Hf Hnp]|Hf]); [|congruence].
    rewrite Hf in Hst. by eapply Hfin.
  - intros h Hh. destruct (decide (h = p)) as [->|Hne].
    + destruct Ep as [[_ Hz]|(d' & Hd' & _)]; [|by eexists].
      apply handles_on_zero in Hz. done.
    + rewrite Eq by done. by apply Hheld.
Qed.

Lemma device_unref_Ok p s s' :
  device_unref p s = Ok s' ->
  exists d, heap s !! p = Some d
    /\ (refcnt d = 1 /\ listed d = false /\ halted d = true
        /\ s' = set_heap (delete p (heap s))
                  (emit (DbgDestroyed (name d))
                     (put_dev p (set_refcnt 0 d) s))
        \/ refcnt d <> 1 /\ s' = put_dev p (set_refcnt (refcnt d - 1) d) s).
Proof.
  unfold device_unref. intros Hu. apply bind_Ok in Hu as (d & Hd & Hu).
  apply get_dev_Ok in Hd. exists d. split; [done|]. simpl in Hu.
  destruct (refcnt d - 1 =? 0) eqn:Hz.
  - apply Z.eqb_eq in Hz. left.
    apply bind_Ok in Hu as ([] & Ha1 & Hu). apply g_assert_Ok in Ha1.
    apply bind_Ok in Hu as ([] & Ha2 & Hu). apply g_assert_Ok in Ha2.
    simpl in Ha1, Ha2. injection Hu as <-.
    split; [lia|]. split; [by apply negb_true_iff in Ha1|]. split; [done|].
    replace (refcnt d - 1) with 0 by lia.
    unfold set_heap, put_dev, emit; simpl. f_equal. by rewrite delete_insert_eq.
  - apply Z.eqb_neq in Hz. right. injection Hu as <-. split; [lia | done].
Qed.

Lemma inv_device_del p s s' hl :
  inv s hl -> device_del p s = Ok s' -> inv s' hl.
Proof.
  intros Hinv Hdel. unfold device_del in Hdel.
  apply bind_Ok in Hdel as (d & Hd & Hdel). apply get_dev_Ok in Hd.
  apply bind_Ok in Hdel as ([] & Ha & Hdel). apply g_assert_Ok in Ha.
  fold (cancel_all (http_pending (set_flags (clear_flag (flags d) DEVICE_LISTED) d))
          (set_device_table (delete (name (set_flags (clear_flag (flags d) DEVICE_LISTED) d))
             (device_table (emit (DbgRemoved (name d)) s)))
             (emit (DbgRemoved (name d)) s))) in Hdel.
  simpl in Hdel.
  set (s1 := set_device_table _ _) in Hdel.
  set (d3 := set_flags _ _) in Hdel.
  destruct (cancel_all_frame (http_pending d) s1) as (Et & Eh & End & Enm).
  pose proof (cancel_all_session (http_pending d) s1) as Es.
  apply device_unref_Ok in Hdel as (d3' & Hd3 & Hcase).
  unfold put_dev in Hd3. simpl in Hd3. rewrite lookup_insert_eq in Hd3.
  injection Hd3 as <-.
  destruct (inv_device _ _ Hinv p d Hd) as [_ _ Hrc Hpos _ _].
  fold (listed d) in Ha. rewrite Ha in Hrc.
  assert (Hl3 : listed d3 = false) by (subst d3; by flag_simpl).
  assert (Hh3 : halted d3 = true) by (subst d3; by flag_simpl).
  assert (Hr3 : ready d3 = false) by (subst d3; by flag_simpl).
  apply (inv_delisted s s' hl p d Hinv Hd Ha).
  - destruct Hcase as [(_ & _ & _ & ->)|(_ & ->)]; simpl; by rewrite Et.
  - intros q Hq.
    destruct Hcase as [(_ & _ & _ & ->)|(_ & ->)]; simpl.
    + rewrite lookup_delete_ne, !lookup_insert_ne by done. by rewrite Eh.
    + rewrite !lookup_insert_ne by done. by rewrite Eh.
  - destruct Hcase as [(Hone & _ & _ & ->)|(Hne & ->)]; simpl.
    + left. rewrite lookup_delete_eq. split; [done|]. simpl in Hone. lia.
    + right. eexists. rewrite lookup_insert_eq. split; [done|]. simpl.
      simpl in Hne. repeat split; try done; lia.
  - destruct Hcase as [(_ & _ & _ & ->)|(_ & ->)]; simpl; by rewrite End.
  - destruct Hcase as [(_ & _ & _ & ->)|(_ & ->)]; simpl; by rewrite Enm.
  - intros m. destruct Hcase as [(_ & _ & _ & ->)|(_ & ->)]; simpl; by rewrite Es.
Qed.

End Removal.

Section Preservation.
Context `{Externals}.

Lemma flags_ok_init_wait d :
  flags_ok d -> ready d = false ->
  flags_ok (set_flags (set_flag (flags d) DEVICE_INIT_WAIT) d).
Proof.
  unfold flags_ok. intros (H1 & H2 & H3) Hr. flag_simpl.
  rewrite Hr in *. done.
Qed.

Lemma flags_ok_ready d d' :
  flags_ok d -> listed d = true ->
  flags d' = clear_flag (set_flag (flags d) DEVICE_READY) DEVICE_INIT_WAIT ->
  flags_ok d'.
Proof.
  unfold flags_ok. intros (H1 & H2 & H3) Hl Hf. flag_simpl. rewrite Hf. flag_simpl.
  rewrite Hl in *. done.
Qed.

Lemma inv_device_probe_address p addrinfo s s' hl d :
  inv s hl -> heap s !! p = Some d -> listed d = true ->
  device_probe_address p addrinfo s = Ok s' ->
  inv s' hl.
Proof.
  intros Hinv Hd Hl. unfold device_probe_address.
  apply get_dev_Ok in Hd as Hget. rewrite Hget. simpl.
  destruct addrinfo as [|a rest]; [done|].
  intros Hp. apply bind_Ok in Hp as ([] & _ & Hp).
  eapply inv_device_http_get; [| | |exact Hp].
  - apply inv_emit. eapply (inv_put_dev s hl p d); try done.
    + by destruct (inv_device _ _ Hinv p d Hd).
    + by destruct (inv_device _ _ Hinv p d Hd).
    + intros m msg Hm Hnone Hp'.
      destruct (inv_session _ _ Hinv m msg Hm Hnone) as (d0 & Hd0 & _ & Hin).
      rewrite Hp', Hd in Hd0. by injection Hd0 as <-.
  - simpl. apply lookup_insert_eq.
  - done.
Qed.

Lemma inv_device_found n init_scan addrs s s' hl :
  inv s hl -> device_found n init_scan addrs s = Ok s' -> inv s' hl.
Proof.
  intros Hinv. unfold device_found.
  destruct (device_find n s) as [q|] eqn:Hfind.
  { intros [= <-]. by apply inv_emit. }
  pose proof (inv_device_add n s hl Hinv Hfind) as Hinv1.
  destruct (device_add_lookup n s) as (Hp & d0 & Hd0 & Hn0 & Hf0 & Hr0 & Hpend0 & _).
  destruct (device_add n s) as [p s1] eqn:Hadd. simpl in *. subst p.
  apply get_dev_Ok in Hd0 as Hget. rewrite Hget. simpl.
  intros Hprobe.
  eapply inv_device_probe_address; [| | |exact Hprobe].
  - eapply (inv_put_dev s1 hl _ d0); try done.
    + by destruct init_scan.
    + destruct init_scan; simpl; [|done]. unfold listed in *. simpl.
      rewrite Hf0. done.
    + by destruct init_scan.
    + destruct init_scan; simpl.
      * apply (flags_ok_init_wait d0); [by apply flags_ok_initial|].
        unfold ready. by rewrite Hf0.
      * by apply flags_ok_initial.
    + destruct init_scan; simpl; rewrite Hpend0; constructor.
    + by destruct init_scan.
    + intros m msg Hm Hnone Hp'.
      destruct (inv_session _ _ Hinv1 m msg Hm Hnone) as (d1 & Hd1 & _ & Hin).
      rewrite Hp', Hd0 in Hd1. injection Hd1 as <-.
      rewrite Hpend0 in Hin. by apply elem_of_nil in Hin.
  - simpl. apply lookup_insert_eq.
  - destruct init_scan; unfold listed; simpl; rewrite Hf0; done.
Qed.

Lemma inv_device_add_static n uri s s' hl :
  inv s hl -> device_add_static n uri s = Ok s' -> inv s' hl.
Proof.
  intros Hinv. unfold device_add_static.
  destruct (device_find n s) as [q|] eqn:Hfind.
  { intros [= <-]. by apply inv_emit. }
  pose proof (inv_device_add n s hl Hinv Hfind) as Hinv1.
  destruct (device_add_lookup n s) as (Hp & d0 & Hd0 & Hn0 & Hf0 & Hr0 & Hpend0 & _).
  destruct (device_add n s) as [p s1] eqn:Hadd. simpl in *. subst p.
  apply get_dev_Ok in Hd0 as Hget. rewrite Hget. simpl.
  intros Hget'.
  eapply inv_device_http_get; [| | |exact Hget'].
  - eapply (inv_put_dev s1 hl _ d0); try done.
    + by destruct (has_suffix_slash _).
    + destruct (has_suffix_slash _); unfold listed; simpl; by rewrite Hf0.
    + by destruct (has_suffix_slash _).
    + assert (Hok : flags_ok (set_flags (set_flag (flags d0) DEVICE_INIT_WAIT) d0)).
      { apply (flags_ok_init_wait d0); [by apply flags_ok_initial|].
        unfold ready. by rewrite Hf0. }
      by destruct (has_suffix_slash _).
    + destruct (has_suffix_slash _); simpl; rewrite Hpend0; constructor.
    + by destruct (has_suffix_slash _).
    + intros m msg Hm Hnone Hp'.
      destruct (inv_session _ _ Hinv1 m msg Hm Hnone) as (d1 & Hd1 & _ & Hin).
      rewrite Hp', Hd0 in Hd1. injection Hd1 as <-.
      rewrite Hpend0 in Hin. by apply elem_of_nil in Hin.
  - simpl. apply lookup_insert_eq.
  - destruct (has_suffix_slash _); unfold listed; simpl; rewrite Hf0; done.
Qed.

Lemma inv_device_removed n s s' hl :
  inv s hl -> device_removed n s = Ok s' -> inv s' hl.
Proof.
  intros Hinv. unfold device_removed.
  destruct (device_find n s) as [p|]; [by apply inv_device_del|].
  by intros [= <-].
Qed.

Lemma device_set_source_Ok opt d d' :
  device_set_source opt d = Ok d' ->
  name d' = name d /\ flags d' = flags d /\ refcnt d' = refcnt d
  /\ http_pending d' = http_pending d /\ caps d' = caps d
  /\ addresses d' = addresses d /\ addr_current d' = addr_current d
  /\ base_url d' = base_url d.
Proof.
  unfold device_set_source.
  destruct (src (caps d) !! Z.to_nat opt) as [[source|]|]; [|done..].
  by intros [= <-].
Qed.

Lemma inv_capabilities_callback p status body s s' hl d :
  inv s hl -> heap s !! p = Some d -> listed d = true ->
  device_scanner_capabilities_callback p status body s = Ok s' ->
  inv s' hl.
Proof.
  intros Hinv Hd Hl. unfold device_scanner_capabilities_callback.
  apply get_dev_Ok in Hd as Hget. rewrite Hget. simpl.
  destruct (capabilities_check status body (caps d)) as [c err].
  destruct (inv_device _ _ Hinv p d Hd) as [Hfl _ _ _ Hnd _].
  assert (Hlive : forall m msg, device_http_session s !! m = Some msg ->
            msg_final msg = None -> ud_dev (msg_userdata msg) = p ->
            m ∈ http_pending d).
  { intros m msg Hm Hnone Hp'.
    destruct (inv_session _ _ Hinv m msg Hm Hnone) as (d0 & Hd0 & _ & Hin).
    rewrite Hp', Hd in Hd0. by injection Hd0 as <-. }
  assert (Hinv1 : inv (put_dev p (set_caps c d) (emit (DbgCapsStatus (name d) status) s)) hl).
  { eapply (inv_put_dev _ hl p d); try done. by apply inv_emit. }
  assert (Hd1 : heap (put_dev p (set_caps c d) (emit (DbgCapsStatus (name d) status) s)) !! p
                = Some (set_caps c d)) by (simpl; apply lookup_insert_eq).
  destruct err as [e|].
  - simpl. destruct (addr_current d) as [|a0 [|a1 rest]].
    + by apply inv_device_del.
    + by apply inv_device_del.
    + by apply (inv_device_probe_address _ _ _ _ _ (set_caps c d)).
  - intros Hs'. apply bind_Ok in Hs' as ([] & _ & Hs').
    apply bind_Ok in Hs' as (d2 & Hset & Hs'). injection Hs' as <-.
    apply device_set_source_Ok in Hset as (Hn2 & Hf2 & Hr2 & Hp2 & _).
    eapply (inv_put_dev _ hl p (set_caps c d)); try done.
    + unfold listed in *. simpl. flag_simpl. by rewrite Hf2.
    + apply (flags_ok_ready d); [done..|]. simpl. by rewrite Hf2.
    + simpl. by rewrite Hp2.
    + simpl. intros m. by rewrite Hp2.
    + simpl. intros m msg Hm Hnone Hp'. rewrite Hp2. by eapply Hlive.
Qed.

Lemma inv_session_delete m s hl :
  inv s hl -> inv (set_session (delete m (device_http_session s)) s) hl.
Proof.
  intros [Hdev Hfresh Htab Hsf Hs Hfin Hheld]. split; simpl; try done.
  - intros p d Hd. destruct (Hdev p d Hd). by split.
  - intros m' msg [_ Hm]%lookup_delete_Some. by eapply Hsf.
  - intros m' msg [_ Hm]%lookup_delete_Some. by apply Hs.
  - intros m' msg status [_ Hm]%lookup_delete_Some. by eapply Hfin.
Qed.

Lemma inv_http_done m status body s s' hl :
  inv s hl -> http_done m status body s = Ok s' -> inv s' hl.
Proof.
  intros Hinv. unfold http_done.
  destruct (device_http_session s !! m) as [msg|] eqn:Hm; [|by intros [= <-]].
  pose proof (inv_session_delete m s hl Hinv) as Hinv1.
  assert (Hlive : forall st, msg_final msg = None -> st <> SOUP_STATUS_CANCELLED ->
            device_http_callback m st body (msg_userdata msg)
              (set_session (delete m (device_http_session s)) s) = Ok s' ->
            inv s' hl).
  { intros st Hnone Hst. unfold device_http_callback.
    apply Z.eqb_neq in Hst. rewrite Hst. simpl.
    destruct (inv_session _ _ Hinv m msg Hm Hnone) as (d & Hd & Hl & Hin).
    assert (Hget : get_dev (ud_dev (msg_userdata msg))
                     (set_session (delete m (device_http_session s)) s) = Ok d)
      by (by apply get_dev_Ok).
    rewrite Hget. simpl.
    destruct (ud_callback (msg_userdata msg)). simpl.
    destruct (inv_device _ _ Hinv _ d Hd) as [Hfl _ _ _ Hnd _].
    apply (inv_capabilities_callback _ _ _ _ _ _
             (set_http_pending (g_ptr_array_remove m (http_pending d)) d)).
    - eapply (inv_put_dev _ hl _ d); try done.
      + simpl. by apply NoDup_g_ptr_array_remove.
      + simpl. intros m'. apply elem_of_g_ptr_array_remove.
      + simpl. intros m' msg' [Hne Hm']%lookup_delete_Some Hnone' Hp'.
        apply elem_of_g_ptr_array_remove_ne; [done|].
        destruct (inv_session _ _ Hinv m' msg' Hm' Hnone') as (d0 & Hd0 & _ & Hin').
        rewrite Hp', Hd in Hd0. by injection Hd0 as <-.
    - simpl. apply lookup_insert_eq.
    - done. }
  destruct (msg_final msg) as [forced|] eqn:Hfinal.
  - rewrite (inv_final _ _ Hinv m msg forced Hm Hfinal).
    unfold device_http_callback. simpl. by intros [= <-].
  - destruct (status =? SOUP_STATUS_CANCELLED) eqn:Hst; [by intros [= <-]|].
    apply Z.eqb_neq in Hst. by apply Hlive.
Qed.

Lemma inv_device_close h s s' hl :
  inv s hl -> h ∈ hl -> device_close h s = Ok s' -> inv s' (release h hl).
Proof.
  intros Hinv Hh Hclose. unfold device_close in Hclose.
  apply device_unref_Ok in Hclose as (d & Hd & Hcase).
  destruct (inv_device _ _ Hinv h d Hd) as [Hfl _ Hrc Hpos Hnd _].
  assert (Hothers : forall q, q <> h ->
            handles_on q (release h hl) = handles_on q hl).
  { intros q Hq. rewrite handles_on_release by done.
    rewrite decide_False by done. lia. }
  assert (Hsame : handles_on h (release h hl) = handles_on h hl - 1).
  { rewrite handles_on_release by done. by rewrite decide_True. }
  assert (Hlive : forall m msg, device_http_session s !! m = Some msg ->
            msg_final msg = None -> ud_dev (msg_userdata msg) = h ->
            m ∈ http_pending d).
  { intros m msg Hm Hnone Hp'.
    destruct (inv_session _ _ Hinv m msg Hm Hnone) as (d0 & Hd0 & _ & Hin).
    rewrite Hp', Hd in Hd0. by injection Hd0 as <-. }
  destruct Hcase as [(Hone & Hl & Hhalt & ->)|(Hne & ->)].
  - rewrite Hl in Hrc.
    eapply (inv_ext (set_heap (delete h (heap s)) s)); try done.
    apply (inv_free s hl (release h hl) h d); try done.
    + apply (proj1 (handles_on_zero _ _)). lia.
    + intros x. apply elem_of_release.
  - apply (inv_put_dev_handles s hl (release h hl) h d); try done.
    + change (listed (set_refcnt (refcnt d - 1) d)) with (listed d).
      simpl. rewrite Hsame. destruct (listed d); lia.
    + simpl. lia.
    + intros x Hx. right. by eapply elem_of_release.
Qed.

Lemma inv_device_open n s s' r hl :
  inv s hl -> device_open n s = Ok (r, s') ->
  inv s' (match r with Some h => h :: hl | None => hl end).
Proof.
  intros Hinv. unfold device_open, device_find.
  destruct (device_table s !! n) as [p|] eqn:Hn; [|by intros [= <- <-]].
  destruct (inv_table _ _ Hinv n p Hn) as (d & Hd & Hname & Hl).
  apply get_dev_Ok in Hd as Hget. rewrite Hget. simpl.
  destruct (has_flag (flags d) DEVICE_READY); [|by intros [= <- <-]].
  unfold device_ref. rewrite Hget. simpl. intros [= <- <-].
  destruct (inv_device _ _ Hinv p d Hd) as [Hfl _ Hrc Hpos Hnd _].
  apply (inv_put_dev_handles s hl (p :: hl) p d); try done.
  - change (listed (set_refcnt (refcnt d + 1) d)) with (listed d).
    simpl. rewrite handles_on_cons, decide_True by done.
    destruct (listed d); lia.
  - simpl. lia.
  - intros q Hq. rewrite handles_on_cons, decide_False by done. lia.
  - intros h [->|Hh]%elem_of_cons; [by left | by right].
  - intros m msg Hm Hnone Hp'.
    destruct (inv_session _ _ Hinv m msg Hm Hnone) as (d0 & Hd0 & _ & Hin).
    rewrite Hp', Hd in Hd0. by injection Hd0 as <-.
Qed.

Lemma inv_soup_session_abort s hl : inv s hl -> inv (soup_session_abort s) hl.
Proof.
  intros [Hdev Hfresh Htab Hsf Hs Hfin Hheld]. split; simpl; try done.
  - intros p d Hd. destruct (Hdev p d Hd). by split.
  - intros m msg. rewrite lookup_fmap.
    destruct (device_http_session s !! m) as [msg0|] eqn:Hm; [|done].
    intros _. by eapply Hsf.
  - intros m msg. rewrite lookup_fmap.
    destruct (device_http_session s !! m) as [msg0|] eqn:Hm; [|done].
    simpl. by intros [= <-].
  - intros m msg status. rewrite lookup_fmap.
    destruct (device_http_session s !! m) as [msg0|] eqn:Hm; [|done].
    simpl. intros [= <-]. simpl. by intros [= <-].
Qed.

Lemma inv_device_del_each l s s' hl :
  inv s hl -> device_del_each l s = Ok s' -> inv s' hl.
Proof.
  revert s. induction l as [|p l IH]; intros s Hinv; simpl.
  - by intros [= <-].
  - intros Hd. apply bind_Ok in Hd as (s1 & Hdel & Hrest).
    eapply IH; [|done]. by eapply inv_device_del.
Qed.

Lemma inv_device_management_stop s s' hl :
  inv s hl -> device_management_stop s = Ok s' -> inv s' hl.
Proof.
  intros Hinv. unfold device_management_stop, device_table_purge.
  apply inv_device_del_each. by apply inv_soup_session_abort.
Qed.

Lemma inv_step e w w' :
  inv (st w) (held w) -> step e w = Ok w' -> inv (st w') (held w').
Proof.
  intros Hinv. destruct e; simpl.
  - intros Hs. apply bind_Ok in Hs as (s & Hs & [= <-]). simpl.
    by eapply inv_device_add_static.
  - intros Hs. apply bind_Ok in Hs as (s & Hs & [= <-]). simpl.
    by eapply inv_device_found.
  - intros Hs. apply bind_Ok in Hs as (s & Hs & [= <-]). simpl.
    by eapply inv_device_removed.
  - intros Hs. apply bind_Ok in Hs as (s & Hs & [= <-]). simpl.
    by eapply inv_http_done.
  - intros Hs. apply bind_Ok in Hs as (s & Hs & [= <-]). simpl.
    by eapply inv_device_management_stop.
  - intros Hs. apply bind_Ok in Hs as ([r s] & Hs & [= <-]). simpl.
    by apply (inv_device_open dev_name (st w)).
  - case_bool_decide as Hh; [|by intros [= <-]].
    intros Hs. apply bind_Ok in Hs as (s & Hs & [= <-]). simpl.
    by eapply inv_device_close.
Qed.

Lemma reachable_inv w : reachable w -> inv (st w) (held w).
Proof.
  induction 1 as [|w e w' _ IH Hstep]; [apply inv_initial|].
  by eapply inv_step.
Qed.

End Preservation.

(** ** Where records are freed, and which faults can occur *)

Section Lifetime.
Context `{Externals}.














End Lifetime.

Section Freeing.
Context `{Externals}.















End Freeing.

(** ** Flags, lifetime, completions and opening, over the reachable worlds *)

Section Reachable.
Context `{Externals}.

Lemma reachable_run es w w' : reachable w -> run es w = Ok w' -> reachable w'.
Proof.
  revert w. induction es as [|e es IH]; intros w Hw; simpl.
  - by intros [= <-].
  - intros Hr. apply bind_Ok in Hr as (w1 & Hstep & Hrest).
    eapply IH; [|exact Hrest]. by eapply reachable_step.
Qed.

(** C7: in every world reached by device_found, device_removed,
    completions of requests, stopping (the purge), and by adding static
    devices, opening and closing, no device has both [DEVICE_READY] and
    [DEVICE_INIT_WAIT] set, and a device with [DEVICE_HALTED] set has
    [DEVICE_READY] and [DEVICE_LISTED] clear. *)
Theorem flags_invariant w p d :
  reachable w -> heap (st w) !! p = Some d ->
  ~ (has_flag (flags d) DEVICE_READY = true
     /\ has_flag (flags d) DEVICE_INIT_WAIT = true)
  /\ (has_flag (flags d) DEVICE_HALTED = true ->
      has_flag (flags d) DEVICE_READY = false
      /\ has_flag (flags d) DEVICE_LISTED = false).
Proof.
  intros Hw Hd. apply reachable_inv in Hw.
  destruct (inv_device _ _ Hw p d Hd) as [(Hri & Hhalt & Hrl) _ _ _ _ _].
  unfold ready, init_wait, halted, listed in *. split.
  - intros [Hr Hi]. by rewrite Hr, Hi in Hri.
  - intros Hh. rewrite Hh in Hhalt.
    destruct (has_flag (flags d) DEVICE_LISTED); [done|].
    split; [|done].
    destruct (has_flag (flags d) DEVICE_READY); [|done].
    by specialize (Hrl eq_refl).
Qed.


(** C4: a completion with the status [SOUP_STATUS_CANCELLED] leaves the
    state as it is, so the handler is not called; for a queued message
    that was not cancelled, any other status makes
    [device_http_callback] call the handler on the state in which the
    message has left [http_pending] of its device, a listed one; and
    every queued message of a device that is no longer listed has been
    cancelled, so its completion only takes it off the session: no
    handler runs for a removed device. *)
Theorem completion_handlers w m msg :
  reachable w ->
  device_http_session (st w) !! m = Some msg ->
  let s := st w in
  let p := ud_dev (msg_userdata msg) in
  let s0 := set_session (delete m (device_http_session s)) s in
  (forall body s1,
     device_http_callback m SOUP_STATUS_CANCELLED body (msg_userdata msg) s1 = Ok s1)
  /\ (forall status body,
        msg_final msg = None -> status <> SOUP_STATUS_CANCELLED ->
        exists d,
          heap s !! p = Some d /\ listed d = true /\ m ∈ http_pending d
          /\ let d' := set_http_pending (g_ptr_array_remove m (http_pending d)) d in
             (m ∉ http_pending d')
             /\ http_done m status body s
                = call (ud_callback (msg_userdata msg)) p status body
                    (put_dev p d' s0))
  /\ ((forall d, heap s !! p = Some d -> listed d = false) ->
      msg_final msg = Some SOUP_STATUS_CANCELLED
      /\ forall status body, http_done m status body s = Ok s0).
Proof.
  intros Hw Hm s p s0. subst s p s0. apply reachable_inv in Hw.
  split; [done|]. split.
  - intros status body Hnone Hst.
    destruct (inv_session _ _ Hw m msg Hm Hnone) as (d & Hd & Hl & Hin).
    exists d. split; [done|]. split; [done|]. split; [done|]. simpl. split.
    + destruct (inv_device _ _ Hw _ d Hd) as [_ _ _ _ Hnd _].
      by apply NoDup_g_ptr_array_remove.
    + unfold http_done. rewrite Hm, Hnone.
      apply Z.eqb_neq in Hst. rewrite Hst.
      unfold device_http_callback. rewrite Hst. simpl.
      assert (Hget : get_dev (ud_dev (msg_userdata msg))
                       (set_session (delete m (device_http_session (st w))) (st w))
                     = Ok d)
        by (by apply get_dev_Ok).
      by rewrite Hget.
  - intros Hgone.
    assert (Hfinal : msg_final msg = Some SOUP_STATUS_CANCELLED).
    { destruct (msg_final msg) as [st|] eqn:Hf.
      - by rewrite (inv_final _ _ Hw m msg st Hm Hf).
      - destruct (inv_session _ _ Hw m msg Hm Hf) as (d & Hd & Hl & _).
        rewrite (Hgone d Hd) in Hl. done. }
    split; [done|]. intros status body.
    unfold http_done. rewrite Hm, Hfinal. done.
Qed.

(** C10: [device_open] returns a handle, with the counter of the device
    incremented, exactly when the name is in the table and the device
    under it is ready; it returns NULL and changes nothing when the name
    is unknown or the device is not ready; and a device that is halted,
    or in [DEVICE_INIT_WAIT], or not ready, is never the one returned. *)
Theorem device_open_iff_ready w n :
  reachable w ->
  let s := st w in
  (exists r s', device_open n s = Ok (r, s'))
  /\ (forall p s',
        device_open n s = Ok (Some p, s')
        <-> exists d, device_table s !! n = Some p /\ heap s !! p = Some d
              /\ has_flag (flags d) DEVICE_READY = true
              /\ s' = put_dev p (set_refcnt (refcnt d + 1) d) s)
  /\ (device_table s !! n = None
      \/ (exists p d, device_table s !! n = Some p /\ heap s !! p = Some d
            /\ has_flag (flags d) DEVICE_READY = false) ->
      device_open n s = Ok (None, s))
  /\ (forall p d s',
        heap s !! p = Some d ->
        has_flag (flags d) DEVICE_HALTED = true
        \/ has_flag (flags d) DEVICE_INIT_WAIT = true
        \/ has_flag (flags d) DEVICE_READY = false ->
        device_open n s <> Ok (Some p, s')).
Proof.
  intros Hw s. subst s. apply reachable_inv in Hw.
  generalize dependent (held w). generalize dependent (st w). clear w.
  intros s hl Hw.
  assert (Hiff : forall p s',
            device_open n s = Ok (Some p, s')
            <-> exists d, device_table s !! n = Some p /\ heap s !! p = Some d
                  /\ has_flag (flags d) DEVICE_READY = true
                  /\ s' = put_dev p (set_refcnt (refcnt d + 1) d) s).
  { intros p s'. unfold device_open, device_find, device_ref. split.
    - destruct (device_table s !! n) as [q|]; [|done].
      intros Ho. apply bind_Ok in Ho as (d & Hd & Ho).
      destruct (has_flag (flags d) DEVICE_READY) eqn:Hr; [|done].
      rewrite Hd in Ho. simpl in Ho. injection Ho as <- <-.
      apply get_dev_Ok in Hd. by exists d.
    - intros (d & -> & Hd & Hr & ->). apply get_dev_Ok in Hd.
      rewrite Hd. simpl. by rewrite Hr. }
  split; [|split; [done|split]].
  - unfold device_open, device_find.
    destruct (device_table s !! n) as [q|] eqn:Hn; [|by eexists _, _].
    destruct (inv_table _ _ Hw n q Hn) as (d & Hd & _).
    apply get_dev_Ok in Hd. rewrite Hd. simpl.
    destruct (has_flag (flags d) DEVICE_READY); [|by eexists _, _].
    unfold device_ref. rewrite Hd. simpl. by eexists _, _.
  - unfold device_open, device_find.
    intros [->|(p & d & -> & Hd & Hr)]; [done|].
    apply get_dev_Ok in Hd. rewrite Hd. simpl. by rewrite Hr.
  - intros p d s' Hd Hbad Ho. apply Hiff in Ho as (d' & Hn & Hd' & Hr & _).
    rewrite Hd in Hd'. injection Hd' as <-.
    destruct (inv_table _ _ Hw n p Hn) as (d' & Hd' & _ & Hl).
    rewrite Hd in Hd'. injection Hd' as <-.
    destruct (inv_device _ _ Hw p d Hd) as [(Hri & Hhalt & _) _ _ _ _ _].
    unfold ready, init_wait, halted, listed in *.
    rewrite Hr, Hl in *. simpl in *.
    destruct Hbad as [Hb|[Hb|Hb]]; congruence.
Qed.

End Reachable.

(** ** The theorems above, on the sample runs *)

Lemma reachable_world_after es :
  (exists w, run es initial_world = Ok w) ->
  reachable (SampleRuns.world_after es).
Proof.
  intros [w Hw]. unfold SampleRuns.world_after. rewrite Hw.
  eapply reachable_run; [apply reachable_initial | exact Hw].
Qed.

(** The flags of "Printer1" after it was removed with a handle held. *)
Lemma flags_invariant_witness :
  let d := SampleRuns.device_at SampleRuns.removed_while_open 1%nat in
  ~ (has_flag (flags d) DEVICE_READY = true
     /\ has_flag (flags d) DEVICE_INIT_WAIT = true)
  /\ (has_flag (flags d) DEVICE_HALTED = true ->
      has_flag (flags d) DEVICE_READY = false
      /\ has_flag (flags d) DEVICE_LISTED = false).
Proof.
  apply (flags_invariant SampleRuns.removed_while_open 1%nat).
  - apply reachable_world_after. eexists. vm_compute. reflexivity.
  - vm_compute. reflexivity.
Defined.


(** The request of "Printer1" completing with 404 while it probes. *)
Lemma completion_handlers_witness :
  let s := st SampleRuns.probing in
  (forall body s1,
     device_http_callback 1%nat SOUP_STATUS_CANCELLED body
       {| ud_dev := 1%nat; ud_callback := cb_scanner_capabilities |} s1 = Ok s1)
  /\ exists d, heap s !! 1%nat = Some d /\ http_pending d = [1%nat]
       /\ http_done 1%nat 404 "" s
          = device_scanner_capabilities_callback 1%nat 404 ""
              (put_dev 1%nat (set_http_pending [] d)
                 (set_session (delete 1%nat (device_http_session s)) s)).
Proof.
  intros s. subst s.
  assert (Hw : reachable SampleRuns.probing).
  { apply reachable_world_after. eexists. vm_compute. reflexivity. }
  destruct (completion_handlers SampleRuns.probing 1%nat
              {| msg_uri := "http://192.0.2.5:80/ScannerCapabilities";
                 msg_userdata := {| ud_dev := 1%nat;
                                    ud_callback := cb_scanner_capabilities |};
                 msg_final := None |} Hw)
    as (Hcancel & Hlive & _).
  { vm_compute. reflexivity. }
  split; [exact Hcancel|].
  destruct (Hlive 404 ""%string eq_refl) as (d & Hd & _ & _ & _ & Hdone);
    [vm_compute; discriminate|].
  exists d. split; [exact Hd|].
  assert (Hpend : http_pending d = [1%nat]).
  { revert Hd. vm_compute. intros [= <-]. reflexivity. }
  split; [exact Hpend|].
  rewrite Hdone. simpl. rewrite Hpend. simpl. reflexivity.
Defined.

(** Opening "Printer1" once negotiated, an unknown name, and "Printer1"
    while it still probes. *)
Lemma device_open_iff_ready_witness :
  let s := st SampleRuns.negotiated in
  exists d,
    heap s !! 1%nat = Some d
    /\ device_open "Printer1" s
       = Ok (Some 1%nat, put_dev 1%nat (set_refcnt (refcnt d + 1) d) s)
    /\ device_open "Printer2" s = Ok (None, s)
    /\ device_open "Printer1" (st SampleRuns.probing)
       = Ok (None, st SampleRuns.probing).
Proof.
  intros s. subst s.
  assert (Hw : reachable SampleRuns.negotiated).
  { apply reachable_world_after. eexists. vm_compute. reflexivity. }
  assert (Hw' : reachable SampleRuns.probing).
  { apply reachable_world_after. eexists. vm_compute. reflexivity. }
  destruct (device_open_iff_ready SampleRuns.negotiated "Printer1" Hw)
    as (_ & Hiff & _).
  destruct (device_open_iff_ready SampleRuns.negotiated "Printer2" Hw)
    as (_ & _ & Hnone & _).
  destruct (device_open_iff_ready SampleRuns.probing "Printer1" Hw')
    as (_ & _ & Hnone' & _).
  exists (SampleRuns.device_at SampleRuns.negotiated 1%nat).
  split; [vm_compute; reflexivity|]. split.
  - apply Hiff. eexists. split; [vm_compute; reflexivity|].
    split; [vm_compute; reflexivity|]. split; [vm_compute; reflexivity|].
    reflexivity.
  - split.
    + apply Hnone. left. vm_compute. reflexivity.
    + apply Hnone'. right. eexists _, _.
      split; [vm_compute; reflexivity|]. split; [vm_compute; reflexivity|].
      vm_compute. reflexivity.
Defined.

(** ** Probing the addresses of a device *)

Section Probing.
Context `{Externals}.

Lemma probe_fails_next s p a b rest d m status body c' e u q :
  probing s p (a :: b :: rest) d m ->
  status <> SOUP_STATUS_CANCELLED ->
  capabilities_check status body (caps d) = (c', Some e) ->
  soup_uri_new (api_url b) = Some u ->
  soup_uri_new_with_base (Some u) "ScannerCapabilities" = Some q ->
  exists s' d',
    http_done m status body s = Ok s'
    /\ probing s' p (b :: rest) d' (next_msg s)
    /\ caps d' = c' /\ name d' = name d
    /\ requests_of (trace s') = requests_of (trace s) ++ [q].
Proof.
  intros [Hd Hcur Hl Hr Hrc Hbase Hpend [q0 Hm]] Hst Hcheck Hu Hq.
  unfold http_done. rewrite Hm. simpl.
  apply Z.eqb_neq in Hst. rewrite Hst.
  unfold device_http_callback. rewrite Hst. simpl.
  unfold get_dev at 1. simpl. rewrite Hd. simpl.
  unfold device_scanner_capabilities_callback.
  unfold get_dev at 1. simpl. rewrite lookup_insert_eq. simpl.
  rewrite Hcheck. simpl. rewrite Hcur.
  unfold device_probe_address.
  unfold get_dev at 1. simpl. rewrite lookup_insert_eq. simpl.
  rewrite Hu. simpl.
  unfold device_http_get.
  unfold get_dev at 1. simpl. rewrite lookup_insert_eq. simpl.
  rewrite Hq. simpl.
  eexists _, _. split; [reflexivity|]. split; [|split; [|split]].
  - split; simpl.
    + apply lookup_insert_eq.
    + done.
    + done.
    + done.
    + done.
    + by exists b, u.
    + rewrite Hpend. simpl. rewrite bool_decide_eq_true_2 by done. done.
    + eexists. apply lookup_insert_eq.
  - done.
  - done.
  - simpl. by rewrite !app_nil_r.
Qed.

Lemma check_ok_status status body c c' :
  capabilities_check status body c = (c', None) ->
  status <> SOUP_STATUS_CANCELLED.
Proof.
  unfold capabilities_check, SOUP_STATUS_IS_SUCCESSFUL.
  destruct (200 <=? status) eqn:Hlo; simpl; [|done].
  apply Z.leb_le in Hlo. intros _. unfold SOUP_STATUS_CANCELLED. lia.
Qed.

Lemma probe_fails_last s p a d m status body c' e :
  probing s p [a] d m ->
  status <> SOUP_STATUS_CANCELLED ->
  capabilities_check status body (caps d) = (c', Some e) ->
  exists s',
    http_done m status body s = Ok s'
    /\ heap s' !! p = None
    /\ device_table s' = delete (name d) (device_table s)
    /\ requests_of (trace s') = requests_of (trace s).
Proof.
  intros [Hd Hcur Hl Hr Hrc Hbase Hpend [q0 Hm]] Hst Hcheck.
  unfold http_done. rewrite Hm. simpl.
  apply Z.eqb_neq in Hst. rewrite Hst.
  unfold device_http_callback. rewrite Hst. simpl.
  unfold get_dev at 1. simpl. rewrite Hd. simpl.
  unfold device_scanner_capabilities_callback.
  unfold get_dev at 1. simpl. rewrite lookup_insert_eq. simpl.
  rewrite Hcheck. simpl. rewrite Hcur.
  unfold device_del.
  unfold get_dev at 1. simpl. rewrite lookup_insert_eq. simpl.
  unfold listed in Hl. rewrite Hl. simpl.
  rewrite Hpend. simpl. rewrite bool_decide_eq_true_2 by done. simpl.
  unfold device_unref.
  unfold get_dev at 1. simpl. rewrite lookup_insert_eq. simpl.
  rewrite Hrc. simpl.
  assert (E1 : has_flag
                 (clear_flag (set_flag (clear_flag (flags d) DEVICE_LISTED) DEVICE_HALTED)
                    DEVICE_READY) DEVICE_LISTED = false) by (by flag_simpl).
  assert (E2 : has_flag
                 (clear_flag (set_flag (clear_flag (flags d) DEVICE_LISTED) DEVICE_HALTED)
                    DEVICE_READY) DEVICE_HALTED = true) by (by flag_simpl).
  rewrite E1, E2. simpl.
  eexists. split; [reflexivity|]. simpl. split; [|split].
  - apply lookup_delete_eq.
  - done.
  - by rewrite !app_nil_r.
Qed.

Lemma probe_succeeds s p cur d m status body c' j source :
  probing s p cur d m ->
  capabilities_check status body (caps d) = (c', None) ->
  0 <= j < NUM_OPT_SOURCE ->
  src c' !! Z.to_nat j = Some (Some source) ->
  exists s' d',
    http_done m status body s = Ok s'
    /\ heap s' !! p = Some d'
    /\ ready d' = true /\ listed d' = true
    /\ base_url d' = base_url d /\ addr_current d' = cur
    /\ http_pending d' = [] /\ caps d' = c' /\ name d' = name d
    /\ device_table s' = device_table s
    /\ requests_of (trace s') = requests_of (trace s).
Proof.
  intros [Hd Hcur Hl Hr Hrc Hbase Hpend [q0 Hm]] Hcheck Hj Hsrc.
  pose proof (check_ok_status _ _ _ _ Hcheck) as Hst.
  destruct (initial_source_found c' j source Hj Hsrc) as (Hi & [source' Hsource] & _).
  unfold http_done. rewrite Hm. simpl.
  apply Z.eqb_neq in Hst. rewrite Hst.
  unfold device_http_callback. rewrite Hst. simpl.
  unfold get_dev at 1. simpl. rewrite Hd. simpl.
  unfold device_scanner_capabilities_callback.
  unfold get_dev at 1. simpl. rewrite lookup_insert_eq. simpl.
  rewrite Hcheck. simpl.
  assert (Hne : (initial_source c' =? NUM_OPT_SOURCE) = false) by (apply Z.eqb_neq; lia).
  rewrite Hne. simpl.
  unfold device_set_source. simpl. rewrite Hsource. simpl.
  eexists _, _. split; [reflexivity|]. simpl. split; [apply lookup_insert_eq|].
  simpl. unfold listed in Hl.
  split; [by flag_simpl|]. split; [by flag_simpl|].
  split; [done|]. split; [done|]. split.
  { rewrite Hpend. simpl. by rewrite bool_decide_eq_true_2. }
  split; [done|]. split; [done|]. split; [done|].
  by rewrite !app_nil_r.
Qed.

Lemma device_found_probing n init_scan a rest s u q :
  device_find n s = None ->
  soup_uri_new (api_url a) = Some u ->
  soup_uri_new_with_base (Some u) "ScannerCapabilities" = Some q ->
  exists s1 d,
    device_found n init_scan (a :: rest) s = Ok s1
    /\ probing s1 (next_dev s) (a :: rest) d (next_msg s)
    /\ caps d = devcaps_init /\ name d = n
    /\ addresses d = a :: rest
    /\ device_table s1 = <[n := next_dev s]> (device_table s)
    /\ requests_of (trace s1) = requests_of (trace s) ++ [q].
Proof.
  intros Hfind Hu Hq. unfold device_found. rewrite Hfind.
  unfold device_add.
  unfold get_dev at 1. simpl. rewrite lookup_insert_eq. simpl.
  unfold device_probe_address.
  unfold get_dev at 1. simpl. rewrite lookup_insert_eq. simpl.
  assert (Hadr : forall d0 : device,
            addresses (set_addresses (a :: rest) d0) = a :: rest) by done.
  destruct init_scan; simpl; rewrite Hu; simpl;
    unfold device_http_get; unfold get_dev at 1; simpl;
    rewrite lookup_insert_eq; simpl; rewrite Hq; simpl;
    (eexists _, _; split; [reflexivity|]; split; [|split; [|split; [|split; [|split]]]];
     [ split; simpl;
       [ apply lookup_insert_eq | done | by vm_compute | by vm_compute | done
       | by exists a, u | done | eexists; apply lookup_insert_eq ]
     | done | done | done | done
     | simpl; by rewrite ?app_nil_r ]).
Qed.

End Probing.

Section ProbeRun.
Context `{Externals}.

Lemma request_uri_ok a u q :
  soup_uri_new (api_url a) = Some u ->
  soup_uri_new_with_base (Some u) "ScannerCapabilities" = Some q ->
  request_uri a = Some q.
Proof. intros Hu Hq. unfold request_uri. by rewrite Hu. Qed.

Lemma deliver_idle p rs s d :
  heap s !! p = Some d -> http_pending d = [] -> deliver p rs s = Ok s.
Proof. intros Hd Hp. destruct rs as [|[st body] rs]; simpl; [done|]. by rewrite Hd, Hp. Qed.

Lemma deliver_gone p rs s : heap s !! p = None -> deliver p rs s = Ok s.
Proof. intros Hd. destruct rs as [|[st body] rs]; simpl; [done|]. by rewrite Hd. Qed.


(** The run of the prober from a probing state, over the answers [rs] to
    the candidates from the cursor on. *)
Lemma probe_run p rs : forall cur s d m,
  probing s p cur d m ->
  (length rs <= length cur)%nat ->
  Forall uris_ok (drop 1 cur) ->
  Forall (fun r : response => r.1 <> SOUP_STATUS_CANCELLED) rs ->
  (forall i c', first_success (caps d) rs = Some (i, c') -> has_source c') ->
  exists s',
    deliver p rs s = Ok s'
    /\ match first_success (caps d) rs with
       | Some (i, c') =>
           exists d' a u,
             heap s' !! p = Some d' /\ ready d' = true /\ listed d' = true
             /\ cur !! i = Some a /\ soup_uri_new (api_url a) = Some u
             /\ base_url d' = Some u /\ http_pending d' = []
             /\ caps d' = c' /\ name d' = name d
             /\ requests_of (trace s')
                = requests_of (trace s) ++ omap request_uri (take i (drop 1 cur))
       | None =>
           if decide (length rs = length cur)
           then heap s' !! p = None /\ device_table s' !! name d = None
                /\ requests_of (trace s')
                   = requests_of (trace s) ++ omap request_uri (drop 1 cur)
           else exists d' m',
                  probing s' p (drop (length rs) cur) d' m' /\ name d' = name d
                  /\ requests_of (trace s')
                     = requests_of (trace s)
                       ++ omap request_uri (take (length rs) (drop 1 cur))
       end.
Proof.
  induction rs as [|[st body] rs IH]; intros cur s d m Hpr Hlen Huris Hst Hsrc.
  - exists s. split; [done|]. simpl.
    destruct (pr_base _ _ _ _ _ Hpr) as (a & u & Hhead & _).
    destruct cur as [|a' rest]; [done|]. simpl.
    exists d, m. rewrite app_nil_r. done.
  - destruct (pr_base _ _ _ _ _ Hpr) as (a & u & Hhead & Hu & Hbase).
    destruct cur as [|a' rest]; [done|]. injection Hhead as ->.
    simpl. rewrite (pr_dev _ _ _ _ _ Hpr), (pr_pending _ _ _ _ _ Hpr).
    apply Forall_cons in Hst as [Hst0 Hst]. simpl in Hst0.
    destruct (capabilities_check st body (caps d)) as [c' [e|]] eqn:Hcheck.
    + destruct rest as [|b rest'].
      * destruct (probe_fails_last s p a d m st body c' e Hpr Hst0 Hcheck)
          as (s1 & Hdone & Hnone & Htab & Hreq).
        rewrite Hdone. simpl. rewrite (deliver_gone p rs s1 Hnone).
        exists s1. split; [done|].
        simpl in Hlen. assert (rs = []) as -> by (destruct rs; [done | simpl in Hlen; lia]).
        simpl. split; [done|]. split; [by rewrite Htab, lookup_delete_eq|].
        by rewrite Hreq, app_nil_r.
      * simpl in Huris. apply Forall_cons in Huris as [(ub & qb & Hub & Hqb) Huris].
        destruct (probe_fails_next s p a b rest' d m st body c' e ub qb
                    Hpr Hst0 Hcheck Hub Hqb)
          as (s1 & d1 & Hdone & Hpr1 & Hc1 & Hn1 & Hreq1).
        rewrite Hdone. simpl.
        destruct (IH (b :: rest') s1 d1 (next_msg s) Hpr1) as (s' & Hdel & Hout).
        { simpl in Hlen |- *. lia. }
        { done. }
        { done. }
        { intros i c'' Hf. apply (Hsrc (S i) c''). simpl. rewrite Hcheck.
          rewrite Hc1 in Hf. by rewrite Hf. }
        exists s'. split; [done|]. rewrite Hc1 in Hout.
        pose proof (request_uri_ok b ub qb Hub Hqb) as Hrb.
        destruct (first_success c' rs) as [[i c'']|].
        -- destruct Hout as (d' & a0 & u0 & Hd' & Hr' & Hl' & Hi & Hu0 & Hb' & Hp'
                             & Hc' & Hn' & Hreq').
           exists d', a0, u0. split_and!; try done; [congruence|].
           rewrite Hreq', Hreq1. simpl. rewrite Hrb. by rewrite <- app_assoc.
        -- simpl length. destruct (decide (length rs = length (b :: rest'))) as [E|E].
           ++ rewrite decide_True by (simpl in E |- *; lia).
              destruct Hout as (Hnone & Htab & Hreq').
              split_and!; try done; [congruence|].
              rewrite Hreq', Hreq1. simpl. rewrite Hrb. by rewrite <- app_assoc.
           ++ rewrite decide_False by (simpl in E |- *; lia).
              destruct Hout as (d' & m' & Hpr' & Hn' & Hreq').
              exists d', m'. split_and!; try done; [congruence|].
              rewrite Hreq', Hreq1. simpl. rewrite Hrb. by rewrite <- app_assoc.
    + destruct (Hsrc O c') as (j & source & Hj & Hsource).
      { simpl. by rewrite Hcheck. }
      destruct (probe_succeeds s p (a :: rest) d m st body c' j source
                  Hpr Hcheck Hj Hsource)
        as (s1 & d1 & Hdone & Hd1 & Hr1 & Hl1 & Hb1 & _ & Hp1 & Hc1 & Hn1 & _ & Hreq1).
      rewrite Hdone. simpl. rewrite (deliver_idle p rs s1 d1 Hd1 Hp1).
      exists s1. split; [done|].
      exists d1, a, u. split_and!; try done; [congruence|].
      simpl. by rewrite app_nil_r.
Qed.

End ProbeRun.

Section ProbeClaims.
Context `{Externals}.

Lemma request_uri_uris_ok a q : request_uri a = Some q -> uris_ok a.
Proof.
  unfold request_uri, uris_ok.
  destruct (soup_uri_new (api_url a)) as [u|]; [|done].
  intros Hq. by exists u, q.
Qed.



(** C3: with the candidates [A; B; C], the answers to [A] and [B]
    failing the checks and the answer to [C] passing them, three requests
    are queued, for [A], [B] and [C] in this order; before each answer
    the device has one request in flight and its cursor at the candidate
    the request is for; at the end the base URL is the one built from
    [C]. *)
Theorem probes_in_list_order s n init_scan A B C rA rB rC qA qB qC uC eA eB :
  device_find n s = None ->
  request_uri A = Some qA -> request_uri B = Some qB -> request_uri C = Some qC ->
  soup_uri_new (api_url C) = Some uC ->
  rA.1 <> SOUP_STATUS_CANCELLED -> rB.1 <> SOUP_STATUS_CANCELLED ->
  verdicts devcaps_init [rA; rB; rC] = [Some eA; Some eB; None] ->
  (forall i c, first_success devcaps_init [rA; rB; rC] = Some (i, c) -> has_source c) ->
  let p := next_dev s in
  exists s1 s',
    device_found n init_scan [A; B; C] s = Ok s1
    /\ deliver p [rA; rB; rC] s1 = Ok s'
    /\ requests_of (trace s') = requests_of (trace s) ++ [qA; qB; qC]
    /\ (exists d, heap s' !! p = Some d /\ base_url d = Some uC
                  /\ ready d = true /\ http_pending d = [])
    /\ (forall k, (k < 3)%nat ->
        exists sk dk mk,
          deliver p (take k [rA; rB; rC]) s1 = Ok sk
          /\ heap sk !! p = Some dk /\ http_pending dk = [mk]
          /\ addr_current dk = drop k [A; B; C]).
Proof.
  intros Hfind HqA HqB HqC HuC HstA HstB Hverd Hsrc p. subst p.
  destruct rA as [stA bodyA], rB as [stB bodyB], rC as [stC bodyC].
  simpl in HstA, HstB, Hverd.
  destruct (capabilities_check stA bodyA devcaps_init) as [c1 v1] eqn:HcA.
  destruct (capabilities_check stB bodyB c1) as [c2 v2] eqn:HcB.
  destruct (capabilities_check stC bodyC c2) as [c3 v3] eqn:HcC.
  injection Hverd as -> -> ->.
  pose proof (check_ok_status _ _ _ _ HcC) as HstC.
  pose proof (request_uri_uris_ok _ _ HqA) as (uA & qA' & HuA & HqA').
  assert (qA' = qA) as ->.
  { unfold request_uri in HqA. rewrite HuA in HqA. congruence. }
  pose proof (request_uri_uris_ok _ _ HqB) as HokB.
  pose proof (request_uri_uris_ok _ _ HqC) as HokC.
  destruct (device_found_probing n init_scan A [B; C] s uA qA Hfind HuA HqA')
    as (s1 & d & Hfound & Hpr & Hc & Hn & _ & _ & Hreq1).
  assert (Huris : Forall uris_ok (drop 1 [A; B; C])).
  { simpl. by repeat constructor. }
  assert (Hfs : forall k,
            first_success (caps d)
              (take k [(stA, bodyA); (stB, bodyB); (stC, bodyC)])
            = if decide (3 <= k)%nat then Some (2%nat, c3) else None).
  { intros k. rewrite Hc.
    destruct k as [|[|[|k]]]; simpl; rewrite ?HcA, ?HcB, ?HcC; done. }
  exists s1.
  destruct (probe_run (next_dev s) [(stA, bodyA); (stB, bodyB); (stC, bodyC)]
              [A; B; C] s1 d (next_msg s) Hpr) as (s' & Hdel & Hout).
  { simpl. lia. }
  { done. }
  { by repeat constructor. }
  { intros i c Hf. apply (Hsrc i c). by rewrite <- Hc. }
  exists s'. split; [done|]. split; [done|].
  simpl in Hout. rewrite Hc in Hout. rewrite HcA, HcB, HcC in Hout.
  destruct Hout as (d' & a0 & u0 & Hd' & Hr' & _ & Hi & Hu0 & Hb' & Hp' & _ & _ & Hreq').
  injection Hi as <-. split; [|split].
  - rewrite Hreq', Hreq1. simpl. rewrite HqB, HqC. simpl.
    by rewrite <- app_assoc.
  - exists d'. split; [done|]. split; [congruence|]. done.
  - intros k Hk.
    destruct (probe_run (next_dev s)
                (take k [(stA, bodyA); (stB, bodyB); (stC, bodyC)])
                [A; B; C] s1 d (next_msg s) Hpr) as (sk & Hdelk & Houtk).
    { rewrite length_take. simpl. lia. }
    { done. }
    { apply Forall_take. by repeat constructor. }
    { intros i c. rewrite Hfs. rewrite decide_False by lia. done. }
    rewrite Hfs in Houtk. rewrite decide_False in Houtk by lia.
    assert (Hprk : exists dk mk, probing sk (next_dev s) (drop k [A; B; C]) dk mk).
    { destruct k as [|[|[|k]]]; [..|lia]; simpl in Houtk;
        destruct Houtk as (dk & mk & Hprk & _); by exists dk, mk. }
    destruct Hprk as (dk & mk & Hprk).
    exists sk, dk, mk. split; [done|].
    split; [by destruct Hprk|]. split; by destruct Hprk.
Qed.

End ProbeClaims.

(** ** The probing theorems on the sample run *)

Module SampleProbe.

Import Sample SampleRuns.

Lemma answers_have_source i c :
  first_success devcaps_init answers = Some (i, c) -> has_source c.
Proof.
  intros Hf. vm_compute in Hf. injection Hf as <- <-.
  exists 0, platen. split; [|reflexivity].
  change NUM_OPT_SOURCE with 3. lia.
Qed.


End SampleProbe.


(** The three requests of that run, and the base URL it ends with. *)
Lemma probes_in_list_order_witness :
  exists s1 s' d,
    device_found "Printer1" true [SampleRuns.A; SampleRuns.B; SampleRuns.C]
      initial_state = Ok s1
    /\ deliver 1%nat SampleRuns.answers s1 = Ok s'
    /\ requests_of (trace s')
       = ["http://192.0.2.5:80/ScannerCapabilities";
          "http://[65152:0:0:1%253]:8080/eSCL/ScannerCapabilities";
          "http://[8193:3512:0:1]:443/eSCL/ScannerCapabilities"]%string
    /\ heap s' !! 1%nat = Some d
    /\ base_url d = Some "http://[8193:3512:0:1]:443/eSCL/"%string.
Proof.
  destruct (probes_in_list_order initial_state "Printer1" true
              SampleRuns.A SampleRuns.B SampleRuns.C
              (404, ""%string) (200, "zzz"%string) (200, "platen+adf"%string)
              "http://192.0.2.5:80/ScannerCapabilities"%string
              "http://[65152:0:0:1%253]:8080/eSCL/ScannerCapabilities"%string
              "http://[8193:3512:0:1]:443/eSCL/ScannerCapabilities"%string
              "http://[8193:3512:0:1]:443/eSCL/"%string
              "failed to load ScannerCapabilities"%string
              "unknown capabilities"%string)
    as (s1 & s' & Hfound & Hdel & Hreq & (d & Hd & Hb & _) & _).
  - reflexivity.
  - vm_compute. reflexivity.
  - vm_compute. reflexivity.
  - vm_compute. reflexivity.
  - vm_compute. reflexivity.
  - simpl. discriminate.
  - simpl. discriminate.
  - vm_compute. reflexivity.
  - apply SampleProbe.answers_have_source.
  - exists s1, s', d. repeat split; done.
Defined.

(** * More of the code *)

(** ** Lists built by selection *)

Lemma length_omap_le {A B} (f : A -> option B) (l : list A) :
  (length (omap f l) <= length l)%nat.
Proof.
  induction l as [|x l IH]; csimpl; [done|].
  destruct (f x); simpl; lia.
Qed.

Lemma StronglySorted_omap {A B} (R : relation A) (R' : relation B)
    (f : A -> option B) (l : list A) :
  (forall x y x' y', x ∈ l -> y ∈ l -> f x = Some x' -> f y = Some y' ->
     R x y -> R' x' y') ->
  StronglySorted R l -> StronglySorted R' (omap f l).
Proof.
  intros Hf Hs. induction Hs as [|x l Hs IH Hx]; csimpl; [constructor|].
  assert (IH' : StronglySorted R' (omap f l)).
  { apply IH. intros a b a' b' Ha Hb. apply Hf; by right. }
  destruct (f x) as [x'|] eqn:Hfx; [|done].
  constructor; [done|]. apply Forall_forall. intros y' Hy'.
  apply list_elem_of_omap in Hy' as (y & Hy & Hfy).
  apply (Hf x y); [by left | by right | done | done |].
  rewrite Forall_forall in Hx. by apply Hx.
Qed.

Lemma NoDup_omap {A B} (f : A -> option B) (l : list A) :
  (forall x y z, x ∈ l -> y ∈ l -> f x = Some z -> f y = Some z -> x = y) ->
  NoDup l -> NoDup (omap f l).
Proof.
  intros Hf Hl. induction Hl as [|x l Hx Hl IH]; csimpl; [constructor|].
  assert (IH' : NoDup (omap f l)).
  { apply IH. intros a b z Ha Hb. apply Hf; by right. }
  destruct (f x) as [x'|] eqn:Hfx; [|done].
  constructor; [|done]. intros Hin.
  apply list_elem_of_omap in Hin as (y & Hy & Hfy).
  assert (x = y) as -> by (apply (Hf x y x'); [by left | by right | done | done]).
  done.
Qed.

(** ** The table and the list *)

Section Table.
Context `{Externals}.

Lemma length_g_tree_foreach (t : gmap string nat) :
  length (g_tree_foreach t) = size t.
Proof.
  unfold g_tree_foreach. rewrite merge_sort_Permutation.
  apply length_map_to_list.
Qed.

#[local] Instance name_le_trans : Transitive name_le.
Proof.
  intros [a p] [b q] [c r]. unfold name_le. simpl.
  intros Hab Hbc.
  pose proof (@transitivity _ String.le _ a b c) as Ht.
  unfold String.le in Ht. apply Is_true_true. apply Ht; by apply Is_true_true.
Qed.

#[local] Instance name_le_total : Total name_le.
Proof.
  intros [a p] [b q]. unfold name_le. simpl. apply String.leb_total.
Qed.

Lemma StronglySorted_g_tree_foreach (t : gmap string nat) :
  StronglySorted name_le (g_tree_foreach t).
Proof. unfold g_tree_foreach. apply StronglySorted_merge_sort; apply _. Qed.

Lemma NoDup_g_tree_foreach (t : gmap string nat) :
  NoDup (g_tree_foreach t).*1.
Proof.
  unfold g_tree_foreach. rewrite merge_sort_Permutation.
  apply NoDup_fst_map_to_list.
Qed.

(** X1: [device_table_collect] never yields more devices than
    [device_table_size] counts, whatever the mask: a buffer of that size
    holds them. *)
Theorem device_table_collect_fits (mask : Z) (s : state) :
  (length (device_table_collect mask s) <= device_table_size s)%nat.
Proof.
  unfold device_table_collect, device_table_size.
  rewrite <- length_g_tree_foreach. apply length_omap_le.
Qed.

Lemma build_list_entries s :
  build_list s = omap (list_entry s) (g_tree_foreach (device_table s)).
Proof.
  unfold build_list, device_table_collect.
  induction (g_tree_foreach (device_table s)) as [|kv l IH]; csimpl; [done|].
  unfold list_entry at 1.
  destruct (heap s !! kv.2) as [d|] eqn:Hd; csimpl; [|done].
  destruct (has_flag DEVICE_READY (flags d)); csimpl; [|done].
  by rewrite Hd, IH.
Qed.

(** X2: the list of [device_list_get] is in ascending order of the
    names, holds no name twice, and is no longer than the table. *)
Theorem device_list_sorted_distinct w :
  reachable w ->
  let l := build_list (st w) in
  StronglySorted
    (fun a b => String.leb (sane_name a) (sane_name b) = true) l
  /\ NoDup (sane_name <$> l)
  /\ (length l <= device_table_size (st w))%nat.
Proof.
  intros Hw l. subst l. apply reachable_inv in Hw.
  rewrite build_list_entries.
  assert (Hname : forall kv e, kv ∈ g_tree_foreach (device_table (st w)) ->
            list_entry (st w) kv = Some e -> sane_name e = kv.1).
  { intros [n p] e Hin He. apply elem_of_g_tree_foreach in Hin.
    destruct (inv_table _ _ Hw n p Hin) as (d & Hd & Hn & _).
    unfold list_entry in He. simpl in He. rewrite Hd in He.
    destruct (has_flag DEVICE_READY (flags d)); [|done].
    injection He as <-. done. }
  split; [|split].
  - apply (StronglySorted_omap name_le); [|apply StronglySorted_g_tree_foreach].
    intros x y x' y' Hx Hy Hfx Hfy Hxy.
    rewrite (Hname x x' Hx Hfx), (Hname y y' Hy Hfy). exact Hxy.
  - pose proof (NoDup_g_tree_foreach (device_table (st w))) as Hnd.
    induction (g_tree_foreach (device_table (st w))) as [|kv l IH]; csimpl;
      [constructor|].
    apply NoDup_cons in Hnd as [Hkv Hnd].
    assert (IH' : NoDup (sane_name <$> omap (list_entry (st w)) l)).
    { apply IH; [|done]. intros kv' e Hin. apply Hname. by right. }
    destruct (list_entry (st w) kv) as [e|] eqn:He; [|done].
    csimpl. constructor; [|done]. intros Hin.
    apply list_elem_of_fmap in Hin as (e' & Hee & Hin).
    apply list_elem_of_omap in Hin as (kv' & Hin & He').
    apply Hkv. apply list_elem_of_fmap. exists kv'. split; [|done].
    rewrite <- (Hname kv e) by (by left || done).
    rewrite <- (Hname kv' e') by (by right || done). done.
  - unfold device_table_size. rewrite <- length_g_tree_foreach.
    apply length_omap_le.
Qed.

End Table.

(** ** Names, references and removal *)

Section References.
Context `{Externals}.

(** X3: no two listed devices have the same name, and [device_find]
    gives exactly the listed device of that name. *)
Theorem listed_names_unique w :
  reachable w ->
  (forall p q d d',
     heap (st w) !! p = Some d -> heap (st w) !! q = Some d' ->
     listed d = true -> listed d' = true -> name d = name d' -> p = q)
  /\ (forall n p,
        device_find n (st w) = Some p
        <-> exists d, heap (st w) !! p = Some d /\ name d = n /\ listed d = true).
Proof.
  intros Hw. apply reachable_inv in Hw. split.
  - intros p q d d' Hd Hd' Hl Hl' Hn.
    pose proof (di_table _ _ _ _ (inv_device _ _ Hw p d Hd) Hl) as Hp.
    pose proof (di_table _ _ _ _ (inv_device _ _ Hw q d' Hd') Hl') as Hq.
    rewrite Hn in Hp. congruence.
  - intros n p. unfold device_find. split.
    + apply (inv_table _ _ Hw).
    + intros (d & Hd & <- & Hl).
      by apply (di_table _ _ _ _ (inv_device _ _ Hw p d Hd)).
Qed.




(** What [device_del] does to a listed device. *)
Lemma device_del_listed p s d :
  heap s !! p = Some d -> listed d = true ->
  exists s',
    device_del p s = Ok s'
    /\ device_table s' = delete (name d) (device_table s)
    /\ (forall q, q <> p -> heap s' !! q = heap s !! q)
    /\ heap s' !! p
       = (if decide (refcnt d = 1) then None
          else Some (set_refcnt (refcnt d - 1)
                       (set_flags
                          (clear_flag
                             (set_flag (clear_flag (flags d) DEVICE_LISTED)
                                DEVICE_HALTED)
                             DEVICE_READY) d)))
    /\ (forall m, device_http_session s' !! m
                  = if decide (m ∈ http_pending d)
                    then cancelled <$> device_http_session s !! m
                    else device_http_session s !! m)
    /\ next_dev s' = next_dev s /\ next_msg s' = next_msg s.
Proof.
  intros Hd Hl. unfold device_del.
  apply get_dev_Ok in Hd as Hget. rewrite Hget. simpl.
  unfold listed in Hl. rewrite Hl. simpl.
  fold (cancel_all (http_pending d)
          (set_device_table (delete (name d) (device_table s))
             (emit (DbgRemoved (name d)) s))).
  set (s1 := set_device_table _ _).
  destruct (cancel_all_frame (http_pending d) s1) as (Et & Eh & End & Enm).
  pose proof (cancel_all_session (http_pending d) s1) as Es.
  unfold device_unref. unfold get_dev. simpl. rewrite lookup_insert_eq. simpl.
  assert (E1 : has_flag
                 (clear_flag (set_flag (clear_flag (flags d) DEVICE_LISTED) DEVICE_HALTED)
                    DEVICE_READY) DEVICE_LISTED = false) by (by flag_simpl).
  assert (E2 : has_flag
                 (clear_flag (set_flag (clear_flag (flags d) DEVICE_LISTED) DEVICE_HALTED)
                    DEVICE_READY) DEVICE_HALTED = true) by (by flag_simpl).
  destruct (refcnt d - 1 =? 0) eqn:Hz.
  - apply Z.eqb_eq in Hz. rewrite E1, E2. simpl.
    eexists. split; [reflexivity|]. simpl. rewrite Et, Eh, End, Enm. simpl.
    split; [done|]. split.
    { intros q Hq. by rewrite lookup_delete_ne, !lookup_insert_ne. }
    split.
    { rewrite decide_True by lia. apply lookup_delete_eq. }
    split; [|done]. intros m. by rewrite Es.
  - apply Z.eqb_neq in Hz.
    eexists. split; [reflexivity|]. simpl. rewrite Et, Eh, End, Enm. simpl.
    split; [done|]. split.
    { intros q Hq. by rewrite !lookup_insert_ne. }
    split.
    { rewrite decide_False by lia. apply lookup_insert_eq. }
    split; [|done]. intros m. by rewrite Es.
Qed.


End References.

(** ** Stopping and cleaning up *)

Section Stopping.
Context `{Externals}.

Lemma elem_of_collect_all s hl p :
  inv s hl ->
  p ∈ device_table_collect DEVICE_ALL_FLAGS s
  <-> exists n, device_table s !! n = Some p.
Proof.
  intros Hinv. rewrite elem_of_device_table_collect. split.
  - intros (n & d & Hn & _). by exists n.
  - intros (n & Hn). destruct (inv_table _ _ Hinv n p Hn) as (d & Hd & _ & Hl).
    exists n, d. split; [done|]. split; [done|].
    by apply (has_all_flags (flags d) Listed).
Qed.

Lemma NoDup_device_table_collect mask s hl :
  inv s hl -> NoDup (device_table_collect mask s).
Proof.
  intros Hinv. unfold device_table_collect. apply NoDup_omap.
  - intros [n p] [n' p'] q Hin Hin'. simpl.
    apply elem_of_g_tree_foreach in Hin, Hin'.
    destruct (inv_table _ _ Hinv n p Hin) as (d & Hd & Hn & _).
    destruct (inv_table _ _ Hinv n' p' Hin') as (d' & Hd' & Hn' & _).
    rewrite Hd, Hd'.
    destruct (has_flag mask (flags d)); [|done].
    destruct (has_flag mask (flags d')); [|done].
    intros [= ->] [= ->]. rewrite Hd in Hd'. injection Hd' as <-.
    by rewrite <- Hn, <- Hn'.
  - eapply NoDup_fmap_1. apply NoDup_g_tree_foreach.
Qed.

(** The loop of [device_table_purge] over distinct devices of the
    table. *)
Lemma device_del_each_listed l : forall s hl,
  inv s hl -> NoDup l ->
  (forall p, p ∈ l -> exists n, device_table s !! n = Some p) ->
  exists s',
    device_del_each l s = Ok s'
    /\ inv s' hl
    /\ (forall n p, device_table s' !! n = Some p
                    <-> device_table s !! n = Some p /\ p ∉ l)
    /\ (forall m msg', device_http_session s' !! m = Some msg' ->
          exists msg, device_http_session s !! m = Some msg
            /\ (msg_final msg' = msg_final msg
                \/ msg_final msg' = Some SOUP_STATUS_CANCELLED)).
Proof.
  induction l as [|p l IH]; intros s hl Hinv Hnd Hin.
  - exists s. split; [done|]. split; [done|]. split.
    + intros n p. split; [intros Hn; split; [done|apply not_elem_of_nil] | by intros [? _]].
    + intros m msg' Hm. exists msg'. split; [done|]. by left.
  - apply NoDup_cons in Hnd as [Hp Hnd].
    destruct (Hin p) as (n & Hn); [by left|].
    destruct (inv_table _ _ Hinv n p Hn) as (d & Hd & Hname & Hl).
    destruct (device_del_listed p s d Hd Hl)
      as (s1 & Hdel & Htab & _ & _ & Hsess & _).
    pose proof (inv_device_del _ _ _ _ Hinv Hdel) as Hinv1.
    assert (Hkey : forall n' q, device_table s !! n' = Some q -> q <> p -> n' <> name d).
    { intros n' q Hq Hne ->. rewrite Hname in Hq. congruence. }
    destruct (IH s1 hl Hinv1 Hnd) as (s' & Heach & Hinv' & Htab' & Hsess').
    { intros q Hq. destruct (Hin q) as (n' & Hn'); [by right|].
      exists n'. rewrite Htab, lookup_delete_ne; [done|].
      intros Heq. apply (Hkey n' q Hn'); [|done]. intros ->. done. }
    exists s'. simpl. rewrite Hdel. simpl. split; [done|]. split; [done|]. split.
    + intros n' q. rewrite Htab', Htab, not_elem_of_cons. split.
      * intros [[Hne Hq]%lookup_delete_Some Hql]. split; [done|]. split; [|done].
        intros ->. apply Hne. destruct (inv_table _ _ Hinv n' p Hq) as (d' & Hd' & Hn' & _).
        rewrite Hd in Hd'. injection Hd' as <-. congruence.
      * intros [Hq [Hne Hql]]. split; [|done].
        apply lookup_delete_Some. split; [|done].
        intros Heq. by apply (Hkey n' q Hq Hne).
    + intros m msg' Hm. destruct (Hsess' m msg' Hm) as (msg1 & Hm1 & Hf1).
      rewrite Hsess in Hm1. case_decide.
      * destruct (device_http_session s !! m) as [msg|]; [|done].
        injection Hm1 as <-. exists msg. split; [done|]. right.
        by destruct Hf1 as [->| ->].
      * exists msg1. done.
Qed.

(** X7: [device_management_stop] always returns.  It leaves the table
    empty, so that the assertion of [device_management_cleanup] holds and
    the device list is empty; every queued request is cancelled; and the
    records that remain are those with a handle held, halted and not
    ready. *)
Theorem stop_empties_table w :
  reachable w ->
  exists s',
    device_management_stop (st w) = Ok s'
    /\ device_table s' = ∅
    /\ device_management_cleanup s' = Ok s'
    /\ build_list s' = []
    /\ (forall m msg, device_http_session s' !! m = Some msg ->
          msg_final msg = Some SOUP_STATUS_CANCELLED)
    /\ (forall p d, heap s' !! p = Some d ->
          0 < handles_on p (held w)
          /\ halted d = true /\ ready d = false /\ listed d = false).
Proof.
  intros Hw. apply reachable_inv in Hw.
  pose proof (inv_soup_session_abort _ _ Hw) as Hinv0.
  unfold device_management_stop, device_table_purge.
  destruct (device_del_each_listed
              (device_table_collect DEVICE_ALL_FLAGS (soup_session_abort (st w)))
              (soup_session_abort (st w)) (held w) Hinv0)
    as (s' & Heach & Hinv' & Htab & Hsess).
  { by eapply NoDup_device_table_collect. }
  { intros p Hp. by apply (elem_of_collect_all _ _ _ Hinv0) in Hp. }
  assert (Hempty : device_table s' = ∅).
  { apply map_eq. intros n. rewrite lookup_empty.
    destruct (device_table s' !! n) as [p|] eqn:Hn; [|done].
    apply Htab in Hn as [Hn Hp]. exfalso. apply Hp.
    apply (elem_of_collect_all _ _ _ Hinv0). by exists n. }
  exists s'. split; [done|]. split; [done|]. split; [|split; [|split]].
  - unfold device_management_cleanup, device_table_size.
    rewrite Hempty, map_size_empty. done.
  - rewrite build_list_entries. unfold g_tree_foreach.
    rewrite Hempty, map_to_list_empty. done.
  - intros m msg' Hm. destruct (Hsess m msg' Hm) as (msg & Hm0 & Hf).
    simpl in Hm0. rewrite lookup_fmap in Hm0.
    destruct (device_http_session (st w) !! m); [|done].
    injection Hm0 as <-. simpl in Hf. by destruct Hf.
  - intros p d Hd.
    destruct (inv_device _ _ Hinv' p d Hd) as [(_ & Hh & Hr) Ht Hrc Hpos _ _].
    destruct (listed d) eqn:Hl.
    { specialize (Ht eq_refl). rewrite Hempty, lookup_empty in Ht. done. }
    simpl in Hh. split; [lia|]. split; [done|]. split; [|done].
    destruct (ready d); [|done]. by specialize (Hr eq_refl).
Qed.

End Stopping.

(** ** Which calls can fail, and how *)

Section Faults.
Context `{Externals}.












End Faults.

(** ** One request in flight for each device that is not ready *)

Section Busy.
Context `{Externals}.

Lemma busy_weaken s p : busy s None -> busy s (Some p).
Proof. intros Hb q d Hd _. by apply Hb. Qed.

(** The session is all that [busy_dev] reads of the state. *)
Lemma busy_dev_session s s' p d :
  (forall m msg, device_http_session s !! m = Some msg -> msg_final msg = None ->
     ud_dev (msg_userdata msg) = p -> device_http_session s' !! m = Some msg) ->
  busy_dev s p d -> busy_dev s' p d.
Proof.
  intros Hs (Hlen & Hr & Hl). split; [done|]. split; [done|].
  intros Hl' Hr'. destruct (Hl Hl' Hr') as (m & msg & Hp & Hm & Hf & Hu).
  exists m, msg. split; [done|]. split; [by apply Hs|]. done.
Qed.

(** Writing back the record at [p], which is excepted before or after. *)
Lemma busy_put_dev s p d' ex :
  busy s (Some p) -> (ex <> Some p -> busy_dev s p d') ->
  busy (put_dev p d' s) ex.
Proof.
  intros Hb Hp q dq. simpl. rewrite lookup_insert. case_decide as Hq.
  - subst q. intros [= <-] Hex. apply (busy_dev_session s); [done|]. by apply Hp.
  - intros Hdq _. apply (busy_dev_session s); [done|]. apply Hb; [done|]. congruence.
Qed.

Lemma busy_heap_session s s' ex :
  heap s' = heap s -> device_http_session s' = device_http_session s ->
  busy s ex -> busy s' ex.
Proof.
  intros Eh Es Hb p d. rewrite Eh. intros Hd Hex.
  apply (busy_dev_session s); [by rewrite Es|]. by apply Hb.
Qed.

Lemma busy_device_http_get p path cb s s' d :
  (forall m msg, device_http_session s !! m = Some msg -> (m < next_msg s)%nat) ->
  busy s (Some p) ->
  heap s !! p = Some d -> http_pending d = [] -> ready d = false ->
  device_http_get p path cb s = Ok s' ->
  busy s' None.
Proof.
  intros Hinv Hb Hd Hpend Hr. unfold device_http_get.
  apply get_dev_Ok in Hd as Hget. rewrite Hget. simpl.
  destruct (soup_uri_new_with_base (base_url d) path) as [url|]; [simpl|done].
  intros [= <-]. intros q dq. simpl. rewrite lookup_insert. case_decide as Hq.
  - subst q. intros [= <-] _. rewrite Hpend. simpl.
    split; [done|]. split.
    { intros Hx. unfold ready in *. simpl in Hx. congruence. }
    intros _ _.
    eexists _, _. split; [done|]. simpl. rewrite lookup_insert_eq. done.
  - intros Hdq _. assert (Hbq : busy_dev s q dq) by (apply Hb; [done | congruence]).
    apply (busy_dev_session s); [|done].
    intros m msg Hm _ _. simpl. rewrite lookup_insert_ne; [done|].
    intros <-. apply Hinv in Hm. lia.
Qed.

Lemma busy_device_probe_address p addrinfo s s' d :
  (forall m msg, device_http_session s !! m = Some msg -> (m < next_msg s)%nat) ->
  busy s (Some p) ->
  heap s !! p = Some d ->
  http_pending d = [] -> ready d = false ->
  device_probe_address p addrinfo s = Ok s' ->
  busy s' None.
Proof.
  intros Hfresh Hb Hd Hpend Hr. unfold device_probe_address.
  apply get_dev_Ok in Hd as Hget. rewrite Hget. simpl.
  destruct addrinfo as [|a rest]; [done|].
  intros Hp. apply bind_Ok in Hp as ([] & _ & Hp).
  set (d2 := set_base_url _ _) in Hp.
  eapply (busy_device_http_get p _ _ _ _ d2); [| | | | |exact Hp].
  - exact Hfresh.
  - apply (busy_heap_session (put_dev p d2 s)); [done..|].
    apply busy_put_dev; [done | congruence].
  - simpl. apply lookup_insert_eq.
  - done.
  - done.
Qed.

Lemma busy_device_del p s s' d ex :
  busy s ex -> (ex = None \/ ex = Some p) ->
  heap s !! p = Some d -> listed d = true ->
  (length (http_pending d) <= 1)%nat ->
  (forall m msg, m ∈ http_pending d -> device_http_session s !! m = Some msg ->
     ud_dev (msg_userdata msg) = p) ->
  device_del p s = Ok s' ->
  busy s' None.
Proof.
  intros Hb Hex Hd Hl Hlen Hown Hdel.
  destruct (device_del_listed p s d Hd Hl)
    as (s'' & Hdel' & _ & Hothers & Hp & Hsess & _).
  rewrite Hdel in Hdel'. injection Hdel' as <-.
  intros q dq Hq _. destruct (decide (q = p)) as [->|Hne].
  - rewrite Hp in Hq. case_decide; [done|]. injection Hq as <-.
    split; [done|]. split.
    + unfold ready. by flag_simpl.
    + unfold listed. by flag_simpl.
  - rewrite Hothers in Hq by done.
    assert (Hbq : busy_dev s q dq).
    { apply Hb; [done|]. destruct Hex as [->| ->]; congruence. }
    apply (busy_dev_session s); [|done].
    intros m msg Hm _ Hu. rewrite Hsess.
    destruct (decide (m ∈ http_pending d)) as [Hin|Hin]; [|exact Hm].
    exfalso. rewrite (Hown m msg Hin Hm) in Hu. congruence.
Qed.

Lemma busy_capabilities_callback p status body s s' d :
  (forall m msg, device_http_session s !! m = Some msg -> (m < next_msg s)%nat) ->
  busy s (Some p) ->
  heap s !! p = Some d -> listed d = true ->
  http_pending d = [] -> ready d = false ->
  device_scanner_capabilities_callback p status body s = Ok s' ->
  busy s' None.
Proof.
  intros Hfresh Hb Hd Hl Hpend Hr. unfold device_scanner_capabilities_callback.
  apply get_dev_Ok in Hd as Hget. rewrite Hget. simpl.
  destruct (capabilities_check status body (caps d)) as [c err].
  set (s1 := put_dev p (set_caps c d) (emit (DbgCapsStatus (name d) status) s)).
  assert (Hb1 : busy s1 (Some p)).
  { apply busy_put_dev; [|congruence].
    by apply (busy_heap_session s). }
  assert (Hd1 : heap s1 !! p = Some (set_caps c d)) by (simpl; apply lookup_insert_eq).
  destruct err as [e|].
  - simpl. destruct (addr_current d) as [|a0 [|a1 rest]].
    + apply (busy_device_del p s1 s' (set_caps c d) (Some p)); try done; [by right| |].
      * simpl. rewrite Hpend. simpl. lia.
      * simpl. rewrite Hpend. intros m msg Hin. by apply elem_of_nil in Hin.
    + apply (busy_device_del p s1 s' (set_caps c d) (Some p)); try done; [by right| |].
      * simpl. rewrite Hpend. simpl. lia.
      * simpl. rewrite Hpend. intros m msg Hin. by apply elem_of_nil in Hin.
    + by apply (busy_device_probe_address p _ s1 s' (set_caps c d)).
  - intros Hs'. apply bind_Ok in Hs' as ([] & _ & Hs').
    apply bind_Ok in Hs' as (d2 & Hset & Hs'). injection Hs' as <-.
    apply device_set_source_Ok in Hset as (_ & _ & _ & Hp2 & _).
    apply busy_put_dev; [done|]. intros _. simpl in Hp2.
    unfold busy_dev. simpl. rewrite Hp2, Hpend. simpl.
    split; [lia|]. split; [done|]. intros _. unfold ready. by flag_simpl.
Qed.

Lemma busy_http_done m status body s s' hl :
  inv s hl -> busy s None -> http_done m status body s = Ok s' -> busy s' None.
Proof.
  intros Hinv Hb. unfold http_done.
  destruct (device_http_session s !! m) as [msg|] eqn:Hm; [|by intros [= <-]].
  set (s0 := set_session (delete m (device_http_session s)) s).
  assert (Hlive : forall st, msg_final msg = None -> st <> SOUP_STATUS_CANCELLED ->
            device_http_callback m st body (msg_userdata msg) s0 = Ok s' ->
            busy s' None).
  { intros st Hnone Hst. unfold device_http_callback.
    apply Z.eqb_neq in Hst. rewrite Hst. simpl.
    destruct (inv_session _ _ Hinv m msg Hm Hnone) as (d & Hd & Hl & Hin).
    destruct (Hb _ d Hd) as (Hlen & Hrdy & Hlst); [done|].
    assert (Hr : ready d = false).
    { destruct (ready d); [|done]. rewrite Hrdy in Hin by done.
      by apply elem_of_nil in Hin. }
    destruct (Hlst Hl Hr) as (m' & msg' & Hpend & _).
    rewrite Hpend in Hin. apply list_elem_of_singleton in Hin as ->.
    unfold get_dev. simpl. rewrite Hd. simpl.
    destruct (ud_callback (msg_userdata msg)). simpl.
    set (p := ud_dev (msg_userdata msg)) in *.
    set (d1 := set_http_pending _ d).
    assert (Hd1pend : http_pending d1 = []).
    { subst d1. simpl. rewrite Hpend. simpl. by rewrite bool_decide_eq_true_2. }
    apply (busy_capabilities_callback p _ _ _ _ d1); try done.
    - intros x msgx Hx. unfold s0 in Hx. simpl in Hx.
      apply lookup_delete_Some in Hx as [_ Hx].
      by apply (inv_session_fresh _ _ Hinv) in Hx.
    - apply busy_put_dev; [|congruence].
      intros q dq Hq Hne. apply (busy_dev_session s).
      + intros x msgx Hx _ Hu. simpl. rewrite lookup_delete_ne; [done|].
        intros <-. rewrite Hm in Hx. injection Hx as <-.
        apply Hne. f_equal. exact Hu.
      + apply Hb; done.
    - simpl. apply lookup_insert_eq. }
  assert (Hgone : msg_final msg <> None -> busy s0 None).
  { intros Hf q dq Hq _. apply (busy_dev_session s); [|by apply Hb].
    intros x msgx Hx Hnonex _. simpl. rewrite lookup_delete_ne; [done|].
    intros <-. rewrite Hm in Hx. injection Hx as <-. done. }
  destruct (msg_final msg) as [forced|] eqn:Hf.
  - rewrite (inv_final _ _ Hinv m msg forced Hm Hf).
    unfold device_http_callback. simpl. intros [= <-]. by apply Hgone.
  - destruct (status =? SOUP_STATUS_CANCELLED) eqn:Hst; [by intros [= <-]|].
    apply Z.eqb_neq in Hst. by apply Hlive.
Qed.

Lemma busy_device_add n s :
  busy s None -> busy (device_add n s).2 (Some (next_dev s)).
Proof.
  intros Hb q dq. simpl. rewrite lookup_insert. case_decide as Hq.
  - subst q. congruence.
  - intros Hdq _. apply (busy_dev_session s); [done|]. by apply Hb.
Qed.

Lemma busy_device_found n init_scan addrs s s' hl :
  inv s hl -> busy s None -> device_found n init_scan addrs s = Ok s' ->
  busy s' None.
Proof.
  intros Hinv Hb. unfold device_found.
  destruct (device_find n s) as [q|] eqn:Hfind.
  { intros [= <-]. by apply (busy_heap_session s). }
  pose proof (busy_device_add n s Hb) as Hb1.
  destruct (device_add_lookup n s) as (Hp & d0 & Hd0 & Hn0 & Hf0 & Hr0 & Hpend0 & _).
  pose proof (inv_session_fresh _ _ Hinv) as Hfresh.
  change (device_http_session s) with (device_http_session (device_add n s).2) in Hfresh.
  change (next_msg s) with (next_msg (device_add n s).2) in Hfresh.
  destruct (device_add n s) as [p s1] eqn:Hadd. simpl in *. subst p.
  apply get_dev_Ok in Hd0 as Hget. rewrite Hget. simpl.
  intros Hprobe.
  eapply busy_device_probe_address; [| | | | |exact Hprobe].
  - exact Hfresh.
  - apply busy_put_dev; [done|congruence].
  - simpl. apply lookup_insert_eq.
  - by destruct init_scan.
  - destruct init_scan; unfold ready; simpl; rewrite Hf0; done.
Qed.

Lemma busy_device_add_static n uri s s' hl :
  inv s hl -> busy s None -> device_add_static n uri s = Ok s' ->
  busy s' None.
Proof.
  intros Hinv Hb. unfold device_add_static.
  destruct (device_find n s) as [q|] eqn:Hfind.
  { intros [= <-]. by apply (busy_heap_session s). }
  pose proof (busy_device_add n s Hb) as Hb1.
  destruct (device_add_lookup n s) as (Hp & d0 & Hd0 & Hn0 & Hf0 & Hr0 & Hpend0 & _).
  pose proof (inv_session_fresh _ _ Hinv) as Hfresh.
  change (device_http_session s) with (device_http_session (device_add n s).2) in Hfresh.
  change (next_msg s) with (next_msg (device_add n s).2) in Hfresh.
  destruct (device_add n s) as [p s1] eqn:Hadd. simpl in *. subst p.
  apply get_dev_Ok in Hd0 as Hget. rewrite Hget. simpl.
  intros Hget'.
  eapply busy_device_http_get; [| | | | |exact Hget'].
  - exact Hfresh.
  - apply busy_put_dev; [done|congruence].
  - simpl. apply lookup_insert_eq.
  - by destruct (has_suffix_slash _).
  - destruct (has_suffix_slash _); unfold ready; simpl; rewrite Hf0; done.
Qed.

Lemma busy_device_removed n s s' hl :
  inv s hl -> busy s None -> device_removed n s = Ok s' -> busy s' None.
Proof.
  intros Hinv Hb. unfold device_removed, device_find.
  destruct (device_table s !! n) as [p|] eqn:Hn; [|by intros [= <-]].
  destruct (inv_table _ _ Hinv n p Hn) as (d & Hd & _ & Hl).
  destruct (Hb p d Hd) as (Hlen & Hrdy & Hlst); [done|].
  apply (busy_device_del p s s' d None); try done; [by left|].
  intros m msg Hin Hm. destruct (ready d) eqn:Hr.
  - rewrite Hrdy in Hin by done. by apply elem_of_nil in Hin.
  - destruct (Hlst Hl eq_refl) as (m' & msg' & Hpend & Hm' & _ & Hu).
    rewrite Hpend in Hin. apply list_elem_of_singleton in Hin as ->.
    rewrite Hm in Hm'. by injection Hm' as <-.
Qed.

Lemma busy_device_open n s s' r :
  busy s None -> device_open n s = Ok (r, s') -> busy s' None.
Proof.
  intros Hb. unfold device_open, device_find.
  destruct (device_table s !! n) as [p|] eqn:Hn; [|by intros [= <- <-]].
  intros Ho. apply bind_Ok in Ho as (d & Hd & Ho). apply get_dev_Ok in Hd as Hd'.
  destruct (has_flag (flags d) DEVICE_READY); [|by injection Ho as <- <-].
  unfold device_ref in Ho. rewrite Hd in Ho. simpl in Ho. injection Ho as <- <-.
  apply busy_put_dev; [by apply busy_weaken|].
  intros _. by apply (Hb p d).
Qed.

Lemma busy_device_close h s s' :
  busy s None -> device_close h s = Ok s' -> busy s' None.
Proof.
  intros Hb Hclose. unfold device_close in Hclose.
  apply device_unref_Ok in Hclose as (d & Hd & Hcase).
  destruct Hcase as [(_ & _ & _ & ->)|(_ & ->)].
  - intros q dq. simpl. intros [Hne Hq]%lookup_delete_Some.
    intros _.
    apply (busy_dev_session s); [done|]. by apply Hb.
  - apply busy_put_dev; [by apply busy_weaken|].
    intros _. by apply (Hb h d).
Qed.

Lemma device_del_pending p s s' :
  device_del p s = Ok s' ->
  forall q d', heap s' !! q = Some d' ->
  exists d, heap s !! q = Some d /\ http_pending d' = http_pending d.
Proof.
  intros Hdel. pose proof Hdel as Hdel0. unfold device_del in Hdel0.
  apply bind_Ok in Hdel0 as (d & Hd & Hdel0). apply get_dev_Ok in Hd.
  apply bind_Ok in Hdel0 as ([] & Hl & _).
  apply g_assert_Ok in Hl.
  destruct (device_del_listed p s d Hd Hl) as (s'' & Hdel' & _ & Hothers & Hp & _).
  rewrite Hdel in Hdel'. injection Hdel' as <-.
  intros q d' Hq. destruct (decide (q = p)) as [->|Hne].
  - rewrite Hp in Hq. case_decide; [done|]. injection Hq as <-. by exists d.
  - rewrite Hothers in Hq by done. by exists d'.
Qed.

Lemma device_del_each_pending l : forall s s',
  device_del_each l s = Ok s' ->
  forall q d', heap s' !! q = Some d' ->
  exists d, heap s !! q = Some d /\ http_pending d' = http_pending d.
Proof.
  induction l as [|p l IH]; intros s s'; simpl.
  - intros [= <-] q d' Hq. by exists d'.
  - intros Hd. apply bind_Ok in Hd as (s1 & Hdel & Hrest).
    intros q d' Hq. destruct (IH s1 s' Hrest q d' Hq) as (d1 & Hd1 & E1).
    destruct (device_del_pending p s s1 Hdel q d1 Hd1) as (d & Hd & E).
    exists d. split; [done|]. congruence.
Qed.

Lemma busy_device_management_stop s s' hl :
  inv s hl -> busy s None -> device_management_stop s = Ok s' -> busy s' None.
Proof.
  intros Hinv Hb Hstop.
  pose proof (inv_device_management_stop _ _ _ Hinv Hstop) as Hinv'.
  pose proof (inv_soup_session_abort _ _ Hinv) as Hinv0.
  unfold device_management_stop, device_table_purge in Hstop.
  destruct (device_del_each_listed
              (device_table_collect DEVICE_ALL_FLAGS (soup_session_abort s))
              (soup_session_abort s) hl Hinv0)
    as (s'' & Heach & _ & Htab & _).
  { by eapply NoDup_device_table_collect. }
  { intros p Hp. by apply (elem_of_collect_all _ _ _ Hinv0) in Hp. }
  rewrite Hstop in Heach. injection Heach as <-.
  intros p d' Hd' _.
  destruct (device_del_each_pending _ _ _ Hstop p d' Hd') as (d & Hd & Hpend).
  destruct (inv_device _ _ Hinv' p d' Hd') as [(_ & _ & Hr) Ht _ _ _ _].
  assert (Hl : listed d' = false).
  { destruct (listed d') eqn:Hl; [|done]. specialize (Ht eq_refl).
    apply Htab in Ht as [Ht Hp]. exfalso. apply Hp.
    apply (elem_of_collect_all _ _ _ Hinv0). by eexists. }
  split; [|split].
  - rewrite Hpend. by destruct (Hb p d Hd).
  - intros Hr'. specialize (Hr Hr'). congruence.
  - congruence.
Qed.

Lemma busy_step e w w' :
  inv (st w) (held w) -> busy (st w) None -> step e w = Ok w' -> busy (st w') None.
Proof.
  intros Hinv Hb. destruct e; simpl.
  - intros Hs. apply bind_Ok in Hs as (s & Hs & [= <-]). simpl.
    by eapply busy_device_add_static.
  - intros Hs. apply bind_Ok in Hs as (s & Hs & [= <-]). simpl.
    by eapply busy_device_found.
  - intros Hs. apply bind_Ok in Hs as (s & Hs & [= <-]). simpl.
    by eapply busy_device_removed.
  - intros Hs. apply bind_Ok in Hs as (s & Hs & [= <-]). simpl.
    by eapply busy_http_done.
  - intros Hs. apply bind_Ok in Hs as (s & Hs & [= <-]). simpl.
    by eapply busy_device_management_stop.
  - intros Hs. apply bind_Ok in Hs as ([r s] & Hs & [= <-]). simpl.
    by eapply busy_device_open.
  - case_bool_decide as Hh; [|by intros [= <-]].
    intros Hs. apply bind_Ok in Hs as (s & Hs & [= <-]). simpl.
    by eapply busy_device_close.
Qed.

Lemma reachable_busy w : reachable w -> busy (st w) None.
Proof.
  induction 1 as [|w e w' Hw IH Hstep].
  - intros p d Hd. simpl in Hd. by rewrite lookup_empty in Hd.
  - apply reachable_inv in Hw. by eapply busy_step.
Qed.

(** X9: each device has at most one request in flight.  In every world
    the process can reach, a device has at most one pending request; a
    ready device has none; and a listed device that is not ready has
    exactly one, which is queued on the session, not cancelled, and
    carries the device in its user data: a device that is listed is ready
    or is being asked for its capabilities. *)
Theorem one_request_in_flight w p d :
  reachable w -> heap (st w) !! p = Some d ->
  (length (http_pending d) <= 1)%nat
  /\ (ready d = true -> http_pending d = [])
  /\ (listed d = true -> ready d = false ->
      exists m msg,
        http_pending d = [m] /\ device_http_session (st w) !! m = Some msg
        /\ msg_final msg = None /\ ud_dev (msg_userdata msg) = p).
Proof.
  intros Hw Hd. apply reachable_busy in Hw. by apply (Hw p d).
Qed.

End Busy.

(** ** Capabilities without a source, static devices, starting *)

Section Static.
Context `{Externals}.

(** X10: capabilities that parse without error but name no source abort
    the process: the loop of [device_scanner_capabilities_callback] runs
    up to [NUM_OPT_SOURCE] and the assertion below it fails. *)
Theorem no_source_aborts s p d status body c :
  0 <= NUM_OPT_SOURCE ->
  heap s !! p = Some d ->
  capabilities_check status body (caps d) = (c, None) ->
  (forall i, 0 <= i < NUM_OPT_SOURCE -> src_is_null c i = true) ->
  device_scanner_capabilities_callback p status body s
  = Fault (AssertFailed "opt_src != NUM_OPT_SOURCE").
Proof.
  intros Hn Hd Hc Hall. unfold device_scanner_capabilities_callback.
  apply get_dev_Ok in Hd. rewrite Hd. simpl. rewrite Hc. simpl.
  destruct (initial_source_loop_spec (Z.to_nat NUM_OPT_SOURCE) 0 c)
    as (Hr & _ & Hstop).
  fold (initial_source c) in Hr, Hstop.
  assert (Heq : initial_source c = NUM_OPT_SOURCE).
  { destruct (decide (initial_source c < NUM_OPT_SOURCE)) as [Hlt|Hge]; [|lia].
    exfalso. apply Hstop; [lia|]. split; [done|]. apply Hall. lia. }
  rewrite Heq, Z.eqb_refl. done.
Qed.

Lemma has_suffix_slash_app path : has_suffix_slash (path ++ "/") = true.
Proof.
  induction path as [|c rest IH]; [done|].
  change (has_suffix_slash (String c (rest ++ "/")) = true).
  destruct rest as [|c' rest']; [done|].
  exact IH.
Qed.

(** What [device_add_static] leaves for a name that is not in the
    table. *)
Lemma device_add_static_fresh n uri s s' :
  (forall u path, soup_uri_get_path (soup_uri_set_path u path) = path) ->
  device_find n s = None ->
  device_add_static n uri s = Ok s' ->
  exists d u url,
    device_table s' = <[n := next_dev s]> (device_table s)
    /\ heap s' = <[next_dev s := d]> (heap s)
    /\ name d = n /\ refcnt d = 1
    /\ flags d = set_flag DEVICE_LISTED DEVICE_INIT_WAIT
    /\ addr_current d = [] /\ caps d = devcaps_init
    /\ base_url d = Some u /\ has_suffix_slash (soup_uri_get_path u) = true
    /\ (has_suffix_slash (soup_uri_get_path uri) = true -> u = uri)
    /\ http_pending d = [next_msg s]
    /\ soup_uri_new_with_base (Some u) "ScannerCapabilities" = Some url
    /\ device_http_session s'
       = <[next_msg s :=
             {| msg_uri := url;
                msg_userdata := {| ud_dev := next_dev s;
                                   ud_callback := cb_scanner_capabilities |};
                msg_final := None |}]> (device_http_session s)
    /\ trace s' = HttpQueued (next_msg s) url :: DbgCreated n :: trace s.
Proof.
  intros Hpath Hfind. unfold device_add_static. rewrite Hfind.
  unfold device_add, get_dev. simpl. rewrite lookup_insert_eq. simpl.
  unfold device_http_get, get_dev. simpl. rewrite lookup_insert_eq. simpl.
  set (d0 := if has_suffix_slash (soup_uri_get_path uri) then _ else _).
  assert (Hb : exists u, base_url d0 = Some u
                 /\ has_suffix_slash (soup_uri_get_path u) = true
                 /\ (has_suffix_slash (soup_uri_get_path uri) = true -> u = uri)
                 /\ name d0 = n /\ refcnt d0 = 1
                 /\ flags d0 = set_flag DEVICE_LISTED DEVICE_INIT_WAIT
                 /\ addr_current d0 = [] /\ caps d0 = devcaps_init
                 /\ http_pending d0 = []).
  { subst d0. destruct (has_suffix_slash (soup_uri_get_path uri)) eqn:Hs.
    - exists uri. simpl. by rewrite Hs.
    - eexists. simpl. split; [done|]. rewrite Hpath, has_suffix_slash_app. done. }
  destruct Hb as (u & Hu & Hslash & Huri & Hn & Hr & Hf & Ha & Hc & Hp).
  rewrite Hu. destruct (soup_uri_new_with_base (Some u) "ScannerCapabilities")
    as [url|] eqn:Hurl; [|done].
  simpl. intros [= <-].
  exists (set_http_pending (http_pending d0 ++ [next_msg s]) d0), u, url. simpl.
  split; [done|]. split; [by rewrite !insert_insert_eq|].
  rewrite Hp. done.
Qed.

(** X11: [device_add_static] for a new name enters a record under the
    name, listed and in the initial wait, with one reference, a base URL
    whose path ends in a slash (the given URI, when its path already
    does), and one request for ScannerCapabilities relative to that base,
    queued and pending. *)
Theorem device_add_static_registers n uri s s' :
  (forall u path, soup_uri_get_path (soup_uri_set_path u path) = path) ->
  device_find n s = None ->
  device_add_static n uri s = Ok s' ->
  exists d u url,
    device_find n s' = Some (next_dev s)
    /\ heap s' !! next_dev s = Some d
    /\ name d = n /\ refcnt d = 1
    /\ listed d = true /\ init_wait d = true /\ ready d = false
    /\ base_url d = Some u /\ has_suffix_slash (soup_uri_get_path u) = true
    /\ (has_suffix_slash (soup_uri_get_path uri) = true -> u = uri)
    /\ http_pending d = [next_msg s]
    /\ soup_uri_new_with_base (Some u) "ScannerCapabilities" = Some url
    /\ device_http_session s' !! next_msg s
       = Some {| msg_uri := url;
                 msg_userdata := {| ud_dev := next_dev s;
                                    ud_callback := cb_scanner_capabilities |};
                 msg_final := None |}
    /\ trace s' = HttpQueued (next_msg s) url :: DbgCreated n :: trace s.
Proof.
  intros Hpath Hfind Hadd.
  destruct (device_add_static_fresh n uri s s' Hpath Hfind Hadd)
    as (d & u & url & Ht & Hh & Hn & Hr & Hf & _ & _ & Hu & Hslash & Huri
        & Hp & Hurl & Hs & Htr).
  exists d, u, url. unfold device_find. rewrite Ht, Hh, Hs, !lookup_insert_eq.
  unfold listed, init_wait, ready. rewrite Hf.
  repeat (split; [done|]). done.
Qed.

(** X12: a static device gets one attempt.  When the request queued by
    [device_add_static] completes, not cancelled, and the answer is not
    capabilities, the device is taken out of the table and, nobody else
    holding it, destroyed: there is no address to go on with. *)
Theorem static_device_one_attempt n uri s s' status body c e :
  (forall u path, soup_uri_get_path (soup_uri_set_path u path) = path) ->
  device_find n s = None ->
  device_add_static n uri s = Ok s' ->
  status <> SOUP_STATUS_CANCELLED ->
  capabilities_check status body devcaps_init = (c, Some e) ->
  exists s'',
    http_done (next_msg s) status body s' = Ok s''
    /\ device_table s'' = device_table s
    /\ heap s'' !! next_dev s = None
    /\ device_http_session s'' !! next_msg s = None
    /\ exists url, trace s''
         = [DbgDestroyed n; DbgRemoved n; DbgCapsStatus n status;
            HttpQueued (next_msg s) url; DbgCreated n] ++ trace s.
Proof.
  intros Hpath Hfind Hadd Hst Hcheck.
  destruct (device_add_static_fresh n uri s s' Hpath Hfind Hadd)
    as (d & u & url & Ht & Hh & Hn & Hr & Hf & Ha & Hc & _ & _ & _
        & Hp & _ & Hs & Htr).
  unfold http_done. rewrite Hs, lookup_insert_eq. simpl.
  apply Z.eqb_neq in Hst. rewrite Hst. unfold device_http_callback. rewrite Hst.
  simpl. unfold get_dev at 1. simpl. rewrite Hh, lookup_insert_eq. simpl.
  rewrite Hp. simpl. rewrite bool_decide_eq_true_2 by done.
  unfold device_scanner_capabilities_callback, get_dev at 1. simpl.
  rewrite lookup_insert_eq. simpl. rewrite Hc, Hcheck. simpl. rewrite Ha.
  unfold device_del, get_dev at 1. simpl. rewrite lookup_insert_eq. simpl.
  rewrite Hf. simpl.
  unfold device_unref, get_dev at 1. simpl. rewrite lookup_insert_eq. simpl.
  rewrite Hr. simpl.
  eexists. split; [reflexivity|]. simpl.
  rewrite Ht, Hn, Htr. split.
  { rewrite delete_insert_eq. apply delete_id. exact Hfind. }
  split; [apply lookup_delete_eq|]. split; [apply lookup_delete_eq|].
  by exists url.
Qed.




(** X14: once no request is in flight, nothing holds the list back.  In
    a world the process can reach, where every message still queued was
    cancelled, each device of the table is ready, [device_table_ready]
    holds, the list has one entry for each device of the table, and
    [device_list_get], the initial scan over, returns it without
    waiting. *)
Theorem quiet_table_is_ready w :
  reachable w ->
  (forall m msg, device_http_session (st w) !! m = Some msg ->
     msg_final msg <> None) ->
  (forall n p, device_table (st w) !! n = Some p ->
     exists d, heap (st w) !! p = Some d /\ ready d = true)
  /\ device_table_ready (st w) = true
  /\ length (build_list (st w)) = device_table_size (st w)
  /\ (forall now t,
        device_list_get now
          [{| view_state := st w; view_init_scan := false; view_time := t |}]
        = Some (build_list (st w))).
Proof.
  intros Hw Hquiet.
  pose proof (reachable_busy w Hw) as Hb. apply reachable_inv in Hw.
  assert (Hready : forall n p, device_table (st w) !! n = Some p ->
            exists d, heap (st w) !! p = Some d /\ ready d = true).
  { intros n p Hn. destruct (inv_table _ _ Hw n p Hn) as (d & Hd & _ & Hl).
    exists d. split; [done|]. destruct (ready d) eqn:Hr; [done|].
    destruct (Hb p d Hd) as (_ & _ & Hlst); [done|].
    destruct (Hlst Hl Hr) as (m & msg & _ & Hm & Hf & _).
    by destruct (Hquiet m msg Hm). }
  assert (Htr : device_table_ready (st w) = true).
  { unfold device_table_ready. apply Nat.eqb_eq.
    destruct (device_table_collect DEVICE_INIT_WAIT (st w)) as [|p l] eqn:Hc; [done|].
    assert (Hp : p ∈ device_table_collect DEVICE_INIT_WAIT (st w))
      by (rewrite Hc; by left).
    apply elem_of_device_table_collect in Hp as (n & d & Hn & Hd & Hf).
    destruct (Hready n p Hn) as (d' & Hd' & Hr). rewrite Hd in Hd'.
    injection Hd' as <-.
    destruct (inv_device _ _ Hw p d Hd) as [(Hri & _) _ _ _ _ _].
    rewrite Hr in Hri. simpl in Hri. unfold init_wait in Hri.
    rewrite has_flag_comm in Hf. congruence. }
  split; [done|]. split; [done|]. split.
  - rewrite build_list_entries. unfold device_table_size.
    rewrite <- length_g_tree_foreach.
    assert (Hall : forall kv, kv ∈ g_tree_foreach (device_table (st w)) ->
              is_Some (list_entry (st w) kv)).
    { intros [n p] Hin. apply elem_of_g_tree_foreach in Hin.
      destruct (Hready n p Hin) as (d & Hd & Hr). unfold list_entry. simpl.
      rewrite Hd. unfold ready in Hr. rewrite has_flag_comm in Hr.
      rewrite Hr. by eexists. }
    induction (g_tree_foreach (device_table (st w))) as [|kv l IH]; [done|].
    csimpl. destruct (Hall kv) as [info ->]; [by left|]. csimpl.
    f_equal. apply IH. intros kv' Hkv'. apply Hall. by right.
  - intros now t. unfold device_list_get. simpl. unfold must_wait. simpl.
    rewrite Htr. done.
Qed.

End Static.

(** ** The properties above on the sample runs *)

(** The list of "Zeta" and "Alpha", found in this order. *)
Lemma device_list_sorted_distinct_witness :
  let l := build_list (st MoreRuns.two_ready) in
  StronglySorted
    (fun a b => String.leb (sane_name a) (sane_name b) = true) l
  /\ NoDup (sane_name <$> l)
  /\ (length l <= device_table_size (st MoreRuns.two_ready))%nat.
Proof.
  apply (device_list_sorted_distinct MoreRuns.two_ready).
  apply reachable_world_after. eexists. vm_compute. reflexivity.
Defined.

(** The names of "Zeta" and "Alpha". *)
Lemma listed_names_unique_witness :
  let w := MoreRuns.two_ready in
  (forall p q d d',
     heap (st w) !! p = Some d -> heap (st w) !! q = Some d' ->
     listed d = true -> listed d' = true -> name d = name d' -> p = q)
  /\ (forall n p,
        device_find n (st w) = Some p
        <-> exists d, heap (st w) !! p = Some d /\ name d = n /\ listed d = true).
Proof.
  apply (listed_names_unique MoreRuns.two_ready).
  apply reachable_world_after. eexists. vm_compute. reflexivity.
Defined.



(** Stopping while "Printer1" is open. *)
Lemma stop_empties_table_witness :
  let w := MoreRuns.opened in
  exists s',
    device_management_stop (st w) = Ok s'
    /\ device_table s' = ∅
    /\ device_management_cleanup s' = Ok s'
    /\ build_list s' = []
    /\ (forall m msg, device_http_session s' !! m = Some msg ->
          msg_final msg = Some SOUP_STATUS_CANCELLED)
    /\ (forall p d, heap s' !! p = Some d ->
          0 < handles_on p (held w)
          /\ halted d = true /\ ready d = false /\ listed d = false).
Proof.
  apply (stop_empties_table MoreRuns.opened).
  apply reachable_world_after. eexists. vm_compute. reflexivity.
Defined.


(** The request of "Printer1" while it probes. *)
Lemma one_request_in_flight_witness :
  let w := SampleRuns.probing in
  let d := SampleRuns.device_at w 1%nat in
  heap (st w) !! 1%nat = Some d
  /\ (length (http_pending d) <= 1)%nat
  /\ (ready d = true -> http_pending d = [])
  /\ (listed d = true -> ready d = false ->
      exists m msg,
        http_pending d = [m] /\ device_http_session (st w) !! m = Some msg
        /\ msg_final msg = None /\ ud_dev (msg_userdata msg) = 1%nat).
Proof.
  intros w d.
  assert (Hd : heap (st w) !! 1%nat = Some d) by (vm_compute; reflexivity).
  split; [exact Hd|].
  apply (one_request_in_flight w 1%nat d); [|exact Hd].
  apply reachable_world_after. eexists. vm_compute. reflexivity.
Defined.

(** A document without sources, accepted by the parser. *)
Lemma no_source_aborts_witness :
  let s := (@device_add Bare.externals "Printer1" initial_state).2 in
  @device_scanner_capabilities_callback Bare.externals 1%nat 200 "<caps/>" s
  = Fault (AssertFailed "opt_src != NUM_OPT_SOURCE").
Proof.
  intros s.
  eapply (@no_source_aborts Bare.externals s 1%nat _ 200 "<caps/>"
            (@devcaps_init Bare.externals)).
  - vm_compute. discriminate.
  - vm_compute. reflexivity.
  - vm_compute. reflexivity.
  - intros i Hi. change (@NUM_OPT_SOURCE Bare.externals) with 3 in Hi.
    assert (Hcase : i = 0 \/ i = 1 \/ i = 2) by lia.
    destruct Hcase as [->|[->| ->]]; reflexivity.
Defined.

(** "Office" is configured with a path that lacks the slash. *)
Lemma device_add_static_registers_witness :
  exists s' d u,
    device_add_static "Office" "http://192.0.2.9:8080/eSCL" initial_state = Ok s'
    /\ device_find "Office" s' = Some 1%nat
    /\ heap s' !! 1%nat = Some d
    /\ listed d = true /\ init_wait d = true /\ ready d = false
    /\ base_url d = Some u /\ has_suffix_slash (soup_uri_get_path u) = true
    /\ http_pending d = [1%nat].
Proof.
  destruct (device_add_static "Office" "http://192.0.2.9:8080/eSCL" initial_state)
    as [s'|f] eqn:Hadd; [|vm_compute in Hadd; discriminate].
  destruct (device_add_static_registers "Office" "http://192.0.2.9:8080/eSCL"
              initial_state s')
    as (d & u & url & Hfind & Hd & _ & _ & Hl & Hi & Hr & Hu & Hslash & _ & Hp & _).
  - intros u path. reflexivity.
  - reflexivity.
  - exact Hadd.
  - exists s', d, u. repeat (split; [done|]). exact Hp.
Defined.

(** "Office" answers 404. *)
Lemma static_device_one_attempt_witness :
  exists s' s'',
    device_add_static "Office" "http://192.0.2.9:8080/eSCL" initial_state = Ok s'
    /\ http_done 1%nat 404 "" s' = Ok s''
    /\ device_table s'' = ∅
    /\ heap s'' !! 1%nat = None
    /\ device_http_session s'' !! 1%nat = None.
Proof.
  destruct (device_add_static "Office" "http://192.0.2.9:8080/eSCL" initial_state)
    as [s'|f] eqn:Hadd; [|vm_compute in Hadd; discriminate].
  destruct (static_device_one_attempt "Office" "http://192.0.2.9:8080/eSCL"
              initial_state s' 404 ""
              devcaps_init "failed to load ScannerCapabilities")
    as (s'' & Hdone & Ht & Hh & Hs & _).
  - intros u path. reflexivity.
  - reflexivity.
  - exact Hadd.
  - vm_compute. discriminate.
  - reflexivity.
  - exists s', s''. done.
Defined.


(** "Zeta" and "Alpha" have answered. *)
Lemma quiet_table_is_ready_witness :
  let w := MoreRuns.two_ready in
  (forall n p, device_table (st w) !! n = Some p ->
     exists d, heap (st w) !! p = Some d /\ ready d = true)
  /\ device_table_ready (st w) = true
  /\ length (build_list (st w)) = device_table_size (st w)
  /\ (forall now t,
        device_list_get now
          [{| view_state := st w; view_init_scan := false; view_time := t |}]
        = Some (build_list (st w))).
Proof.
  apply (quiet_table_is_ready MoreRuns.two_ready).
  - apply reachable_world_after. eexists. vm_compute. reflexivity.
  - intros m msg Hm.
    assert (E : device_http_session (st MoreRuns.two_ready) = ∅)
      by (vm_compute; reflexivity).
    rewrite E, lookup_empty in Hm. discriminate.
Defined.

(** ** The options of the devices that callers can hold *)

Section Settled.
Context `{Externals}.

(** [configured] reads the capabilities and the options only. *)
Lemma configured_ext d d' :
  caps d' = caps d -> opt_src d' = opt_src d ->
  opt_colormode d' = opt_colormode d -> opt_resolution d' = opt_resolution d ->
  opt_tl_x d' = opt_tl_x d -> opt_tl_y d' = opt_tl_y d ->
  opt_br_x d' = opt_br_x d -> opt_br_y d' = opt_br_y d ->
  configured d -> configured d'.
Proof.
  intros Ec Es Em Er Ex Ey Ebx Eby (source & Hc).
  exists source. rewrite Ec, Es, Em, Er, Ex, Ey, Ebx, Eby. exact Hc.
Qed.

Lemma settled_heap s s' hl : heap s' = heap s -> settled s hl -> settled s' hl.
Proof. intros E Hs p d. rewrite E. apply Hs. Qed.

Lemma settled_put_dev s hl p d' :
  settled s hl ->
  (listed d' = true -> ready d' = false -> p ∉ hl) ->
  (ready d' = true \/ listed d' = false -> configured d') ->
  settled (put_dev p d' s) hl.
Proof.
  intros Hs H1 H2 q dq. simpl. rewrite lookup_insert. case_decide as Hq.
  - subst q. intros [= <-]. done.
  - apply Hs.
Qed.

(** The record at [p] is being probed and changes to another that is
    listed and not ready. *)
Lemma settled_probing s hl p d d' :
  settled s hl -> heap s !! p = Some d ->
  listed d = true -> ready d = false ->
  listed d' = true -> ready d' = false ->
  settled (put_dev p d' s) hl.
Proof.
  intros Hs Hd Hl Hr Hl' Hr'. apply settled_put_dev; [done| |].
  - intros _ _. by apply (Hs p d).
  - intros [Hx|Hx]; congruence.
Qed.

Lemma settled_device_http_get p path cb s s' hl d :
  settled s hl -> heap s !! p = Some d ->
  listed d = true -> ready d = false ->
  device_http_get p path cb s = Ok s' ->
  settled s' hl.
Proof.
  intros Hs Hd Hl Hr. unfold device_http_get.
  apply get_dev_Ok in Hd as Hget. rewrite Hget. simpl.
  destruct (soup_uri_new_with_base (base_url d) path) as [url|]; [simpl|done].
  intros [= <-].
  apply (settled_heap (put_dev p (set_http_pending (http_pending d ++ [next_msg s]) d) s));
    [done|].
  by apply (settled_probing s hl p d).
Qed.

Lemma settled_device_probe_address p addrinfo s s' hl d :
  settled s hl -> heap s !! p = Some d ->
  listed d = true -> ready d = false ->
  device_probe_address p addrinfo s = Ok s' ->
  settled s' hl.
Proof.
  intros Hs Hd Hl Hr. unfold device_probe_address.
  apply get_dev_Ok in Hd as Hget. rewrite Hget. simpl.
  destruct addrinfo as [|a rest]; [done|].
  intros Hp. apply bind_Ok in Hp as ([] & _ & Hp).
  set (d2 := set_base_url _ _) in Hp.
  eapply (settled_device_http_get p _ _ _ _ hl d2); [| | | |exact Hp].
  - apply (settled_heap (put_dev p d2 s)); [done|].
    by apply (settled_probing s hl p d).
  - simpl. apply lookup_insert_eq.
  - done.
  - done.
Qed.

Lemma settled_device_del p s s' hl d :
  settled s hl -> heap s !! p = Some d -> listed d = true ->
  refcnt d = 1 + handles_on p hl ->
  device_del p s = Ok s' ->
  settled s' hl.
Proof.
  intros Hs Hd Hl Hrc Hdel.
  destruct (device_del_listed p s d Hd Hl)
    as (s'' & Hdel' & _ & Hothers & Hp & _).
  rewrite Hdel in Hdel'. injection Hdel' as <-.
  intros q dq Hq. destruct (decide (q = p)) as [->|Hne].
  - rewrite Hp in Hq. case_decide as Hone; [done|]. injection Hq as <-.
    split.
    + unfold listed. flag_simpl. done.
    + intros _. destruct (Hs p d Hd) as [Hprobe Hconf].
      apply (configured_ext d); try done. apply Hconf. left.
      destruct (ready d) eqn:Hr; [done|]. exfalso.
      apply (Hprobe Hl eq_refl). apply dec_stable. intros Hnot.
      apply handles_on_zero in Hnot. lia.
  - rewrite Hothers in Hq by done. by apply Hs.
Qed.

Lemma settled_capabilities_callback p status body s s' hl d :
  0 <= NUM_OPT_SOURCE ->
  settled s hl -> heap s !! p = Some d ->
  listed d = true -> ready d = false ->
  refcnt d = 1 + handles_on p hl ->
  device_scanner_capabilities_callback p status body s = Ok s' ->
  settled s' hl.
Proof.
  intros Hnum Hs Hd Hl Hr Hrc. unfold device_scanner_capabilities_callback.
  apply get_dev_Ok in Hd as Hget. rewrite Hget. simpl.
  destruct (capabilities_check status body (caps d)) as [c err].
  set (s1 := put_dev p (set_caps c d) (emit (DbgCapsStatus (name d) status) s)).
  assert (Hs1 : settled s1 hl).
  { by apply (settled_probing _ hl p d). }
  assert (Hd1 : heap s1 !! p = Some (set_caps c d)) by (simpl; apply lookup_insert_eq).
  destruct err as [e|].
  - simpl. destruct (addr_current d) as [|a0 [|a1 rest]].
    + by apply (settled_device_del p s1 s' hl (set_caps c d)).
    + by apply (settled_device_del p s1 s' hl (set_caps c d)).
    + by apply (settled_device_probe_address p _ s1 s' hl (set_caps c d)).
  - intros Hs'. apply bind_Ok in Hs' as ([] & Hne & Hs').
    apply g_assert_Ok in Hne. apply negb_true_iff, Z.eqb_neq in Hne.
    apply bind_Ok in Hs' as (d2 & Hset & Hs'). injection Hs' as <-.
    apply settled_put_dev; [done| |].
    + intros _. unfold ready. flag_simpl. done.
    + intros _. unfold device_set_source in Hset. simpl in Hset.
      destruct (src c !! Z.to_nat (initial_source c)) as [[source|]|] eqn:Hsrc;
        [|done..].
      injection Hset as <-. exists source. simpl.
      destruct (initial_source_loop_spec (Z.to_nat NUM_OPT_SOURCE) 0 c)
        as (Hrange & _ & _).
      fold (initial_source c) in Hrange.
      rewrite Z2Nat.id in Hrange by done.
      split; [lia|]. done.
Qed.

Lemma settled_http_done m status body s s' hl :
  0 <= NUM_OPT_SOURCE ->
  inv s hl -> busy s None -> settled s hl ->
  http_done m status body s = Ok s' -> settled s' hl.
Proof.
  intros Hnum Hinv Hb Hs. unfold http_done.
  destruct (device_http_session s !! m) as [msg|] eqn:Hm; [|by intros [= <-]].
  set (s0 := set_session (delete m (device_http_session s)) s).
  assert (Hs0 : settled s0 hl) by (by apply (settled_heap s)).
  destruct (msg_final msg) as [forced|] eqn:Hf.
  - rewrite (inv_final _ _ Hinv m msg forced Hm Hf).
    unfold device_http_callback. simpl. by intros [= <-].
  - destruct (status =? SOUP_STATUS_CANCELLED) eqn:Hst; [by intros [= <-]|].
    unfold device_http_callback. rewrite Hst. simpl.
    destruct (inv_session _ _ Hinv m msg Hm Hf) as (d & Hd & Hl & Hin).
    destruct (Hb _ d Hd) as (_ & Hrdy & _); [done|].
    assert (Hr : ready d = false).
    { destruct (ready d); [|done]. rewrite Hrdy in Hin by done.
      by apply elem_of_nil in Hin. }
    unfold get_dev. simpl. rewrite Hd. simpl.
    destruct (ud_callback (msg_userdata msg)). simpl.
    set (p := ud_dev (msg_userdata msg)) in *.
    set (d1 := set_http_pending _ d).
    apply (settled_capabilities_callback p _ _ _ _ hl d1); try done.
    + by apply (settled_probing s0 hl p d).
    + simpl. apply lookup_insert_eq.
    + destruct (inv_device _ _ Hinv _ d Hd) as [_ _ Hrc _ _ _].
      rewrite Hl in Hrc. exact Hrc.
Qed.

Lemma settled_device_add n s hl :
  inv s hl -> settled s hl -> settled (device_add n s).2 hl.
Proof.
  intros Hinv Hs q dq. simpl. rewrite lookup_insert. case_decide as Hq.
  - subst q. intros [= <-]. split.
    + intros _ _ Hin. destruct (inv_held _ _ Hinv _ Hin) as [d Hd].
      apply (inv_heap_fresh _ _ Hinv) in Hd. lia.
    + unfold ready, listed. simpl. intros [Hx|Hx]; vm_compute in Hx; discriminate.
  - apply Hs.
Qed.

Lemma settled_device_found n init_scan addrs s s' hl :
  inv s hl -> settled s hl -> device_found n init_scan addrs s = Ok s' ->
  settled s' hl.
Proof.
  intros Hinv Hs. unfold device_found.
  destruct (device_find n s) as [q|] eqn:Hfind.
  { intros [= <-]. by apply (settled_heap s). }
  pose proof (settled_device_add n s hl Hinv Hs) as Hs1.
  destruct (device_add_lookup n s) as (Hp & d0 & Hd0 & Hn0 & Hf0 & Hr0 & Hpend0 & _).
  destruct (device_add n s) as [p s1] eqn:Hadd. simpl in *. subst p.
  apply get_dev_Ok in Hd0 as Hget. rewrite Hget. simpl.
  intros Hprobe.
  assert (Hl0 : listed d0 = true) by (unfold listed; by rewrite Hf0).
  assert (Hrd0 : ready d0 = false) by (unfold ready; by rewrite Hf0).
  eapply settled_device_probe_address; [| | | |exact Hprobe].
  - apply (settled_probing s1 hl _ d0); try done.
    + destruct init_scan; unfold listed; simpl; rewrite Hf0; done.
    + destruct init_scan; unfold ready; simpl; rewrite Hf0; done.
  - simpl. apply lookup_insert_eq.
  - destruct init_scan; unfold listed; simpl; rewrite Hf0; done.
  - destruct init_scan; unfold ready; simpl; rewrite Hf0; done.
Qed.

Lemma settled_device_add_static n uri s s' hl :
  inv s hl -> settled s hl -> device_add_static n uri s = Ok s' ->
  settled s' hl.
Proof.
  intros Hinv Hs. unfold device_add_static.
  destruct (device_find n s) as [q|] eqn:Hfind.
  { intros [= <-]. by apply (settled_heap s). }
  pose proof (settled_device_add n s hl Hinv Hs) as Hs1.
  destruct (device_add_lookup n s) as (Hp & d0 & Hd0 & Hn0 & Hf0 & Hr0 & Hpend0 & _).
  destruct (device_add n s) as [p s1] eqn:Hadd. simpl in *. subst p.
  apply get_dev_Ok in Hd0 as Hget. rewrite Hget. simpl.
  intros Hget'.
  assert (Hl0 : listed d0 = true) by (unfold listed; by rewrite Hf0).
  assert (Hrd0 : ready d0 = false) by (unfold ready; by rewrite Hf0).
  eapply settled_device_http_get; [| | | |exact Hget'].
  - apply (settled_probing s1 hl _ d0); try done.
    + destruct (has_suffix_slash _); unfold listed; simpl; rewrite Hf0; done.
    + destruct (has_suffix_slash _); unfold ready; simpl; rewrite Hf0; done.
  - simpl. apply lookup_insert_eq.
  - destruct (has_suffix_slash _); unfold listed; simpl; rewrite Hf0; done.
  - destruct (has_suffix_slash _); unfold ready; simpl; rewrite Hf0; done.
Qed.

Lemma settled_device_del_inv p s s' hl :
  inv s hl -> settled s hl -> device_del p s = Ok s' -> settled s' hl.
Proof.
  intros Hinv Hs Hdel. pose proof Hdel as Hdel0. unfold device_del in Hdel0.
  apply bind_Ok in Hdel0 as (d & Hd & Hdel0). apply get_dev_Ok in Hd.
  apply bind_Ok in Hdel0 as ([] & Hl & _). apply g_assert_Ok in Hl.
  apply (settled_device_del p s s' hl d); try done.
  destruct (inv_device _ _ Hinv _ d Hd) as [_ _ Hrc _ _ _].
  change (listed d = true) in Hl. rewrite Hl in Hrc. exact Hrc.
Qed.

Lemma settled_device_removed n s s' hl :
  inv s hl -> settled s hl -> device_removed n s = Ok s' -> settled s' hl.
Proof.
  intros Hinv Hs. unfold device_removed.
  destruct (device_find n s) as [p|]; [by apply settled_device_del_inv|].
  by intros [= <-].
Qed.

Lemma settled_device_del_each l : forall s s' hl,
  inv s hl -> settled s hl -> device_del_each l s = Ok s' -> settled s' hl.
Proof.
  induction l as [|p l IH]; intros s s' hl Hinv Hs; simpl.
  - by intros [= <-].
  - intros Hd. apply bind_Ok in Hd as (s1 & Hdel & Hrest).
    apply (IH s1 s' hl); [by eapply inv_device_del | | done].
    by eapply settled_device_del_inv.
Qed.

Lemma settled_device_management_stop s s' hl :
  inv s hl -> settled s hl -> device_management_stop s = Ok s' -> settled s' hl.
Proof.
  intros Hinv Hs. unfold device_management_stop, device_table_purge.
  apply settled_device_del_each; [by apply inv_soup_session_abort|].
  by apply (settled_heap s).
Qed.

Lemma settled_device_open n s s' r hl :
  settled s hl -> device_open n s = Ok (r, s') ->
  settled s' (match r with Some h => h :: hl | None => hl end).
Proof.
  intros Hs. unfold device_open, device_find.
  destruct (device_table s !! n) as [p|] eqn:Hn; [|by intros [= <- <-]].
  intros Ho. apply bind_Ok in Ho as (d & Hd & Ho). apply get_dev_Ok in Hd as Hd'.
  destruct (has_flag (flags d) DEVICE_READY) eqn:Hr; [|by injection Ho as <- <-].
  unfold device_ref in Ho. rewrite Hd in Ho. simpl in Ho. injection Ho as <- <-.
  intros q dq. simpl. rewrite lookup_insert. case_decide as Hq.
  - subst q. intros [= <-]. split.
    + intros _ Hr'. unfold ready in Hr'. simpl in Hr'. congruence.
    + intros _. apply (configured_ext d); try done.
      apply (Hs p d Hd'). by left.
  - intros Hdq. destruct (Hs q dq Hdq) as [H1 H2]. split; [|done].
    intros Hl' Hr'. apply not_elem_of_cons. split; [done|]. by apply H1.
Qed.

Lemma settled_device_close h s s' hl :
  settled s hl -> device_close h s = Ok s' -> settled s' (release h hl).
Proof.
  intros Hs Hclose. unfold device_close in Hclose.
  apply device_unref_Ok in Hclose as (d & Hd & Hcase).
  assert (Hsub : forall q, q ∉ hl -> q ∉ release h hl).
  { intros q Hq Hin. apply Hq. by eapply elem_of_release. }
  destruct Hcase as [(_ & _ & _ & ->)|(_ & ->)].
  - intros q dq. simpl. intros [Hne Hq]%lookup_delete_Some.
    destruct (Hs q dq Hq) as [H1 H2]. split; [|done].
    intros Hl Hr. apply Hsub. by apply H1.
  - intros q dq. simpl. rewrite lookup_insert. case_decide as Hq.
    + subst q. intros [= <-]. destruct (Hs h d Hd) as [H1 H2]. split.
      * intros Hl Hr. apply Hsub. by apply H1.
      * intros Hx. apply (configured_ext d); try done. by apply H2.
    + intros Hdq. destruct (Hs q dq Hdq) as [H1 H2]. split; [|done].
      intros Hl Hr. apply Hsub. by apply H1.
Qed.

Lemma settled_step e w w' :
  0 <= NUM_OPT_SOURCE ->
  inv (st w) (held w) -> busy (st w) None -> settled (st w) (held w) ->
  step e w = Ok w' -> settled (st w') (held w').
Proof.
  intros Hnum Hinv Hb Hs. destruct e; simpl.
  - intros Hx. apply bind_Ok in Hx as (s & Hx & [= <-]). simpl.
    by eapply settled_device_add_static.
  - intros Hx. apply bind_Ok in Hx as (s & Hx & [= <-]). simpl.
    by eapply settled_device_found.
  - intros Hx. apply bind_Ok in Hx as (s & Hx & [= <-]). simpl.
    by eapply settled_device_removed.
  - intros Hx. apply bind_Ok in Hx as (s & Hx & [= <-]). simpl.
    by eapply settled_http_done.
  - intros Hx. apply bind_Ok in Hx as (s & Hx & [= <-]). simpl.
    by eapply settled_device_management_stop.
  - intros Hx. apply bind_Ok in Hx as ([r s] & Hx & [= <-]). simpl.
    by apply (settled_device_open dev_name (st w)).
  - case_bool_decide as Hh; [|by intros [= <-]].
    intros Hx. apply bind_Ok in Hx as (s & Hx & [= <-]). simpl.
    by eapply settled_device_close.
Qed.

Lemma reachable_settled w :
  0 <= NUM_OPT_SOURCE -> reachable w -> settled (st w) (held w).
Proof.
  intros Hnum. induction 1 as [|w e w' Hw IH Hstep].
  - intros p d Hd. simpl in Hd. by rewrite lookup_empty in Hd.
  - eapply settled_step; try done.
    + by apply reachable_inv.
    + by apply reachable_busy.
Qed.

(** X15: what callers can hold has its options.  In every world the
    process can reach, a device that is ready, or that a caller holds a
    handle on (also after it was removed), has a source selected that its
    capabilities hold, with the colour mode and the resolution that
    devcaps chooses for that source, and the window from the origin to
    the maxima of the bottom-right ranges; [device_get_option] stores the
    name of that source, and zero for each of the four corners.  A device
    still being probed is held by no caller. *)
Theorem held_devices_have_options w p d :
  0 <= NUM_OPT_SOURCE ->
  reachable w ->
  heap (st w) !! p = Some d ->
  (ready d = true \/ p ∈ held w ->
   (exists source,
      0 <= opt_src d < NUM_OPT_SOURCE
      /\ src (caps d) !! Z.to_nat (opt_src d) = Some (Some source)
      /\ opt_colormode d
         = devcaps_source_choose_colormode source OPT_COLORMODE_UNKNOWN
      /\ opt_resolution d
         = devcaps_source_choose_resolution source DEVICE_DEFAULT_RESOLUTION
      /\ opt_tl_x d = 0 /\ opt_tl_y d = 0
      /\ opt_br_x d = range_max (br_x_range source)
      /\ opt_br_y d = range_max (br_y_range source))
   /\ device_get_option d OPT_SCAN_SOURCE
      = (SANE_STATUS_GOOD, Some (ValString (opt_source_to_sane (opt_src d))))
   /\ (forall o, o ∈ [OPT_SCAN_TL_X; OPT_SCAN_TL_Y; OPT_SCAN_BR_X; OPT_SCAN_BR_Y] ->
         device_get_option d o = (SANE_STATUS_GOOD, Some (ValWord 0))))
  /\ (listed d = true -> ready d = false -> p ∉ held w).
Proof.
  intros Hnum Hw Hd.
  destruct (reachable_settled w Hnum Hw p d Hd) as [Hprobe Hconf].
  split; [|done].
  intros Hor.
  assert (Hc : configured d).
  { apply Hconf. destruct Hor as [Hr|Hin]; [by left|].
    destruct (ready d) eqn:Hr; [by left|]. right.
    destruct (listed d) eqn:Hl; [|done]. by destruct (Hprobe eq_refl eq_refl). }
  split; [exact Hc|]. split; [done|].
  destruct Hc as (source & _ & _ & _ & _ & Hx & Hy & _).
  intros o Ho. simpl.
  repeat (apply elem_of_cons in Ho as [->|Ho]; [simpl; congruence|]).
  by apply elem_of_nil in Ho.
Qed.

End Settled.
(** "Printer1", removed while a caller holds it, keeps its options. *)
Lemma held_devices_have_options_witness :
  let w := SampleRuns.removed_while_open in
  let d := SampleRuns.device_at w 1%nat in
  heap (st w) !! 1%nat = Some d
  /\ 1%nat ∈ held w
  /\ (exists source,
        src (caps d) !! Z.to_nat (opt_src d) = Some (Some source)
        /\ opt_br_x d = range_max (br_x_range source)
        /\ opt_br_y d = range_max (br_y_range source))
  /\ device_get_option d OPT_SCAN_BR_X = (SANE_STATUS_GOOD, Some (ValWord 0)).
Proof.
  intros w d.
  assert (Hd : heap (st w) !! 1%nat = Some d) by (vm_compute; reflexivity).
  assert (Hin : 1%nat ∈ held w) by (vm_compute; left).
  destruct (held_devices_have_options w 1%nat d) as [Hopt _].
  - vm_compute. discriminate.
  - apply reachable_world_after. eexists. vm_compute. reflexivity.
  - exact Hd.
  - destruct (Hopt (or_intror Hin))
      as ((source & _ & Hsrc & _ & _ & _ & _ & Hbx & Hby) & _ & Hget).
    split; [exact Hd|]. split; [exact Hin|]. split.
    + exists source. split; [exact Hsrc|]. split; [exact Hbx | exact Hby].
    + apply Hget. right. right. left.
Defined.
